(** * Genie conversation client: orchestration and response normalisation

    A shallow embedding of [genie_room.py]: the retrying request executor,
    the completion poller, the answer resolver, the result normaliser and
    the feedback submitter, followed by the properties stated about them.

    Python values that come out of [response.json()] are modelled by the
    type [json]; the dynamic operations the source applies to them
    ([.get], [in], [len], indexing, iteration, truthiness, [==]) are
    written out with the exceptions they raise.  Effects (HTTP exchanges,
    the clock, [time.sleep], the random source used for jitter, the token
    minter) are threaded through an explicit [world]. *)

From Stdlib Require Import ZArith List String Ascii Bool Lia DecimalString.
Import ListNotations.
Open Scope string_scope.
Open Scope Z_scope.

(* ================================================================= *)
(** ** JSON values, as Python sees them *)

(** [json.loads] yields [None], [bool], [int], [str], [list] and [dict].
    Numbers are kept as integers: no function below computes with a
    number.  A [dict] keeps its insertion order, hence the association
    list; a decoded object has pairwise distinct keys and [dict_get]
    reads the first binding of a key. *)
#[warnings="-register-all"]
Inductive json : Type :=
| JNull
| JBool (b : bool)
| JNum (n : Z)
| JStr (s : string)
| JArr (items : list json)
| JObj (fields : list (string * json)).

Fixpoint dict_get (fields : list (string * json)) (k : string) : option json :=
  match fields with
  | [] => None
  | (k', v) :: rest => if String.eqb k' k then Some v else dict_get rest k
  end.

Definition dict_has (fields : list (string * json)) (k : string) : bool :=
  match dict_get fields k with Some _ => true | None => false end.

(** [type(x).__name__] *)
Definition type_name (x : json) : string :=
  match x with
  | JNull => "NoneType"
  | JBool _ => "bool"
  | JNum _ => "int"
  | JStr _ => "str"
  | JArr _ => "list"
  | JObj _ => "dict"
  end.

(** [bool(x)] *)
Definition py_truthy (x : json) : bool :=
  match x with
  | JNull => false
  | JBool b => b
  | JNum n => negb (n =? 0)
  | JStr s => negb (String.eqb s "")
  | JArr l => match l with [] => false | _ => true end
  | JObj f => match f with [] => false | _ => true end
  end.

(** [a == b] on decoded values: [True == 1], lists compare element-wise,
    dicts compare as maps. *)
Fixpoint py_eq (a b : json) {struct a} : bool :=
  match a, b with
  | JNull, JNull => true
  | JBool x, JBool y => Bool.eqb x y
  | JBool x, JNum n => n =? (if x then 1 else 0)
  | JNum n, JBool x => n =? (if x then 1 else 0)
  | JNum m, JNum n => m =? n
  | JStr s, JStr t => String.eqb s t
  | JArr l, JArr m =>
      (fix go (l m : list json) {struct l} : bool :=
         match l, m with
         | [], [] => true
         | x :: l', y :: m' => py_eq x y && go l' m'
         | _, _ => false
         end) l m
  | JObj f, JObj g =>
      Nat.eqb (List.length f) (List.length g) &&
      forallb (fun kv => match dict_get g (fst kv) with
                         | Some v => py_eq (snd kv) v
                         | None => false
                         end) f
  | _, _ => false
  end.

(** [p in s] on two strings. *)
Fixpoint is_substring (p s : string) : bool :=
  String.prefix p s ||
  match s with
  | EmptyString => false
  | String _ s' => is_substring p s'
  end.

Definition dec_of_nat (n : nat) : string := NilZero.string_of_uint (Nat.to_uint n).
Definition dec_of_Z (z : Z) : string := NilZero.string_of_int (Z.to_int z).

(* ================================================================= *)
(** ** HTTP responses and exceptions *)

(** A [requests.Response]: [decoded] is what [response.json()] returns,
    [None] when the body is not JSON. *)
Record response : Type := {
  status_code : Z;
  reason : string;
  url : string;
  text : string;
  decoded : option json
}.

Inductive exn_class : Type :=
| HTTPError          (* requests.exceptions.HTTPError *)
| ConnectionError    (* requests.exceptions.ConnectionError *)
| JSONDecodeError
| TypeError
| AttributeError
| KeyError
| IndexError
| ValueError
| TimeoutError.

(** An exception: its class, [str(e)], and [e.response] for the
    exceptions of [requests]. *)
Record exn : Type := {
  exn_cls : exn_class;
  exn_str : string;
  exn_response : option response
}.

Definition mk_exn (c : exn_class) (msg : string) : exn :=
  {| exn_cls := c; exn_str := msg; exn_response := None |}.

Inductive result (A : Type) : Type :=
| Ok (a : A)
| Raise (e : exn).
Arguments Ok {A} a.
Arguments Raise {A} e.

Definition rbind {A B : Type} (r : result A) (k : A -> result B) : result B :=
  match r with
  | Ok a => k a
  | Raise e => Raise e
  end.

Notation "'let?' x ':=' r 'in' k" := (rbind r (fun x => k))
  (at level 10, x pattern, r at level 100, k at level 200).

(* ================================================================= *)
(** ** The dynamic operations of the source *)

(** [x.get(k, default)] *)
Definition py_get (x : json) (k : string) (default : json) : result json :=
  match x with
  | JObj f => Ok (match dict_get f k with Some v => v | None => default end)
  | _ => Raise (mk_exn AttributeError
                  ("'" ++ type_name x ++ "' object has no attribute 'get'"))
  end.

(** [list(x.keys())] *)
Definition py_keys (x : json) : result (list string) :=
  match x with
  | JObj f => Ok (map fst f)
  | _ => Raise (mk_exn AttributeError
                  ("'" ++ type_name x ++ "' object has no attribute 'keys'"))
  end.

(** [k in x] with [k] a string literal *)
Definition py_in (k : string) (x : json) : result bool :=
  match x with
  | JObj f => Ok (dict_has f k)
  | JStr s => Ok (is_substring k s)
  | JArr l => Ok (existsb (fun item => py_eq item (JStr k)) l)
  | _ => Raise (mk_exn TypeError
                  ("argument of type '" ++ type_name x ++ "' is not iterable"))
  end.

(** [x[k]] with [k] a string literal *)
Definition py_getitem (x : json) (k : string) : result json :=
  match x with
  | JObj f => match dict_get f k with
              | Some v => Ok v
              | None => Raise (mk_exn KeyError ("'" ++ k ++ "'"))
              end
  | JStr _ => Raise (mk_exn TypeError "string indices must be integers, not 'str'")
  | JArr _ => Raise (mk_exn TypeError "list indices must be integers or slices, not str")
  | _ => Raise (mk_exn TypeError
                  ("'" ++ type_name x ++ "' object is not subscriptable"))
  end.

(** [len(x)] *)
Definition py_len (x : json) : result Z :=
  match x with
  | JStr s => Ok (Z.of_nat (String.length s))
  | JArr l => Ok (Z.of_nat (List.length l))
  | JObj f => Ok (Z.of_nat (List.length f))
  | _ => Raise (mk_exn TypeError
                  ("object of type '" ++ type_name x ++ "' has no len()"))
  end.

(** The items a [for] loop over [x] visits. *)
Definition py_iter (x : json) : result (list json) :=
  match x with
  | JStr s => Ok (map (fun c => JStr (String c EmptyString)) (list_ascii_of_string s))
  | JArr l => Ok l
  | JObj f => Ok (map (fun kv => JStr (fst kv)) f)
  | _ => Raise (mk_exn TypeError
                  ("'" ++ type_name x ++ "' object is not iterable"))
  end.

(** [x[i]] with [i] an integer; negative indices count from the end. *)
Definition py_index (x : json) (i : Z) : result json :=
  match x with
  | JArr l =>
      let n := Z.of_nat (List.length l) in
      let j := if i <? 0 then i + n else i in
      if (0 <=? j) && (j <? n)
      then Ok (nth (Z.to_nat j) l JNull)
      else Raise (mk_exn IndexError "list index out of range")
  | JStr s =>
      let n := Z.of_nat (String.length s) in
      let j := if i <? 0 then i + n else i in
      match (if (0 <=? j) && (j <? n) then String.get (Z.to_nat j) s else None) with
      | Some c => Ok (JStr (String c EmptyString))
      | None => Raise (mk_exn IndexError "string index out of range")
      end
  | JObj _ => Raise (mk_exn KeyError (dec_of_Z i))
  | _ => Raise (mk_exn TypeError
                  ("'" ++ type_name x ++ "' object is not subscriptable"))
  end.

Definition is_dict (x : json) : bool :=
  match x with JObj _ => true | _ => false end.

Fixpoint mapM {A B : Type} (f : A -> result B) (l : list A) : result (list B) :=
  match l with
  | [] => Ok []
  | a :: l' => let? b := f a in let? bs := mapM f l' in Ok (b :: bs)
  end.

(* ================================================================= *)
(** ** The world the client runs in *)

Inductive http_method : Type := GET | POST.

(** The resource a request addresses, below the client's [base_url]
    (or, for [SpaceDetails], the space itself).  The identifiers are kept
    as the values the f-string interpolates. *)
Inductive endpoint : Type :=
| StartConversation
| Messages (conversation_id : json)
| MessageOf (conversation_id message_id : json)
| QueryResult (conversation_id message_id attachment_id : json)
| ExecuteQuery (conversation_id message_id attachment_id : json)
| Feedback (conversation_id message_id : json)
| SpaceDetails.

Record request : Type := {
  req_method : http_method;
  req_base : string;
  req_endpoint : endpoint;
  req_authorization : string;
  req_json : option json;
  req_params : list (string * string)
}.

(** What the service does with one request: the exchange takes [latency]
    clock ticks (milliseconds, at least one) and ends either with
    [requests] raising a [ConnectionError] whose text is given, or with a
    response. *)
Record reply : Type := {
  latency : positive;
  outcome : string + response
}.

(** The environment ([replies], [draws], [tokens], [frame_error], the two
    environment variables) and the state the program changes ([now], what
    it has sent, how long it has slept, how many draws and tokens it has
    used).  The [k]-th request of a run receives [replies k].
    [frame_error d cs] is the error, if any, with which the installed
    pandas answers [pd.DataFrame(d, columns=cs)] when [d] is not a list of
    lists under names that are strings (see [pd_DataFrame]). *)
Record world : Type := {
  replies : nat -> reply;
  draws : nat -> Z;
  tokens : nat -> string;
  frame_error : json -> list json -> option exn;
  DATABRICKS_HOST : string;
  SPACE_ID : string;
  now : Z;
  sent : list request;
  slept : list Z;
  drawn : nat;
  minted : nat
}.

Definition M (A : Type) : Type := world -> result A * world.

Definition ret {A : Type} (a : A) : M A := fun w => (Ok a, w).

Definition raise {A : Type} (e : exn) : M A := fun w => (Raise e, w).

Definition lift {A : Type} (r : result A) : M A := fun w => (r, w).

Definition bind {A B : Type} (m : M A) (k : A -> M B) : M B :=
  fun w => match m w with
           | (Ok a, w') => k a w'
           | (Raise e, w') => (Raise e, w')
           end.

(** [try: m  except Exception as e: h e] *)
Definition try_except {A : Type} (m : M A) (h : exn -> M A) : M A :=
  fun w => match m w with
           | (Ok a, w') => (Ok a, w')
           | (Raise e, w') => h e w'
           end.

Notation "x <- m ;; k" := (bind m (fun x => k))
  (at level 61, m at next level, right associativity).
Notation "m ;;; k" := (bind m (fun _ => k))
  (at level 61, right associativity).

(** [time.time()], in milliseconds *)
Definition time_time : M Z := fun w => (Ok (now w), w).

(** [time.sleep(d)], [d] in milliseconds *)
Definition time_sleep (d : Z) : M unit := fun w =>
  if d <? 0
  then (Raise (mk_exn ValueError "sleep length must be non-negative"), w)
  else (Ok tt,
        {| replies := replies w; draws := draws w; tokens := tokens w;
           frame_error := frame_error w;
           DATABRICKS_HOST := DATABRICKS_HOST w; SPACE_ID := SPACE_ID w;
           now := now w + d; sent := sent w; slept := slept w ++ [d];
           drawn := drawn w; minted := minted w |}).

(** [random.uniform(0, hi)], [hi] in milliseconds *)
Definition random_uniform (hi : Z) : M Z := fun w =>
  (Ok (draws w (drawn w) mod (hi + 1)),
   {| replies := replies w; draws := draws w; tokens := tokens w;
      frame_error := frame_error w;
      DATABRICKS_HOST := DATABRICKS_HOST w; SPACE_ID := SPACE_ID w;
      now := now w; sent := sent w; slept := slept w;
      drawn := S (drawn w); minted := minted w |}).

(** Modelled from the spec: [token_minter.get_token()] is the credential
    collaborator, "getToken() -> bearer string", which handles expiry and
    refresh itself; its module is not part of the sources. *)
Definition get_token : M string := fun w =>
  (Ok (tokens w (minted w)),
   {| replies := replies w; draws := draws w; tokens := tokens w;
      frame_error := frame_error w;
      DATABRICKS_HOST := DATABRICKS_HOST w; SPACE_ID := SPACE_ID w;
      now := now w; sent := sent w; slept := slept w;
      drawn := drawn w; minted := S (minted w) |}).

(** [requests.get] / [requests.post] *)
Definition requests_send (r : request) : M response := fun w =>
  let rp := replies w (List.length (sent w)) in
  let w' := {| replies := replies w; draws := draws w; tokens := tokens w;
               frame_error := frame_error w;
               DATABRICKS_HOST := DATABRICKS_HOST w; SPACE_ID := SPACE_ID w;
               now := now w + Z.pos (latency rp); sent := sent w ++ [r];
               slept := slept w; drawn := drawn w; minted := minted w |} in
  match outcome rp with
  | inl msg => (Raise (mk_exn ConnectionError msg), w')
  | inr resp => (Ok resp, w')
  end.

(** [response.raise_for_status()] *)
Definition raise_for_status (r : response) : result unit :=
  if (400 <=? status_code r) && (status_code r <? 500) then
    Raise {| exn_cls := HTTPError;
             exn_str := dec_of_Z (status_code r) ++ " Client Error: " ++ reason r
                        ++ " for url: " ++ url r;
             exn_response := Some r |}
  else if (500 <=? status_code r) && (status_code r <? 600) then
    Raise {| exn_cls := HTTPError;
             exn_str := dec_of_Z (status_code r) ++ " Server Error: " ++ reason r
                        ++ " for url: " ++ url r;
             exn_response := Some r |}
  else Ok tt.

(** [response.json()] *)
Definition response_json (r : response) : result json :=
  match decoded r with
  | Some j => Ok j
  | None => Raise (mk_exn JSONDecodeError "Expecting value: line 1 column 1 (char 0)")
  end.

(* ================================================================= *)
(** ** The retry decorator

    [backoff.on_exception(backoff.expo, Exception, max_tries=5, factor=2,
    jitter=backoff.full_jitter)]: the decorated function is called; when
    it raises and the number of calls made equals [max_tries] the
    exception is re-raised, otherwise the next value of the wait
    generator is taken, jittered, slept, and the function is called
    again. *)

(** [backoff.expo(base=2, factor)]: its [n]-th value, in seconds. *)
Definition expo (factor : Z) (n : nat) : Z := factor * 2 ^ Z.of_nat n.

(** [backoff.full_jitter(value)]: [random.uniform(0, value)] *)
Definition full_jitter (value : Z) : M Z := random_uniform (value * 1000).

(** [remaining] calls may still follow the one made here; [n] waits have
    been taken from the generator.  The wait, in seconds in the source,
    is carried in milliseconds like every duration of the model. *)
Fixpoint retry {A : Type} (factor : Z) (remaining n : nat) (target : M A) : M A :=
  fun w =>
    match target w with
    | (Ok a, w1) => (Ok a, w1)
    | (Raise e, w1) =>
        match remaining with
        | O => (Raise e, w1)
        | S remaining' =>
            (seconds <- full_jitter (expo factor n) ;;
             time_sleep seconds ;;;
             retry factor remaining' (S n) target) w1
        end
    end.

Definition on_exception {A : Type} (max_tries : nat) (factor : Z) (target : M A) : M A :=
  retry factor (max_tries - 1) 0 target.

(* ================================================================= *)
(** ** GenieClient *)

Record GenieClient : Type := {
  host : string;
  space_id : string;
  base_url : string
}.

(** [update_headers]: the headers are rebuilt from a fresh token at the
    start of every method, so the value is handed to the request instead
    of being stored in [self]. *)
Definition update_headers : M string :=
  token <- get_token ;;
  ret ("Bearer " ++ token).

(** [GenieClient(host, space_id)] *)
Definition new_GenieClient (h s : string) : M GenieClient :=
  update_headers ;;;
  ret {| host := h; space_id := s;
         base_url := "https://" ++ h ++ "/api/2.0/genie/spaces/" ++ s |}.

Definition mk_request (m : http_method) (base : string) (e : endpoint)
    (headers : string) (body : option json) (params : list (string * string)) : request :=
  {| req_method := m; req_base := base; req_endpoint := e;
     req_authorization := headers; req_json := body; req_params := params |}.

(** The undecorated body shared by the methods that return
    [response.json()] as it is. *)
Definition json_call (m : http_method) (base : string) (e : endpoint)
    (body : option json) (params : list (string * string)) : M json :=
  headers <- update_headers ;;
  response <- requests_send (mk_request m base e headers body params) ;;
  lift (raise_for_status response) ;;;
  lift (response_json response).

Definition start_conversation (self : GenieClient) (question : string) : M json :=
  on_exception 5 2
    (json_call POST (base_url self) StartConversation
       (Some (JObj [("content", JStr question)])) []).

Definition send_message (self : GenieClient) (conversation_id : json)
    (message : string) : M json :=
  on_exception 5 2
    (json_call POST (base_url self) (Messages conversation_id)
       (Some (JObj [("content", JStr message)])) []).

Definition get_message (self : GenieClient) (conversation_id message_id : json) : M json :=
  on_exception 5 2
    (json_call GET (base_url self) (MessageOf conversation_id message_id) None []).

Definition list_conversation_messages (self : GenieClient) (conversation_id : json) : M json :=
  on_exception 5 2
    (json_call GET (base_url self) (Messages conversation_id) None []).

(** The part of [get_query_result] that follows [response.json()]. *)
Definition extract_query_result (res : json) : result json :=
  let? has_sr := py_in "statement_response" res in
  let? data_array :=
    (if has_sr : bool then
       let? sr := py_getitem res "statement_response" in
       let? has_result := py_in "result" sr in
       if has_result : bool then
         let? r := py_getitem sr "result" in
         py_get r "data_array" (JArr [])
       else Ok (JArr [])
     else Ok (JArr [])) in
  let? sr := py_get res "statement_response" (JObj []) in
  let? manifest := py_get sr "manifest" (JObj []) in
  let? schema := py_get manifest "schema" (JObj []) in
  Ok (JObj [("data_array", data_array); ("schema", schema)]).

Definition get_query_result (self : GenieClient)
    (conversation_id message_id attachment_id : json) : M json :=
  on_exception 5 2
    (res <- json_call GET (base_url self)
              (QueryResult conversation_id message_id attachment_id) None [] ;;
     lift (extract_query_result res)).

Definition execute_query (self : GenieClient)
    (conversation_id message_id attachment_id : json) : M json :=
  on_exception 5 2
    (json_call POST (base_url self)
       (ExecuteQuery conversation_id message_id attachment_id) None []).

Definition get_space_details (self : GenieClient) : M json :=
  on_exception 5 2
    (json_call GET
       ("https://" ++ host self ++ "/api/2.0/genie/spaces/" ++ space_id self)
       SpaceDetails None [("include_serialized_space", "true")]).

(** [send_message_feedback]: not decorated; the [except HTTPError] clause
    logs and re-raises. *)
Definition send_message_feedback (self : GenieClient)
    (conversation_id message_id : json) (feedback_type : string) : M json :=
  headers <- update_headers ;;
  let rating_value :=
    if String.eqb feedback_type "positive" then "POSITIVE" else "NEGATIVE" in
  let payload := JObj [("rating", JStr rating_value)] in
  try_except
    (response <- requests_send
                   (mk_request POST (base_url self) (Feedback conversation_id message_id)
                      headers (Some payload) []) ;;
     lift (raise_for_status response) ;;;
     if String.eqb (text response) "" then ret (JObj [])
     else lift (response_json response))
    (fun e => raise e).

(* ================================================================= *)
(** ** Completion poller *)

(** [status in ["COMPLETED", "ERROR", "FAILED"]] *)
Definition is_terminal (status : json) : bool :=
  existsb (fun item => py_eq item status)
    [JStr "COMPLETED"; JStr "ERROR"; JStr "FAILED"].

Definition timed_out (timeout : Z) : exn :=
  mk_exn TimeoutError
    ("Message processing timed out after " ++ dec_of_Z timeout ++ " seconds").

(** The [while] loop of [wait_for_message_completion].  Every round that
    goes on to the next one has made a request, which takes at least one
    tick, so [timeout * 1000 + 1] rounds always suffice
    ([wait_loop_fuel] below); [fuel] only makes the recursion structural.
    The counter [attempt] of the source is never read and is left out. *)
Fixpoint wait_loop (fuel : nat) (self : GenieClient) (conversation_id message_id : json)
    (timeout poll_interval start_time : Z) : M json :=
  match fuel with
  | O => raise (timed_out timeout)
  | S fuel' =>
      t <- time_time ;;
      if t - start_time <? timeout * 1000 then
        message <- get_message self conversation_id message_id ;;
        status <- lift (py_get message "status" JNull) ;;
        if is_terminal status then ret message
        else
          time_sleep (poll_interval * 1000) ;;;
          wait_loop fuel' self conversation_id message_id timeout poll_interval start_time
      else raise (timed_out timeout)
  end.

(** [timeout] and [poll_interval] are in seconds; both callers leave them
    at their defaults, 300 and 2. *)
Definition wait_for_message_completion (self : GenieClient)
    (conversation_id message_id : json) (timeout poll_interval : Z) : M json :=
  start_time <- time_time ;;
  wait_loop (S (Z.to_nat (timeout * 1000))) self conversation_id message_id
    timeout poll_interval start_time.

(* ================================================================= *)
(** ** Response resolver

    The same lines appear in [start_new_conversation] and in
    [continue_conversation]; they are embedded once. *)

(** The [for i, msg in enumerate(messages)] loop; [None] is [JNull]. *)
Fixpoint find_bot_response (messages : json) (items : list json) (i : Z)
    (message_id : json) : result json :=
  match items with
  | [] => Ok JNull
  | msg :: rest =>
      let? mid := py_get msg "message_id" JNull in
      let? _ := py_get msg "role" (JStr "unknown") in
      if py_eq mid message_id then
        let? n := py_len messages in
        if i + 1 <? n then
          let? bot_response_message := py_index messages (i + 1) in
          let? _ := py_get bot_response_message "message_id" JNull in
          Ok bot_response_message
        else Ok JNull
      else find_bot_response messages rest (i + 1) message_id
  end.

Definition resolve_answer (message_id complete_message messages_response : json)
  : result json :=
  let? messages := py_get messages_response "messages" (JArr []) in
  let? _ := py_len messages in
  let? items := py_iter messages in
  let? bot_response_message := find_bot_response messages items 0 message_id in
  if py_truthy bot_response_message then Ok bot_response_message
  else if py_truthy messages then
    let? full_message := py_index messages (-1) in
    let? _ := py_get full_message "message_id" JNull in
    Ok full_message
  else Ok complete_message.

(* ================================================================= *)
(** ** Result normaliser *)

(** What [process_genie_response] returns as [result]: a decoded value or
    a table.  A table that pandas has built is kept as the two arguments
    it was built from. *)
Inductive pyval : Type :=
| PJson (j : json)
| PDataFrame (data_array : json) (columns : list json).

(** The number of values of the longest row, when every row is a list. *)
Fixpoint widest (rows : list json) : option nat :=
  match rows with
  | [] => Some 0%nat
  | JArr vals :: rest => option_map (Nat.max (List.length vals)) (widest rest)
  | _ :: _ => None
  end.

Definition is_str (x : json) : bool :=
  match x with JStr _ => true | _ => false end.

(** The width of the data when it has the shape of a query result: a
    non-empty list of rows that are lists, to be put under at least one
    name, all names being strings. *)
Definition table_width (data_array : json) (columns : list json) : option nat :=
  match data_array, columns with
  | JArr (row :: rest), _ :: _ =>
      if forallb is_str columns then widest (row :: rest) else None
  | _, _ => None
  end.

(** [pd.DataFrame(data_array, columns=columns)].  pandas is a library,
    not part of the sources.  On data of the shape of a query result it
    collects the rows into an array as wide as the longest row, shorter
    rows being padded, and raises [ValueError] unless there are as many
    names as the array has columns.  What it does with any other shape is
    left to the environment. *)
Definition pd_DataFrame (data_array : json) (columns : list json) : M pyval := fun w =>
  match table_width data_array columns with
  | Some width =>
      if Nat.eqb (List.length columns) width
      then (Ok (PDataFrame data_array columns), w)
      else (Raise (mk_exn ValueError
                     (dec_of_nat (List.length columns) ++ " columns passed, passed data had "
                      ++ dec_of_nat width ++ " columns")), w)
  | None =>
      match frame_error w data_array columns with
      | Some e => (Raise e, w)
      | None => (Ok (PDataFrame data_array columns), w)
      end
  end.

Definition is_None (v : pyval) : bool :=
  match v with PJson JNull => true | _ => false end.

(** First pass: the suggested questions. *)
Fixpoint collect_pass (attachments : list json) (suggested_questions : json)
  : result json :=
  match attachments with
  | [] => Ok suggested_questions
  | attachment :: rest =>
      let? _ := py_keys attachment in
      let? has_sq := py_in "suggested_questions" attachment in
      if has_sq : bool then
        let? sq_data := py_get attachment "suggested_questions" JNull in
        let? well_formed :=
          (if is_dict sq_data then py_in "questions" sq_data else Ok false) in
        if well_formed : bool then
          let? questions := py_get sq_data "questions" (JArr []) in
          let? _ := py_len questions in
          collect_pass rest questions
        else collect_pass rest suggested_questions
      else collect_pass rest suggested_questions
  end.

(** [[f"column_{i}" for i in range(n)]] *)
Definition generic_columns (n : Z) : list json :=
  map (fun i => JStr ("column_" ++ dec_of_nat i)) (seq 0 (Z.to_nat n)).

(** [[col.get('name') for col in schema.get('columns', [])]] *)
Definition schema_columns (schema : json) : result (list json) :=
  let? cols := py_get schema "columns" (JArr []) in
  let? items := py_iter cols in
  mapM (fun col => py_get col "name" JNull) items.

(** Second pass: the content.  [break] ends the recursion. *)
Fixpoint content_pass (client : GenieClient) (conversation_id message_id : json)
    (attachments : list json) (res : pyval) (query_text : json) : M (pyval * json) :=
  match attachments with
  | [] => ret (res, query_text)
  | attachment :: rest =>
      attachment_id <- lift (py_get attachment "attachment_id" JNull) ;;
      has_text <- lift (py_in "text" attachment) ;;
      has_content <-
        (if has_text : bool then
           lift (let? t := py_getitem attachment "text" in py_in "content" t)
         else ret false) ;;
      if has_content : bool then
        content <- lift (let? t := py_getitem attachment "text" in
                         py_getitem t "content") ;;
        ret (PJson content, JNull)
      else
        has_query <- lift (py_in "query" attachment) ;;
        if has_query : bool then
          query_text' <- lift (let? q := py_get attachment "query" (JObj []) in
                               py_get q "query" (JStr "")) ;;
          query_result <- get_query_result client conversation_id message_id
                            attachment_id ;;
          data_array <- lift (py_get query_result "data_array" (JArr [])) ;;
          schema <- lift (py_get query_result "schema" (JObj [])) ;;
          columns <- lift (schema_columns schema) ;;
          if py_truthy data_array then
            columns' <-
              lift (match columns with
                    | [] =>
                        let? n := py_len data_array in
                        if 0 <? n then
                          let? first := py_index data_array 0 in
                          let? width := py_len first in
                          Ok (generic_columns width)
                        else Ok columns
                    | _ :: _ => Ok columns
                    end) ;;
            frame <- pd_DataFrame data_array columns' ;;
            ret (frame, query_text')
          else
            content_pass client conversation_id message_id rest res query_text'
        else
          content_pass client conversation_id message_id rest res query_text
  end.

Definition process_genie_response (client : GenieClient)
    (conversation_id message_id complete_message : json) : M (pyval * json * json) :=
  attachments <- lift (py_get complete_message "attachments" (JArr [])) ;;
  lift (py_len attachments) ;;;
  items <- lift (py_iter attachments) ;;
  suggested_questions <- lift (collect_pass items (JArr [])) ;;
  found <- content_pass client conversation_id message_id items (PJson JNull) JNull ;;
  let '(res, query_text) := found in
  if negb (is_None res) then
    lift (py_len suggested_questions) ;;;
    ret (res, query_text, suggested_questions)
  else
    has_content <- lift (py_in "content" complete_message) ;;
    if has_content : bool then
      lift (py_len suggested_questions) ;;;
      content <- lift (py_get complete_message "content" (JStr "")) ;;
      ret (PJson content, JNull, suggested_questions)
    else
      ret (PJson (JStr "No response available"), JNull, JArr []).

(* ================================================================= *)
(** ** The ask operations *)

(** The [try] block of [start_new_conversation]. *)
Definition start_attempt (client : GenieClient) (question : string)
  : M (json * pyval * json * json) :=
  resp <- start_conversation client question ;;
  conversation_id <- lift (py_get resp "conversation_id" JNull) ;;
  message_id <- lift (py_get resp "message_id" JNull) ;;
  complete_message <-
    wait_for_message_completion client conversation_id message_id 300 2 ;;
  messages_response <- list_conversation_messages client conversation_id ;;
  full_message <-
    lift (resolve_answer message_id complete_message messages_response) ;;
  processed <-
    process_genie_response client conversation_id message_id full_message ;;
  let '(res, query_text, suggested_questions) := processed in
  ret (conversation_id, res, query_text, suggested_questions).

Definition start_new_conversation (question : string)
  : M (json * pyval * json * json) :=
  fun w =>
    (client <- new_GenieClient (DATABRICKS_HOST w) (SPACE_ID w) ;;
     try_except
       (start_attempt client question)
       (fun e =>
          ret (JNull,
               PJson (JStr ("Sorry, an error occurred: " ++ exn_str e
                            ++ ". Please try again.")),
               JNull, JArr []))) w.

Definition rate_limited_text : string :=
  "Sorry, the system is currently experiencing high demand. Please try again in a few moments.".

Definition expired_text : string :=
  "Sorry, the previous conversation has expired. Please try your query again to start a new conversation.".

(** The [except Exception as e] clause of [continue_conversation]. *)
Definition continue_handler (e : exn) : pyval * json * json :=
  if is_substring "429" (exn_str e) || is_substring "Too Many Requests" (exn_str e)
  then (PJson (JStr rate_limited_text), JNull, JArr [])
  else if is_substring "Conversation not found" (exn_str e)
  then (PJson (JStr expired_text), JNull, JArr [])
  else (PJson (JStr ("Sorry, an error occurred: " ++ exn_str e)), JNull, JArr []).

(** The [try] block of [continue_conversation]. *)
Definition continue_attempt (client : GenieClient) (conversation_id : json)
    (question : string) : M (pyval * json * json) :=
  resp <- send_message client conversation_id question ;;
  message_id <- lift (py_get resp "message_id" JNull) ;;
  complete_message <-
    wait_for_message_completion client conversation_id message_id 300 2 ;;
  messages_response <- list_conversation_messages client conversation_id ;;
  full_message <-
    lift (resolve_answer message_id complete_message messages_response) ;;
  process_genie_response client conversation_id message_id full_message.

Definition continue_conversation (conversation_id : json) (question : string)
  : M (pyval * json * json) :=
  fun w =>
    (client <- new_GenieClient (DATABRICKS_HOST w) (SPACE_ID w) ;;
     try_except
       (continue_attempt client conversation_id question)
       (fun e => ret (continue_handler e))) w.

(* ================================================================= *)
(** ** Feedback submitter *)

(** The two [except] clauses of [send_feedback]: the first reads
    [e.response.status_code] before it returns [False]. *)
Definition feedback_handler (e : exn) : M bool :=
  match exn_cls e with
  | HTTPError =>
      match exn_response e with
      | Some _ => ret false
      | None => raise (mk_exn AttributeError
                         "'NoneType' object has no attribute 'status_code'")
      end
  | _ => ret false
  end.

Definition send_feedback (conversation_id message_id : json) (feedback_type : string)
  : M bool :=
  fun w =>
    try_except
      (client <- new_GenieClient (DATABRICKS_HOST w) (SPACE_ID w) ;;
       send_message_feedback client conversation_id message_id feedback_type ;;;
       ret true)
      feedback_handler w.

(* ================================================================= *)
(** ** Space details and the main entry point *)

(** [reversed(x)]: the items a [for] loop over [reversed(x)] visits. *)
Definition py_reversed (x : json) : result (list json) :=
  match x with
  | JStr s => Ok (rev (map (fun c => JStr (String c EmptyString)) (list_ascii_of_string s)))
  | JArr l => Ok (rev l)
  | JObj f => Ok (rev (map (fun kv => JStr (fst kv)) f))
  | _ => Raise (mk_exn TypeError
                  ("'" ++ type_name x ++ "' object is not reversible"))
  end.

(** The loop of [genie_query] over [reversed(messages)]: the identifier
    of the first message met whose role is not "USER". *)
Fixpoint find_bot_message_id (items : list json) : result json :=
  match items with
  | [] => Ok JNull
  | msg :: rest =>
      let? role := py_get msg "role" JNull in
      if negb (py_eq role (JStr "USER")) then py_get msg "message_id" JNull
      else find_bot_message_id rest
  end.

(** The [try] block of [genie_query]. *)
Definition genie_query_attempt (question : string)
  : M (pyval * json * json * json * json) :=
  fun w =>
    (started <- start_new_conversation question ;;
     let '(conversation_id, res, query_text, suggested_questions) := started in
     client <- new_GenieClient (DATABRICKS_HOST w) (SPACE_ID w) ;;
     messages_response <- list_conversation_messages client conversation_id ;;
     messages <- lift (py_get messages_response "messages" (JArr [])) ;;
     bot_message_id <-
       lift (if py_truthy messages then
               let? items := py_reversed messages in find_bot_message_id items
             else Ok JNull) ;;
     ret (res, query_text, suggested_questions, conversation_id, bot_message_id)) w.

Definition genie_query (question : string) : M (pyval * json * json * json * json) :=
  try_except
    (genie_query_attempt question)
    (fun e =>
       ret (PJson (JStr ("Sorry, an error occurred: " ++ exn_str e
                         ++ ". Please try again.")),
            JNull, JArr [], JNull, JNull)).

(** What one entry of [sample_questions] contributes: the first element
    of a non-empty list under "question", or a string under "question";
    nothing otherwise.  The body of the loop raises nothing. *)
Definition sample_question (item : json) : option json :=
  match item with
  | JObj f =>
      match dict_get f "question" with
      | Some (JArr (q :: _)) => Some q
      | Some (JStr s) => Some (JStr s)
      | _ => None
      end
  | _ => None
  end.

Fixpoint sample_questions_of (items : list json) : list json :=
  match items with
  | [] => []
  | item :: rest =>
      match sample_question item with
      | Some q => q :: sample_questions_of rest
      | None => sample_questions_of rest
      end
  end.

Section Decoder.

(** [json.loads] on a [str]: [None] when the text is not JSON.  The
    decoder belongs to the standard library and is a parameter. *)
Variable json_loads : string -> option json.

(** [json.loads(x)] *)
Definition py_json_loads (x : json) : result json :=
  match x with
  | JStr s =>
      match json_loads s with
      | Some j => Ok j
      | None => Raise (mk_exn JSONDecodeError "Expecting value: line 1 column 1 (char 0)")
      end
  | _ => Raise (mk_exn TypeError
                  ("the JSON object must be str, bytes or bytearray, not "
                   ++ type_name x))
  end.

(** The [try] block of [get_sample_questions]. *)
Definition sample_questions_attempt : M (list json) :=
  fun w =>
    (client <- new_GenieClient (DATABRICKS_HOST w) (SPACE_ID w) ;;
     space_details <- get_space_details client ;;
     serialized_space <- lift (py_get space_details "serialized_space" JNull) ;;
     if negb (py_truthy serialized_space) then ret []
     else
       space_config <- lift (py_json_loads serialized_space) ;;
       sample_questions_data <-
         lift (let? config := py_get space_config "config" (JObj []) in
               py_get config "sample_questions" (JArr [])) ;;
       items <- lift (py_iter sample_questions_data) ;;
       ret (sample_questions_of items)) w.

(** Both [except] clauses return the empty list. *)
Definition get_sample_questions : M (list json) :=
  try_except sample_questions_attempt (fun _ => ret []).

(** The inner [try] of [get_space_info]: only a [JSONDecodeError] is
    caught there, and it leaves the description as it was. *)
Definition description_from_serialized (serialized_space space_description : json)
  : result json :=
  match (let? space_config := py_json_loads serialized_space in
         let? config := py_get space_config "config" (JObj []) in
         py_get config "description" JNull) with
  | Ok d => Ok d
  | Raise e =>
      match exn_cls e with
      | JSONDecodeError => Ok space_description
      | _ => Raise e
      end
  end.

(** The [try] block of [get_space_info]. *)
Definition space_info_attempt : M (json * json) :=
  fun w =>
    (client <- new_GenieClient (DATABRICKS_HOST w) (SPACE_ID w) ;;
     space_details <- get_space_details client ;;
     lift (py_keys space_details) ;;;
     space_title <- lift (py_get space_details "title" JNull) ;;
     space_description <- lift (py_get space_details "description" JNull) ;;
     space_title' <-
       lift (if negb (py_truthy space_title) then
               let? display_name := py_get space_details "display_name" JNull in
               if py_truthy display_name then Ok display_name
               else py_get space_details "name" JNull
             else Ok space_title) ;;
     space_description' <-
       lift (if negb (py_truthy space_description) then
               let? serialized_space := py_get space_details "serialized_space" JNull in
               if py_truthy serialized_space
               then description_from_serialized serialized_space space_description
               else Ok space_description
             else Ok space_description) ;;
     ret (space_title', space_description')) w.

Definition get_space_info : M (json * json) :=
  try_except space_info_attempt (fun _ => ret (JNull, JNull)).

End Decoder.

(* ================================================================= *)
(** ** Vocabulary of the statements *)

(** The operations of the authenticated request executor: the seven
    decorated methods of [GenieClient]. *)
Inductive executor_op : Type :=
| OpStartConversation (question : string)
| OpSendMessage (conversation_id : json) (message : string)
| OpGetMessage (conversation_id message_id : json)
| OpListConversationMessages (conversation_id : json)
| OpGetQueryResult (conversation_id message_id attachment_id : json)
| OpExecuteQuery (conversation_id message_id attachment_id : json)
| OpGetSpaceDetails.

Definition run_op (self : GenieClient) (op : executor_op) : M json :=
  match op with
  | OpStartConversation q => start_conversation self q
  | OpSendMessage c m => send_message self c m
  | OpGetMessage c m => get_message self c m
  | OpListConversationMessages c => list_conversation_messages self c
  | OpGetQueryResult c m a => get_query_result self c m a
  | OpExecuteQuery c m a => execute_query self c m a
  | OpGetSpaceDetails => get_space_details self
  end.

(** What [response.raise_for_status()] followed by [response.json()]
    makes of one exchange. *)
Definition exchange_json (rp : reply) : result json :=
  match outcome rp with
  | inl msg => Raise (mk_exn ConnectionError msg)
  | inr resp => let? _ := raise_for_status resp in response_json resp
  end.

(** The outcome of one undecorated call of an operation, as a function of
    the reply its request receives. *)
Definition attempt_outcome (op : executor_op) (rp : reply) : result json :=
  match op with
  | OpGetQueryResult _ _ _ => let? j := exchange_json rp in extract_query_result j
  | _ => exchange_json rp
  end.

Definition raises {A : Type} (r : result A) : Prop :=
  match r with Raise _ => True | Ok _ => False end.

Definition returns {A : Type} (r : result A) : Prop :=
  match r with Ok _ => True | Raise _ => False end.

(** The sleep before retry [j + 1]: the [j]-th draw of the call, taken
    uniformly between 0 and [expo factor j] seconds. *)
Definition backoff_delay (w : world) (factor : Z) (j : nat) : Z :=
  draws w (drawn w + j)%nat mod (expo factor j * 1000 + 1).

(** A world whose first replies are those of [rs] (every later exchange
    fails to connect), at time 0, with nothing sent yet, and in which
    pandas refuses whatever is not rows of values under names. *)
Definition refused : reply :=
  {| latency := 1%positive; outcome := inl "Connection refused" |}.

Definition world_of (rs : list reply) : world :=
  {| replies := fun k => nth k rs refused;
     draws := fun k => 1234 * Z.of_nat k + 700;
     tokens := fun _ => "token";
     frame_error := fun _ _ =>
       Some (mk_exn ValueError "DataFrame constructor not properly called!");
     DATABRICKS_HOST := "example.cloud.databricks.com";
     SPACE_ID := "space";
     now := 0; sent := []; slept := []; drawn := 0; minted := 0 |}.

(** A 200 reply whose body decodes to [j], after [ms] milliseconds. *)
Definition ok_reply (ms : positive) (j : json) : reply :=
  {| latency := ms;
     outcome := inr {| status_code := 200; reason := "OK"; url := "";
                       text := "{...}"; decoded := Some j |} |}.

(** A reply with an error status. *)
Definition error_reply (code : Z) (why u : string) : reply :=
  {| latency := 1%positive;
     outcome := inr {| status_code := code; reason := why; url := u;
                       text := ""; decoded := None |} |}.

Definition a_client : GenieClient :=
  {| host := "example.cloud.databricks.com"; space_id := "space";
     base_url := "https://example.cloud.databricks.com/api/2.0/genie/spaces/space" |}.

(** The world after a method has minted a token and exchanged the
    request [r]. *)
Definition after_exchange (w : world) (r : request) : world :=
  {| replies := replies w; draws := draws w; tokens := tokens w;
     frame_error := frame_error w;
     DATABRICKS_HOST := DATABRICKS_HOST w; SPACE_ID := SPACE_ID w;
     now := now w + Z.pos (latency (replies w (List.length (sent w))));
     sent := sent w ++ [r];
     slept := slept w; drawn := drawn w; minted := S (minted w) |}.

(** [target] makes exactly one exchange per call, and its outcome is [f]
    of the reply. *)
Definition single_exchange {A : Type} (target : M A) (f : reply -> result A) : Prop :=
  forall w, exists r,
    target w = (f (replies w (List.length (sent w))), after_exchange w r).

(** The time that [k] polling rounds take when each makes one exchange,
    the first of them receiving reply [i], and each is followed by a sleep
    of [pause] milliseconds. *)
Fixpoint elapsed_from (rep : nat -> reply) (pause : Z) (i k : nat) : Z :=
  match k with
  | O => 0
  | S k' => Z.pos (latency (rep i)) + pause + elapsed_from rep pause (S i) k'
  end.




(** Polled messages used in the examples. *)
Definition pending_msg : json :=
  JObj [("message_id", JStr "u1"); ("status", JStr "EXECUTING_QUERY")].

Definition failed_msg : json :=
  JObj [("message_id", JStr "u1"); ("status", JStr "FAILED")].

(** [msg.get("message_id")] of a message that is a [dict]. *)
Definition message_id_of (m : json) : json :=
  match m with
  | JObj f => match dict_get f "message_id" with Some v => v | None => JNull end
  | _ => JNull
  end.

(** An entry of the message list: an object that carries an identifier. *)
Definition is_message (m : json) : bool :=
  match m with
  | JObj f => dict_has f "message_id"
  | _ => false
  end.

(** Index of the first entry whose identifier equals [mid]. *)
Fixpoint first_match (items : list json) (mid : json) : option nat :=
  match items with
  | [] => None
  | m :: rest =>
      if py_eq (message_id_of m) mid then Some 0%nat
      else option_map S (first_match rest mid)
  end.

(** Messages used in the examples. *)
Definition user_msg : json :=
  JObj [("message_id", JStr "u1"); ("role", JStr "USER")].

Definition answer_msg : json :=
  JObj [("message_id", JStr "a1"); ("role", JStr "ASSISTANT");
        ("attachments", JArr [JObj [("text", JObj [("content", JStr "42")])]])].

Definition later_msg : json :=
  JObj [("message_id", JStr "u2"); ("role", JStr "USER")].

(** [complete_message.get('content', '')] *)
Definition top_content (f : list (string * json)) : json :=
  match dict_get f "content" with Some v => v | None => JStr "" end.

(** What the normaliser returns when no attachment gave a result. *)
Definition fallback_result (f : list (string * json)) (suggested_questions : json)
  : pyval * json * json :=
  if dict_has f "content"
  then (PJson (top_content f), JNull, suggested_questions)
  else (PJson (JStr "No response available"), JNull, JArr []).

(** [attachment.get("attachment_id")] and
    [attachment.get("query", {}).get("query", "")] of an attachment that
    is a [dict] with a [dict] under "query". *)
Definition attachment_id_of (af : list (string * json)) : json :=
  match dict_get af "attachment_id" with Some v => v | None => JNull end.

Definition query_text_of (qf : list (string * json)) : json :=
  match dict_get qf "query" with Some v => v | None => JStr "" end.

(** Attachments and messages used in the examples. *)
Definition suggestions_att : json :=
  JObj [("attachment_id", JStr "s1");
        ("suggested_questions", JObj [("questions", JArr [JStr "A"; JStr "B"])])].

Definition text_att : json :=
  JObj [("attachment_id", JStr "t1"); ("text", JObj [("content", JStr "Revenue grew.")])].

Definition query_att : json :=
  JObj [("attachment_id", JStr "q1");
        ("query", JObj [("query", JStr "SELECT * FROM sales")])].

Definition rows_3x4 : json :=
  JArr [JArr [JNum 1; JNum 2; JNum 3; JNum 4];
        JArr [JNum 5; JNum 6; JNum 7; JNum 8];
        JArr [JNum 9; JNum 10; JNum 11; JNum 12]].

(** The body of a query-result reply with the given rows and no
    manifest. *)
Definition statement_response (rows : json) : json :=
  JObj [("statement_response", JObj [("result", JObj [("data_array", rows)])])].

(** A row that is a list of at most [n] values. *)
Definition row_within (n : nat) (row : json) : bool :=
  match row with
  | JArr vals => (List.length vals <=? n)%nat
  | _ => false
  end.

(** An attachment the second pass leaves alone: a [dict] with neither
    "text" nor "query". *)
Definition no_content (a : json) : bool :=
  match a with
  | JObj af => negb (dict_has af "text") && negb (dict_has af "query")
  | _ => false
  end.

(** An attachment that has no inline text and, if it has a query
    specification, has a [dict] as such. *)
Definition textless (a : json) : bool :=
  match a with
  | JObj af =>
      negb (dict_has af "text")
      && match dict_get af "query" with
         | None => true
         | Some (JObj _) => true
         | Some _ => false
         end
  | _ => false
  end.

(** The number of attachments that have a query specification. *)
Definition has_query (a : json) : bool :=
  match a with
  | JObj af => dict_has af "query"
  | _ => false
  end.

Definition queries (items : list json) : nat := List.length (filter has_query items).

(** An attachment whose suggested questions the first pass can read: a
    [dict] with no payload, with a payload it ignores, or with questions
    that have a length. *)
Definition readable_questions (a : json) : bool :=
  match a with
  | JObj af =>
      match dict_get af "suggested_questions" with
      | Some (JObj sf) =>
          match dict_get sf "questions" with
          | Some qs => match py_len qs with Ok _ => true | Raise _ => false end
          | None => true
          end
      | _ => true
      end
  | _ => false
  end.

(** The reply carries a query result that has no rows: the exchange goes
    through, the body has the shape [get_query_result] reads, the schema
    can be read and the rows count as false. *)
Definition no_rows (rp : reply) : bool :=
  match (let? body := exchange_json rp in
         let? query_result := extract_query_result body in
         let? data_array := py_get query_result "data_array" (JArr []) in
         let? schema := py_get query_result "schema" (JObj []) in
         let? _ := schema_columns schema in
         Ok (negb (py_truthy data_array))) with
  | Ok b => b
  | Raise _ => false
  end.

(** An attachment the first pass leaves alone: a [dict] with no
    "suggested_questions", or with a payload that is not a [dict], or with
    a [dict] payload that has no "questions". *)
Definition no_questions (a : json) : bool :=
  match a with
  | JObj af =>
      match dict_get af "suggested_questions" with
      | None => true
      | Some (JObj sf) => negb (dict_has sf "questions")
      | Some _ => true
      end
  | _ => false
  end.

(** The feedback post went through: the exchange ended with a response,
    its status is not an error status, and its body is empty or is JSON. *)
Definition feedback_accepted (rp : reply) : bool :=
  match outcome rp with
  | inl _ => false
  | inr resp =>
      negb ((400 <=? status_code resp) && (status_code resp <? 600))
      && (String.eqb (text resp) ""
          || match decoded resp with Some _ => true | None => false end)
  end.

(** The client the module-level operations build. *)
Definition env_client (w : world) : GenieClient :=
  {| host := DATABRICKS_HOST w; space_id := SPACE_ID w;
     base_url := "https://" ++ DATABRICKS_HOST w ++ "/api/2.0/genie/spaces/"
                 ++ SPACE_ID w |}.

(** The world after one token has been minted. *)
Definition after_token (w : world) : world :=
  {| replies := replies w; draws := draws w; tokens := tokens w;
     frame_error := frame_error w;
     DATABRICKS_HOST := DATABRICKS_HOST w; SPACE_ID := SPACE_ID w;
     now := now w; sent := sent w; slept := slept w;
     drawn := drawn w; minted := S (minted w) |}.

(** A service that answers every request about conversation [c] with
    404 and the reason "Conversation not found". *)
Definition conversation_gone (c : string) : world :=
  world_of
    (repeat
       (error_reply 404 "Conversation not found"
          ("https://example.cloud.databricks.com/api/2.0/genie/spaces/space/conversations/"
           ++ c ++ "/messages"))
       5).

(** [target] makes exactly one exchange per call, of the request [req]
    under the token minted for it, and its outcome is [f] of the reply. *)
Definition exchanges {A : Type} (target : M A) (f : reply -> result A)
    (req : string -> request) : Prop :=
  forall w,
    target w = (f (replies w (List.length (sent w))),
                after_exchange w (req ("Bearer " ++ tokens w (minted w)))).

(** The request of an operation of the executor, given its
    [Authorization] header. *)
Definition op_request (self : GenieClient) (op : executor_op) (authorization : string)
  : request :=
  match op with
  | OpStartConversation q =>
      mk_request POST (base_url self) StartConversation authorization
        (Some (JObj [("content", JStr q)])) []
  | OpSendMessage c m =>
      mk_request POST (base_url self) (Messages c) authorization
        (Some (JObj [("content", JStr m)])) []
  | OpGetMessage c m =>
      mk_request GET (base_url self) (MessageOf c m) authorization None []
  | OpListConversationMessages c =>
      mk_request GET (base_url self) (Messages c) authorization None []
  | OpGetQueryResult c m a =>
      mk_request GET (base_url self) (QueryResult c m a) authorization None []
  | OpExecuteQuery c m a =>
      mk_request POST (base_url self) (ExecuteQuery c m a) authorization None []
  | OpGetSpaceDetails =>
      mk_request GET
        ("https://" ++ host self ++ "/api/2.0/genie/spaces/" ++ space_id self)
        SpaceDetails authorization None [("include_serialized_space", "true")]
  end.

(** The sum of a list of durations. *)
Definition total (ds : list Z) : Z := fold_right Z.add 0 ds.

(** The longest the decorator can sleep over [m] retries, the first of
    them after [n0] waits: the sum of the exponential bounds, in
    milliseconds. *)
Fixpoint backoff_budget (factor : Z) (n0 m : nat) : Z :=
  match m with
  | O => 0
  | S m' => expo factor n0 * 1000 + backoff_budget factor (S n0) m'
  end.

(** The world after the decorator has drawn the wait [d] and slept it. *)
Definition after_backoff (w : world) (d : Z) : world :=
  {| replies := replies w; draws := draws w; tokens := tokens w;
     frame_error := frame_error w;
     DATABRICKS_HOST := DATABRICKS_HOST w; SPACE_ID := SPACE_ID w;
     now := now w + d; sent := sent w; slept := slept w ++ [d];
     drawn := S (drawn w); minted := minted w |}.

(** A request for the result of a query attachment of message [m] in
    conversation [c]. *)
Definition is_query_fetch (c m : json) (r : request) : Prop :=
  req_method r = GET /\ exists a, req_endpoint r = QueryResult c m a.

(** From [w] to [w'] at most [n] requests were sent, all of them
    satisfying [P]. *)
Definition sends (P : request -> Prop) (n : nat) (w w' : world) : Prop :=
  exists rs, sent w' = (sent w ++ rs)%list /\ Forall P rs /\ (List.length rs <= n)%nat.

(** A message whose role is "USER", and a message whose role is anything
    else, a missing role included. *)
Definition is_user_message (m : json) : bool :=
  match m with
  | JObj f => py_eq (match dict_get f "role" with Some v => v | None => JNull end)
                    (JStr "USER")
  | _ => false
  end.

Definition is_bot_message (m : json) : bool :=
  match m with
  | JObj f => negb (py_eq (match dict_get f "role" with Some v => v | None => JNull end)
                          (JStr "USER"))
  | _ => false
  end.

(** The error answer of [start_new_conversation] and of [genie_query]. *)
Definition try_again_text (e : exn) : string :=
  "Sorry, an error occurred: " ++ exn_str e ++ ". Please try again.".

(** An entry of [sample_questions] whose "question" is a list that starts
    with [q]. *)
Definition asks (item q : json) : Prop :=
  exists f more, item = JObj f /\ dict_get f "question" = Some (JArr (q :: more)).

(** The title [get_space_info] settles on: "title" if it is true, else
    "display_name" if it is true, else "name". *)
Definition space_title_of (f : list (string * json)) : json :=
  let get k := match dict_get f k with Some v => v | None => JNull end in
  if py_truthy (get "title") then get "title"
  else if py_truthy (get "display_name") then get "display_name"
  else get "name".

(** A decoder for the examples: it knows one text. *)
Definition loads_example (s : string) : option json :=
  if String.eqb s "{config}"
  then Some (JObj [("config",
                    JObj [("description", JStr "Sales of the last quarter");
                          ("sample_questions",
                           JArr [JObj [("id", JStr "1");
                                       ("question", JArr [JStr "Which region grew most?"])];
                                 JObj [("id", JStr "2");
                                       ("question", JArr [JStr "What was the revenue?"])]])])])
  else None.

(** A service that answers one whole question: the submission, a poll
    that finds the message completed, and twice the list of messages. *)
Definition one_question : world :=
  world_of
    [ok_reply 120 (JObj [("conversation_id", JStr "c1"); ("message_id", JStr "u1")]);
     ok_reply 40 (JObj [("message_id", JStr "u1"); ("status", JStr "COMPLETED")]);
     ok_reply 60 (JObj [("messages", JArr [user_msg; answer_msg])]);
     ok_reply 60 (JObj [("messages", JArr [user_msg; answer_msg; later_msg])])].

(** Space details whose configuration [loads_example] can read. *)
Definition space_reply : reply :=
  ok_reply 50 (JObj [("title", JStr ""); ("display_name", JStr "Sales");
                     ("serialized_space", JStr "{config}")]).

(* ================================================================= *)
(** * Properties *)

(** ** The monad and the primitive actions *)

Lemma bind_ok {A B : Type} (m : M A) (k : A -> M B) w a w' :
  m w = (Ok a, w') -> bind m k w = k a w'.
Proof. intros H. unfold bind. now rewrite H. Qed.

Lemma bind_raise {A B : Type} (m : M A) (k : A -> M B) w e w' :
  m w = (Raise e, w') -> bind m k w = (Raise e, w').
Proof. intros H. unfold bind. now rewrite H. Qed.

Lemma lift_run {A : Type} (r : result A) w : lift r w = (r, w).
Proof. reflexivity. Qed.

Lemma json_call_run m base e body ps w :
  json_call m base e body ps w =
    (exchange_json (replies w (List.length (sent w))),
     after_exchange w (mk_request m base e ("Bearer " ++ tokens w (minted w)) body ps)).
Proof.
  unfold json_call, update_headers, get_token, requests_send, exchange_json,
    after_exchange, bind, ret, lift; simpl.
  destruct (outcome (replies w (List.length (sent w)))) as [msg | resp]; [reflexivity |].
  destruct (raise_for_status resp) as [[] | err]; simpl.
  - destruct (response_json resp); reflexivity.
  - reflexivity.
Qed.

Lemma json_call_single m base e body ps :
  single_exchange (json_call m base e body ps) exchange_json.
Proof. intros w. eexists. apply json_call_run. Qed.

Lemma query_result_call_single base e :
  single_exchange
    (res <- json_call GET base e None [] ;; lift (extract_query_result res))
    (fun rp => let? j := exchange_json rp in extract_query_result j).
Proof.
  intros w. eexists. unfold bind. rewrite json_call_run.
  destruct (exchange_json _); reflexivity.
Qed.

(** ** The retry decorator *)

Lemma expo_nonneg factor n : 0 <= factor -> 0 <= expo factor n.
Proof. intros H. unfold expo. apply Z.mul_nonneg_nonneg; [assumption | apply Z.pow_nonneg; lia]. Qed.

Lemma expo_doubles factor n : expo factor (S n) = 2 * expo factor n.
Proof. unfold expo. rewrite Nat2Z.inj_succ, Z.pow_succ_r by lia. ring. Qed.

Lemma backoff_delay_bounds w factor j :
  0 <= factor -> 0 <= backoff_delay w factor j <= expo factor j * 1000.
Proof.
  intros H. unfold backoff_delay.
  pose proof (expo_nonneg factor j H).
  pose proof (Z.mod_pos_bound (draws w (drawn w + j)%nat) (expo factor j * 1000 + 1)).
  lia.
Qed.

(** [retry] returns the outcome of the first call that does not raise, or
    of the last call it is allowed; it sleeps once between two calls. *)
Lemma retry_run {A : Type} (target : M A) (f : reply -> result A) (factor : Z) :
  single_exchange target f -> 0 <= factor ->
  forall (remaining n0 : nat) (w : world) (n : nat),
    (n <= remaining)%nat ->
    (forall j, (j < n)%nat -> raises (f (replies w (List.length (sent w) + j)%nat))) ->
    (n = remaining \/ returns (f (replies w (List.length (sent w) + n)%nat))) ->
    exists w',
      retry factor remaining n0 target w
        = (f (replies w (List.length (sent w) + n)%nat), w')
      /\ replies w' = replies w /\ draws w' = draws w
      /\ List.length (sent w') = (List.length (sent w) + n + 1)%nat
      /\ slept w' = (slept w ++
           map (fun j => draws w (drawn w + j)%nat mod (expo factor (n0 + j) * 1000 + 1))
               (seq 0 n))%list
      /\ drawn w' = (drawn w + n)%nat
      /\ now w <= now w'.
Proof.
  intros Hone Hfac. induction remaining as [| remaining IH]; intros n0 w n Hle Hfail Hlast.
  - assert (n = 0%nat) by lia. subst n.
    destruct (Hone w) as [r Hr]. exists (after_exchange w r).
    rewrite Nat.add_0_r. simpl. rewrite Hr.
    destruct (f (replies w (List.length (sent w)))); simpl;
      rewrite ?app_nil_r, ?length_app; simpl; repeat split; lia.
  - destruct (Hone w) as [r Hr]. destruct n as [| n].
    + exists (after_exchange w r). rewrite Nat.add_0_r in *. simpl. rewrite Hr.
      destruct Hlast as [Hlast | Hlast]; [discriminate |].
      destruct (f (replies w (List.length (sent w)))); [| contradiction].
      simpl; rewrite ?app_nil_r, ?length_app; simpl; repeat split; lia.
    + pose proof (Hfail 0%nat ltac:(lia)) as H0. rewrite Nat.add_0_r in H0.
      simpl. rewrite Hr.
      destruct (f (replies w (List.length (sent w)))) as [a | e]; [contradiction |].
      unfold bind at 1, full_jitter, random_uniform. simpl.
      unfold bind at 1, time_sleep. simpl.
      set (d := draws w (drawn w) mod (expo factor n0 * 1000 + 1)).
      assert (Hd : 0 <= d).
      { pose proof (expo_nonneg factor n0 Hfac).
        apply Z.mod_pos_bound. lia. }
      destruct (d <? 0) eqn:Hneg; [lia |].
      match goal with |- context [retry factor remaining (S n0) target ?x] =>
        set (w2 := x) end.
      assert (Hlen2 : List.length (sent w2) = S (List.length (sent w))).
      { subst w2. simpl. rewrite length_app. simpl. lia. }
      destruct (IH (S n0) w2 n) as (w' & Hrun & Hrep & Hdr & Hlen & Hsl & Hdn & Hnow).
      * lia.
      * intros j Hj. rewrite Hlen2. change (replies w2) with (replies w).
        replace (S (List.length (sent w)) + j)%nat
          with (List.length (sent w) + S j)%nat by lia.
        apply Hfail. lia.
      * destruct Hlast as [Hlast | Hlast]; [left; lia | right].
        rewrite Hlen2. change (replies w2) with (replies w).
        replace (S (List.length (sent w)) + n)%nat
          with (List.length (sent w) + S n)%nat by lia.
        exact Hlast.
      * exists w'. rewrite Hlen2 in Hrun, Hlen. change (replies w2) with (replies w) in Hrun.
        replace (S (List.length (sent w)) + n)%nat
          with (List.length (sent w) + S n)%nat in Hrun by lia.
        split; [exact Hrun |].
        split; [exact Hrep |]. split; [exact Hdr |]. split; [lia |].
        split.
        { rewrite Hsl. subst w2. simpl. rewrite <- app_assoc. f_equal. simpl.
          rewrite Nat.add_0_r. f_equal; [subst d; now rewrite Nat.add_0_r |].
          rewrite <- seq_shift, map_map. apply map_ext. intros j.
          simpl. now rewrite !Nat.add_succ_r. }
        split; [rewrite Hdn; subst w2; simpl; lia |].
        subst w2. simpl in Hnow. lia.
Qed.

Lemma run_op_retry self op :
  exists target,
    run_op self op = on_exception 5 2 target
    /\ single_exchange target (attempt_outcome op).
Proof.
  destruct op; simpl; eexists; (split; [reflexivity |]);
    first [apply json_call_single | apply query_result_call_single].
Qed.

(** C9.  Every decorated method of the client retries on any exception its
    body raises (a failed connection, an error status of any kind, a body
    that cannot be read): with [n] the number of leading failed calls,
    capped at 4, the method makes exactly [n + 1] requests, returns what
    call [n + 1] returns (so after five failures it re-raises the fifth
    exception as it is), and sleeps before each retry for a time drawn
    uniformly between 0 and the exponential bound, which starts at 2
    seconds and doubles at every retry. *)
Theorem executor_retry_policy (self : GenieClient) (op : executor_op) (w : world) (n : nat) :
  (n <= 4)%nat ->
  (forall j, (j < n)%nat ->
     raises (attempt_outcome op (replies w (List.length (sent w) + j)%nat))) ->
  (n = 4%nat \/
   returns (attempt_outcome op (replies w (List.length (sent w) + n)%nat))) ->
  fst (run_op self op w)
    = attempt_outcome op (replies w (List.length (sent w) + n)%nat)
  /\ List.length (sent (snd (run_op self op w))) = (List.length (sent w) + n + 1)%nat
  /\ slept (snd (run_op self op w)) = (slept w ++ map (backoff_delay w 2) (seq 0 n))%list
  /\ (forall j, 0 <= backoff_delay w 2 j <= expo 2 j * 1000)
  /\ expo 2 0 = 2
  /\ (forall j, expo 2 (S j) = 2 * expo 2 j).
Proof.
  intros Hn Hfail Hlast.
  destruct (run_op_retry self op) as (target & Hrun & Hone).
  destruct (retry_run target (attempt_outcome op) 2 Hone ltac:(lia) 4 0 w n Hn Hfail Hlast)
    as (w' & Hr & _ & _ & Hlen & Hsl & _ & _).
  rewrite Hrun. unfold on_exception. simpl Nat.sub. rewrite Hr. cbn [fst snd].
  split; [reflexivity |]. split; [exact Hlen |]. split; [exact Hsl |].
  split; [intros j; apply backoff_delay_bounds; lia |].
  split; [reflexivity | intros j; apply expo_doubles].
Qed.

(** Four failures of four kinds, then an answer: five requests, four
    sleeps. *)
Lemma executor_retry_policy_witness :
  fst (run_op a_client (OpGetMessage (JStr "c") (JStr "m"))
         (world_of [error_reply 400 "Bad Request" "u"; refused;
                    error_reply 503 "Service Unavailable" "u";
                    error_reply 429 "Too Many Requests" "u";
                    ok_reply 5 (JObj [("status", JStr "COMPLETED")])]))
    = Ok (JObj [("status", JStr "COMPLETED")])
  /\ List.length
       (sent (snd (run_op a_client (OpGetMessage (JStr "c") (JStr "m"))
         (world_of [error_reply 400 "Bad Request" "u"; refused;
                    error_reply 503 "Service Unavailable" "u";
                    error_reply 429 "Too Many Requests" "u";
                    ok_reply 5 (JObj [("status", JStr "COMPLETED")])])))) = 5%nat.
Proof.
  pose proof (executor_retry_policy a_client (OpGetMessage (JStr "c") (JStr "m"))
         (world_of [error_reply 400 "Bad Request" "u"; refused;
                    error_reply 503 "Service Unavailable" "u";
                    error_reply 429 "Too Many Requests" "u";
                    ok_reply 5 (JObj [("status", JStr "COMPLETED")])]) 4%nat) as H.
  destruct H as (H1 & H2 & _).
  - apply le_n.
  - intros j Hj.
    destruct j as [| [| [| [| j]]]]; simpl; try exact I.
    exfalso. apply Nat.lt_nge in Hj. apply Hj. do 4 apply le_n_S. apply Nat.le_0_l.
  - left. reflexivity.
  - split; [exact H1 | exact H2].
Defined.

(** ** The completion poller *)

Lemma get_message_first_ok self c m w j :
  exchange_json (replies w (List.length (sent w))) = Ok j ->
  get_message self c m w =
    (Ok j, after_exchange w (mk_request GET (base_url self) (MessageOf c m)
                               ("Bearer " ++ tokens w (minted w)) None [])).
Proof.
  intros H. unfold get_message, on_exception. simpl.
  rewrite json_call_run, H. reflexivity.
Qed.

Lemma elapsed_from_lower rep pause i k :
  0 <= pause -> Z.of_nat k <= elapsed_from rep pause i k.
Proof.
  intros Hp. revert i. induction k as [| k IH]; intros i.
  - simpl. lia.
  - cbn [elapsed_from]. specialize (IH (S i)). lia.
Qed.

Lemma elapsed_from_mono rep pause i k k' :
  0 <= pause -> (k' <= k)%nat ->
  elapsed_from rep pause i k' <= elapsed_from rep pause i k.
Proof.
  intros Hp. revert i k'. induction k as [| k IH]; intros i k' Hle.
  - assert (k' = 0%nat) by lia. subst. lia.
  - destruct k' as [| k']; cbn [elapsed_from].
    + pose proof (elapsed_from_lower rep pause (S i) k Hp). lia.
    + specialize (IH (S i) k'). lia.
Qed.




Lemma wait_for_message_completion_run self c m timeout poll w :
  wait_for_message_completion self c m timeout poll w
    = wait_loop (S (Z.to_nat (timeout * 1000))) self c m timeout poll (now w) w.
Proof. reflexivity. Qed.



(** The same service under a timeout of four seconds: the third test of
    the loop condition reads 4080 ms, and the poller gives up after two
    fetches. *)
Lemma poller_times_out_example :
  fst (wait_for_message_completion a_client (JStr "c") (JStr "u1") 4 2
         (world_of [ok_reply 40 pending_msg; ok_reply 40 pending_msg;
                    ok_reply 40 failed_msg])) = Raise (timed_out 4)
  /\ List.length
       (sent (snd (wait_for_message_completion a_client (JStr "c") (JStr "u1") 4 2
         (world_of [ok_reply 40 pending_msg; ok_reply 40 pending_msg;
                    ok_reply 40 failed_msg])))) = 2%nat.
Proof. split; vm_compute; reflexivity. Qed.

(** Every call of a decorated method takes at least one tick. *)
Lemma retry_clock {A : Type} (target : M A) (f : reply -> result A) (factor : Z) :
  single_exchange target f -> 0 <= factor ->
  forall (remaining n0 : nat) (w : world),
    now w + 1 <= now (snd (retry factor remaining n0 target w)).
Proof.
  intros Hone Hfac. induction remaining as [| remaining IH]; intros n0 w;
    destruct (Hone w) as [r Hr]; simpl; rewrite Hr.
  - destruct (f _); simpl; lia.
  - destruct (f _); simpl; [lia |].
    unfold bind at 1, full_jitter, random_uniform. simpl.
    unfold bind at 1, time_sleep. simpl.
    set (d := draws w (drawn w) mod (expo factor n0 * 1000 + 1)).
    assert (Hd : 0 <= d).
    { pose proof (expo_nonneg factor n0 Hfac). apply Z.mod_pos_bound. lia. }
    destruct (d <? 0) eqn:Hneg; [lia |].
    match goal with |- context [retry factor remaining (S n0) target ?x] =>
      specialize (IH (S n0) x) end.
    simpl in IH. lia.
Qed.

Lemma get_message_clock self c m w :
  now w + 1 <= now (snd (get_message self c m w)).
Proof.
  unfold get_message, on_exception.
  apply (retry_clock _ exchange_json); [apply json_call_single | lia].
Qed.

Lemma wait_loop_S fuel self c m timeout poll start w :
  0 <= poll ->
  wait_loop (S fuel) self c m timeout poll start w =
    if now w - start <? timeout * 1000 then
      match get_message self c m w with
      | (Ok message, w1) =>
          match py_get message "status" JNull with
          | Ok status =>
              if is_terminal status then (Ok message, w1)
              else wait_loop fuel self c m timeout poll start
                     (snd (time_sleep (poll * 1000) w1))
          | Raise e => (Raise e, w1)
          end
      | (Raise e, w1) => (Raise e, w1)
      end
    else (Raise (timed_out timeout), w).
Proof.
  intros Hp. cbn [wait_loop]. unfold bind at 1, time_time.
  destruct (now w - start <? timeout * 1000); [| reflexivity].
  unfold bind at 1.
  destruct (get_message self c m w) as [[message | e] w1]; [| reflexivity].
  unfold bind at 1, lift.
  destruct (py_get message "status" JNull) as [status | e]; [| reflexivity].
  destruct (is_terminal status); [reflexivity |].
  unfold bind at 1, time_sleep.
  destruct (poll * 1000 <? 0) eqn:Hneg; [apply Z.ltb_lt in Hneg; lia | reflexivity].
Qed.

(** The fuel of [wait_for_message_completion] is never used up: once it
    exceeds the time left, one more unit changes nothing. *)
Lemma wait_loop_fuel self c m timeout poll start :
  0 <= poll ->
  forall (fuel : nat) (w : world),
    timeout * 1000 - (now w - start) < Z.of_nat fuel ->
    wait_loop fuel self c m timeout poll start w
      = wait_loop (S fuel) self c m timeout poll start w.
Proof.
  intros Hp. induction fuel as [| fuel IH]; intros w Hleft.
  - rewrite wait_loop_S by assumption.
    assert (Hg : (now w - start <? timeout * 1000) = false) by (apply Z.ltb_ge; lia).
    now rewrite Hg.
  - rewrite (wait_loop_S (S fuel)), (wait_loop_S fuel) by assumption.
    destruct (now w - start <? timeout * 1000) eqn:Hg; [| reflexivity].
    pose proof (get_message_clock self c m w) as Hclock.
    destruct (get_message self c m w) as [[message | e] w1]; [| reflexivity].
    simpl in Hclock.
    destruct (py_get message "status" JNull) as [status | e]; [| reflexivity].
    destruct (is_terminal status); [reflexivity |].
    apply IH. unfold time_sleep.
    destruct (poll * 1000 <? 0) eqn:Hneg; [apply Z.ltb_lt in Hneg; lia |].
    simpl. lia.
Qed.

Lemma wait_loop_enough_fuel self c m timeout poll w (extra : nat) :
  0 <= poll ->
  wait_loop (extra + S (Z.to_nat (timeout * 1000))) self c m timeout poll (now w) w
    = wait_for_message_completion self c m timeout poll w.
Proof.
  intros Hp. rewrite wait_for_message_completion_run.
  induction extra as [| extra IH]; [reflexivity |].
  rewrite <- IH. cbn [Nat.add]. symmetry. apply wait_loop_fuel; [assumption |]. lia.
Qed.

(** ** The response resolver *)

Lemma is_message_truthy m : is_message m = true -> py_truthy m = true.
Proof.
  destruct m as [| | | | |f]; try discriminate.
  destruct f; [discriminate | reflexivity].
Qed.

Lemma is_message_get m k d :
  is_message m = true -> exists v, py_get m k d = Ok v.
Proof. destruct m; try discriminate. intros _. eexists. reflexivity. Qed.

Lemma is_message_id m :
  is_message m = true -> py_get m "message_id" JNull = Ok (message_id_of m).
Proof. destruct m; try discriminate. reflexivity. Qed.

Lemma nth_pred_last {A : Type} (l : list A) (d d' : A) :
  l <> [] -> nth (List.length l - 1) l d = last l d'.
Proof.
  induction l as [| a l IH]; [congruence |]. intros _.
  destruct l as [| b l]; [reflexivity |].
  specialize (IH ltac:(discriminate)).
  cbn [List.length] in *. rewrite Nat.sub_succ, Nat.sub_0_r in *.
  change (nth (S (List.length l)) (a :: b :: l) d) with (nth (List.length l) (b :: l) d).
  rewrite IH. reflexivity.
Qed.

Lemma forallb_nth_message (l : list json) (i : nat) :
  forallb is_message l = true -> (i < List.length l)%nat ->
  is_message (nth i l JNull) = true.
Proof.
  intros Hall Hi. rewrite forallb_forall in Hall. apply Hall. now apply nth_In.
Qed.

(** The loop over the list: it stops at the first entry whose identifier
    equals the submitted one and takes the entry that follows it. *)
Lemma find_bot_response_run (mid : json) (items pre : list json) :
  forallb is_message (pre ++ items) = true ->
  find_bot_response (JArr (pre ++ items)) items (Z.of_nat (List.length pre)) mid
    = Ok (match first_match items mid with
          | Some k =>
              if (S (List.length pre + k) <? List.length (pre ++ items))%nat
              then nth (S (List.length pre + k)) (pre ++ items) JNull
              else JNull
          | None => JNull
          end).
Proof.
  revert pre. induction items as [| msg rest IH]; intros pre Hall; [reflexivity |].
  assert (Hmsg : is_message msg = true).
  { rewrite forallb_app in Hall. apply andb_prop in Hall. destruct Hall as [_ H].
    simpl in H. now apply andb_prop in H. }
  cbn [find_bot_response first_match].
  rewrite (is_message_id msg Hmsg). cbn [rbind].
  destruct (is_message_get msg "role" (JStr "unknown") Hmsg) as [role ->]. cbn [rbind].
  destruct (py_eq (message_id_of msg) mid).
  - cbn [py_len rbind]. rewrite Nat.add_0_r.
    destruct (S (List.length pre) <? List.length (pre ++ msg :: rest))%nat eqn:Hlt.
    + apply Nat.ltb_lt in Hlt.
      assert (Hz : (Z.of_nat (List.length pre) + 1
                    <? Z.of_nat (List.length (pre ++ msg :: rest))) = true)
        by (apply Z.ltb_lt; lia).
      rewrite Hz. unfold py_index.
      assert (Hneg : (Z.of_nat (List.length pre) + 1 <? 0) = false)
        by (apply Z.ltb_ge; lia).
      rewrite Hneg, Hz.
      assert (Hpos : (0 <=? Z.of_nat (List.length pre) + 1) = true)
        by (apply Z.leb_le; lia).
      rewrite Hpos. cbn [andb rbind].
      replace (Z.to_nat (Z.of_nat (List.length pre) + 1)) with (S (List.length pre)) by lia.
      destruct (is_message_get (nth (S (List.length pre)) (pre ++ msg :: rest) JNull)
                  "message_id" JNull) as [v ->]; [| reflexivity].
      now apply forallb_nth_message.
    + apply Nat.ltb_ge in Hlt.
      assert (Hz : (Z.of_nat (List.length pre) + 1
                    <? Z.of_nat (List.length (pre ++ msg :: rest))) = false)
        by (apply Z.ltb_ge; lia).
      now rewrite Hz.
  - specialize (IH (pre ++ [msg])%list).
    rewrite <- app_assoc in IH. cbn [app] in IH.
    rewrite length_app in IH. cbn [List.length] in IH.
    replace (Z.of_nat (List.length pre + 1)) with (Z.of_nat (List.length pre) + 1) in IH by lia.
    rewrite (IH Hall).
    destruct (first_match rest mid) as [k |]; cbn [option_map]; [| reflexivity].
    replace (S (List.length pre + 1 + k)) with (S (List.length pre + S k)) by lia.
    reflexivity.
Qed.

Lemma first_match_found (msgs : list json) (mid : json) (i : nat) (m : json) :
  nth_error msgs i = Some m ->
  py_eq (message_id_of m) mid = true ->
  (forall j m', (j < i)%nat -> nth_error msgs j = Some m' ->
                py_eq (message_id_of m') mid = false) ->
  first_match msgs mid = Some i.
Proof.
  revert i. induction msgs as [| a msgs IH]; intros i Hnth Heq Hfirst.
  - destruct i; discriminate.
  - destruct i as [| i]; cbn [first_match].
    + injection Hnth as ->. now rewrite Heq.
    + rewrite (Hfirst 0%nat a ltac:(lia) eq_refl).
      rewrite (IH i Hnth Heq); [reflexivity |].
      intros j m' Hj Hm'. apply (Hfirst (S j) m'); [lia | exact Hm'].
Qed.

Lemma first_match_none (msgs : list json) (mid : json) :
  (forall m, In m msgs -> py_eq (message_id_of m) mid = false) ->
  first_match msgs mid = None.
Proof.
  induction msgs as [| a msgs IH]; intros H; [reflexivity |].
  cbn [first_match]. rewrite (H a (or_introl eq_refl)).
  rewrite IH; [reflexivity |]. intros m Hm. apply H. now right.
Qed.

(** What the resolver returns on a list of messages, by the position of
    the first entry that carries the submitted identifier. *)
Lemma resolve_answer_run (mid polled resp : json) (msgs : list json) :
  py_get resp "messages" (JArr []) = Ok (JArr msgs) ->
  forallb is_message msgs = true ->
  resolve_answer mid polled resp
    = Ok (match first_match msgs mid with
          | Some i => if (S i <? List.length msgs)%nat
                      then nth (S i) msgs JNull
                      else last msgs polled
          | None => last msgs polled
          end).
Proof.
  intros Hget Hall. unfold resolve_answer. rewrite Hget. cbn [rbind py_len py_iter].
  pose proof (find_bot_response_run mid msgs [] Hall) as Hfind.
  cbn [app List.length Nat.add] in Hfind. change (Z.of_nat 0) with 0 in Hfind.
  rewrite Hfind. cbn [rbind].
  assert (Hfallback :
    (if py_truthy JNull then Ok JNull
     else if py_truthy (JArr msgs)
          then let? full_message := py_index (JArr msgs) (-1) in
               let? _ := py_get full_message "message_id" JNull in Ok full_message
          else Ok polled) = Ok (last msgs polled)).
  { cbn [py_truthy]. destruct msgs as [| a msgs'] eqn:Hm; [reflexivity |].
    rewrite <- Hm in *. assert (Hne : msgs <> []) by (subst; discriminate).
    assert (Hlen : (0 < List.length msgs)%nat) by (subst; simpl; lia).
    unfold py_index. change (-1 <? 0) with true. cbv iota.
    assert (H1 : (0 <=? -1 + Z.of_nat (List.length msgs)) = true) by (apply Z.leb_le; lia).
    assert (H2 : (-1 + Z.of_nat (List.length msgs) <? Z.of_nat (List.length msgs)) = true)
      by (apply Z.ltb_lt; lia).
    rewrite H1, H2. cbn [andb rbind].
    replace (Z.to_nat (-1 + Z.of_nat (List.length msgs))) with (List.length msgs - 1)%nat by lia.
    rewrite (nth_pred_last msgs JNull polled Hne).
    assert (Hlast : is_message (last msgs polled) = true).
    { rewrite <- (nth_pred_last msgs JNull polled Hne).
      apply forallb_nth_message; [assumption | lia]. }
    destruct (is_message_get (last msgs polled) "message_id" JNull Hlast) as [v ->].
    reflexivity. }
  destruct (first_match msgs mid) as [i |]; [| exact Hfallback].
  destruct (S i <? List.length msgs)%nat eqn:Hlt; [| exact Hfallback].
  apply Nat.ltb_lt in Hlt.
  rewrite (is_message_truthy _ (forallb_nth_message msgs (S i) Hall Hlt)).
  reflexivity.
Qed.

(** C1.  On a list of messages, each an object with an identifier: when
    the first entry whose identifier equals the submitted one is at index
    [i] and another entry follows, the resolver returns the entry at
    [i + 1], whatever else the list holds; when it is the last entry, or
    when no entry carries the submitted identifier, the resolver returns
    the last entry of the list if there is one and the polled message if
    the list is empty. *)
Theorem resolver_selects_successor (mid polled resp : json) (msgs : list json) :
  py_get resp "messages" (JArr []) = Ok (JArr msgs) ->
  forallb is_message msgs = true ->
  (forall i m,
     nth_error msgs i = Some m ->
     py_eq (message_id_of m) mid = true ->
     (forall j m', (j < i)%nat -> nth_error msgs j = Some m' ->
                   py_eq (message_id_of m') mid = false) ->
     ((S i < List.length msgs)%nat ->
        resolve_answer mid polled resp = Ok (nth (S i) msgs JNull))
     /\ (S i = List.length msgs ->
           resolve_answer mid polled resp = Ok (last msgs polled)))
  /\ ((forall m, In m msgs -> py_eq (message_id_of m) mid = false) ->
        resolve_answer mid polled resp = Ok (last msgs polled))
  /\ last [] polled = polled.
Proof.
  intros Hget Hall. rewrite (resolve_answer_run mid polled resp msgs Hget Hall).
  split; [| split; [| reflexivity]].
  - intros i m Hnth Heq Hfirst.
    rewrite (first_match_found msgs mid i m Hnth Heq Hfirst). split; intros Hi.
    + apply Nat.ltb_lt in Hi. now rewrite Hi.
    + assert (Hge : (S i <? List.length msgs)%nat = false) by (apply Nat.ltb_ge; lia).
      now rewrite Hge.
  - intros Hnone. now rewrite (first_match_none msgs mid Hnone).
Qed.

(** The user message at index 0 of three: the answer is the entry at
    index 1, not the last one. *)
Lemma resolver_selects_successor_witness :
  resolve_answer (JStr "u1") pending_msg
    (JObj [("messages", JArr [user_msg; answer_msg; later_msg])]) = Ok answer_msg.
Proof.
  destruct (resolver_selects_successor (JStr "u1") pending_msg
              (JObj [("messages", JArr [user_msg; answer_msg; later_msg])])
              [user_msg; answer_msg; later_msg] eq_refl eq_refl) as [Hfound _].
  destruct (Hfound 0%nat user_msg eq_refl eq_refl) as [Hnext _].
  - intros j m' Hj. lia.
  - apply Hnext. simpl. lia.
Defined.

(** An entry that is an empty object passes for no entry at all: the test
    [if bot_response_message:] is on its truth value. *)
Lemma resolve_answer_empty_successor :
  resolve_answer (JStr "u1") pending_msg
    (JObj [("messages", JArr [user_msg; JObj []; later_msg])]) = Ok later_msg.
Proof. reflexivity. Qed.

(** ** The result normaliser *)

Lemma bind_lift {A B : Type} (r : result A) (k : A -> M B) w :
  bind (lift r) k w = match r with Ok a => k a w | Raise e => (Raise e, w) end.
Proof. unfold bind, lift. destruct r; reflexivity. Qed.

Lemma py_iter_len x l : py_iter x = Ok l -> exists n, py_len x = Ok n.
Proof. destruct x; try discriminate; intros _; eexists; reflexivity. Qed.

Lemma collect_pass_sized (atts : list json) :
  forall sq0 sq,
    returns (py_len sq0) -> collect_pass atts sq0 = Ok sq -> returns (py_len sq).
Proof.
  induction atts as [| a atts IH]; intros sq0 sq H0 H.
  - simpl in H. now injection H as <-.
  - cbn [collect_pass] in H.
    destruct (py_keys a); [| discriminate]. cbn [rbind] in H.
    destruct (py_in "suggested_questions" a) as [[] |]; cbn [rbind] in H;
      [| now apply (IH sq0) | discriminate].
    destruct (py_get a "suggested_questions" JNull) as [sq_data |]; [| discriminate].
    cbn [rbind] in H.
    destruct (if is_dict sq_data then py_in "questions" sq_data else Ok false)
      as [[] |]; cbn [rbind] in H; [| now apply (IH sq0) | discriminate].
    destruct (py_get sq_data "questions" (JArr [])) as [qs |]; [| discriminate].
    cbn [rbind] in H.
    destruct (py_len qs) eqn:Hqs; [| discriminate]. cbn [rbind] in H.
    apply (IH qs); [now rewrite Hqs | exact H].
Qed.

Lemma generic_columns_length (n : nat) :
  List.length (generic_columns (Z.of_nat n)) = n.
Proof. unfold generic_columns. now rewrite length_map, length_seq, Nat2Z.id. Qed.

Lemma generic_columns_nth (n i : nat) :
  (i < n)%nat ->
  nth i (generic_columns (Z.of_nat n)) JNull = JStr ("column_" ++ dec_of_nat i).
Proof.
  intros Hi. unfold generic_columns. rewrite Nat2Z.id.
  rewrite (nth_indep _ JNull (JStr ("column_" ++ dec_of_nat 0)))
    by now rewrite length_map, length_seq.
  rewrite (map_nth (fun i => JStr ("column_" ++ dec_of_nat i)) (seq 0 n) 0%nat i).
  now rewrite seq_nth.
Qed.

(** What [get_query_result] returns is always a [dict] with the two keys
    the normaliser reads. *)
Lemma extract_query_result_shape (res qr : json) :
  extract_query_result res = Ok qr ->
  exists data_array schema, qr = JObj [("data_array", data_array); ("schema", schema)].
Proof.
  unfold extract_query_result. intros H.
  destruct (py_in "statement_response" res) as [has_sr |]; [| discriminate].
  cbn [rbind] in H.
  match type of H with rbind ?x _ = _ => destruct x as [data_array |] end;
    [| discriminate].
  cbn [rbind] in H.
  destruct (py_get res "statement_response" (JObj [])) as [sr |]; [| discriminate].
  cbn [rbind] in H.
  destruct (py_get sr "manifest" (JObj [])) as [manifest |]; [| discriminate].
  cbn [rbind] in H.
  destruct (py_get manifest "schema" (JObj [])) as [schema |]; [| discriminate].
  cbn [rbind] in H. injection H as <-. now exists data_array, schema.
Qed.

Lemma retry_returns_from_target {A : Type} (target : M A) (factor : Z) :
  forall (remaining n0 : nat) (w w' : world) (v : A),
    retry factor remaining n0 target w = (Ok v, w') ->
    exists w0 w0', target w0 = (Ok v, w0').
Proof.
  induction remaining as [| remaining IH]; intros n0 w w' v H; cbn [retry] in H.
  - destruct (target w) as [[a | e] w1] eqn:Ht; [| discriminate].
    injection H as -> ->. now exists w, w'.
  - destruct (target w) as [[a | e] w1] eqn:Ht.
    + injection H as -> ->. now exists w, w'.
    + unfold bind at 1 in H.
      destruct (full_jitter (expo factor n0) w1) as [[seconds | e1] w2]; [| discriminate].
      unfold bind at 1 in H.
      destruct (time_sleep seconds w2) as [[[] | e2] w3]; [| discriminate].
      exact (IH _ _ _ _ H).
Qed.

Lemma get_query_result_shape self c m a w w1 qr :
  get_query_result self c m a w = (Ok qr, w1) ->
  exists data_array schema, qr = JObj [("data_array", data_array); ("schema", schema)].
Proof.
  unfold get_query_result, on_exception. intros H.
  apply retry_returns_from_target in H. destruct H as (w0 & w0' & H).
  unfold bind in H.
  destruct (json_call GET (base_url self) (QueryResult c m a) None [] w0)
    as [[res | e] w2]; [| discriminate].
  unfold lift in H. injection H as H _. now apply extract_query_result_shape in H.
Qed.

(** *** Building the table *)

Lemma generic_columns_strings (n : Z) : forallb is_str (generic_columns n) = true.
Proof.
  unfold generic_columns. induction (seq 0 (Z.to_nat n)) as [| i l IH];
    [reflexivity | exact IH].
Qed.

Lemma widest_within (n : nat) (rows : list json) :
  forallb (row_within n) rows = true ->
  exists m, widest rows = Some m /\ (m <= n)%nat.
Proof.
  induction rows as [| row rows IH]; intros H.
  - exists 0%nat. split; [reflexivity | lia].
  - cbn [forallb] in H. apply andb_prop in H. destruct H as [Hrow Hrows].
    destruct row as [| | | | vals |]; try discriminate.
    cbn [row_within] in Hrow. apply Nat.leb_le in Hrow.
    destruct (IH Hrows) as (m & Hm & Hle).
    exists (Nat.max (List.length vals) m). cbn [widest]. rewrite Hm.
    split; [reflexivity | lia].
Qed.

(** Building a table changes nothing in the world. *)
Lemma pd_DataFrame_world (data_array : json) (columns : list json) (w : world) :
  snd (pd_DataFrame data_array columns w) = w.
Proof.
  unfold pd_DataFrame. destruct (table_width data_array columns) as [width |].
  - destruct (Nat.eqb (List.length columns) width); reflexivity.
  - destruct (frame_error w data_array columns); reflexivity.
Qed.

(** Rows none of which is longer than the first, under the made-up
    names: pandas builds the table. *)
Lemma pd_DataFrame_generic (vals rows : list json) (w : world) :
  (0 < List.length vals)%nat ->
  forallb (row_within (List.length vals)) rows = true ->
  pd_DataFrame (JArr (JArr vals :: rows)) (generic_columns (Z.of_nat (List.length vals))) w
    = (Ok (PDataFrame (JArr (JArr vals :: rows))
             (generic_columns (Z.of_nat (List.length vals)))), w).
Proof.
  intros Hpos Hrows. unfold pd_DataFrame, table_width.
  destruct (generic_columns (Z.of_nat (List.length vals))) as [| c cs] eqn:Hcols.
  - apply (f_equal (@List.length json)) in Hcols.
    rewrite generic_columns_length in Hcols. simpl in Hcols. lia.
  - rewrite <- Hcols, generic_columns_strings, generic_columns_length.
    destruct (widest_within _ rows Hrows) as (m & Hm & Hle).
    cbn [widest]. rewrite Hm. cbn [option_map].
    replace (Nat.max (List.length vals) m) with (List.length vals) by lia.
    now rewrite Nat.eqb_refl.
Qed.

(** A row longer than the first, under the made-up names: pandas
    refuses, and the error leaves the normaliser. *)
Lemma pd_DataFrame_longer_row (vals rows : list json) (width : nat) (w : world) :
  (0 < List.length vals)%nat ->
  widest rows = Some width ->
  (List.length vals < width)%nat ->
  pd_DataFrame (JArr (JArr vals :: rows)) (generic_columns (Z.of_nat (List.length vals))) w
    = (Raise (mk_exn ValueError
                (dec_of_nat (List.length vals) ++ " columns passed, passed data had "
                 ++ dec_of_nat width ++ " columns")), w).
Proof.
  intros Hpos Hwidth Hlt. unfold pd_DataFrame, table_width.
  destruct (generic_columns (Z.of_nat (List.length vals))) as [| c cs] eqn:Hcols.
  - apply (f_equal (@List.length json)) in Hcols.
    rewrite generic_columns_length in Hcols. simpl in Hcols. lia.
  - rewrite <- Hcols, generic_columns_strings, generic_columns_length.
    cbn [widest]. rewrite Hwidth. cbn [option_map].
    replace (Nat.max (List.length vals) width) with width by lia.
    destruct (Nat.eqb_spec (List.length vals) width) as [Heq |]; [lia | reflexivity].
Qed.

(** *** The first pass *)

Lemma collect_pass_skip (a : json) (rest : list json) (sq : json) :
  no_questions a = true -> collect_pass (a :: rest) sq = collect_pass rest sq.
Proof.
  destruct a as [| | | | | af]; try discriminate. intros H.
  cbn [collect_pass py_keys rbind py_in py_get]. unfold dict_has.
  unfold no_questions in H.
  destruct (dict_get af "suggested_questions") as [payload |]; cbn [rbind]; [| reflexivity].
  destruct payload as [| | | | | sf]; cbn [is_dict rbind]; try reflexivity.
  cbn [py_in]. apply negb_true_iff in H. rewrite H. reflexivity.
Qed.

Lemma collect_pass_skip_all (l : list json) (sq : json) :
  forallb no_questions l = true -> collect_pass l sq = Ok sq.
Proof.
  induction l as [| a l IH]; intros H; [reflexivity |].
  simpl in H. apply andb_prop in H. destruct H as [Ha Hl].
  rewrite collect_pass_skip by exact Ha. now apply IH.
Qed.

Lemma collect_pass_take (af sf : list (string * json)) (qs : json)
    (rest : list json) (sq : json) :
  dict_get af "suggested_questions" = Some (JObj sf) ->
  dict_get sf "questions" = Some qs ->
  returns (py_len qs) ->
  collect_pass (JObj af :: rest) sq = collect_pass rest qs.
Proof.
  intros Hsq Hqs Hlen.
  cbn [collect_pass py_keys rbind py_in py_get]. unfold dict_has. rewrite Hsq.
  cbn [rbind is_dict py_in py_get]. unfold dict_has. rewrite Hqs. cbn [rbind].
  destruct (py_len qs); [reflexivity | contradiction].
Qed.

Lemma collect_pass_app (l1 l2 : list json) (sq : json) :
  collect_pass (l1 ++ l2) sq = let? sq1 := collect_pass l1 sq in collect_pass l2 sq1.
Proof.
  revert sq. induction l1 as [| a l1 IH]; intros sq; [reflexivity |].
  cbn [app collect_pass].
  destruct (py_keys a); [| reflexivity]. cbn [rbind].
  destruct (py_in "suggested_questions" a) as [[] |]; cbn [rbind];
    [| apply IH | reflexivity].
  destruct (py_get a "suggested_questions" JNull) as [sq_data |]; [| reflexivity].
  cbn [rbind].
  destruct (if is_dict sq_data then py_in "questions" sq_data else Ok false)
    as [[] |]; cbn [rbind]; [| apply IH | reflexivity].
  destruct (py_get sq_data "questions" (JArr [])) as [qs |]; [| reflexivity].
  cbn [rbind]. destruct (py_len qs); [| reflexivity]. cbn [rbind]. apply IH.
Qed.

Lemma collect_pass_readable (items : list json) :
  forallb readable_questions items = true ->
  forall sq0, returns (collect_pass items sq0).
Proof.
  induction items as [| a items IH]; intros H sq0; [exact I |].
  cbn [forallb] in H. apply andb_prop in H. destruct H as [Ha Hitems].
  destruct a as [| | | | | af]; try discriminate.
  cbn [collect_pass py_keys rbind py_in py_get]. unfold dict_has.
  cbn [readable_questions] in Ha.
  destruct (dict_get af "suggested_questions") as [payload |]; cbn [rbind];
    [| now apply IH].
  destruct payload as [| | | | | sf]; cbn [is_dict rbind]; try now apply IH.
  cbn [py_in py_get]. unfold dict_has.
  destruct (dict_get sf "questions") as [qs |]; cbn [rbind]; [| now apply IH].
  destruct (py_len qs); [| discriminate]. cbn [rbind]. now apply IH.
Qed.

(** The first pass returns the questions of the last attachment that
    has any. *)
Lemma collect_pass_last (pre post : list json) (af sf : list (string * json)) (qs : json) :
  returns (collect_pass pre (JArr [])) ->
  dict_get af "suggested_questions" = Some (JObj sf) ->
  dict_get sf "questions" = Some qs ->
  returns (py_len qs) ->
  forallb no_questions post = true ->
  collect_pass (pre ++ JObj af :: post) (JArr []) = Ok qs.
Proof.
  intros Hpre Hsq Hqs Hlen Hpost. rewrite collect_pass_app.
  destruct (collect_pass pre (JArr [])) as [sq1 |]; [| contradiction]. cbn [rbind].
  rewrite (collect_pass_take af sf qs post sq1 Hsq Hqs Hlen).
  now apply collect_pass_skip_all.
Qed.

(** *** The second pass and the result *)

Section Normaliser.

Variables (client : GenieClient) (conv mid : json).

(** The normaliser, once the attachments have been read and the first
    pass has gone through. *)
Lemma process_genie_response_run f atts items sq w :
  py_get (JObj f) "attachments" (JArr []) = Ok atts ->
  py_iter atts = Ok items ->
  collect_pass items (JArr []) = Ok sq ->
  process_genie_response client conv mid (JObj f) w =
    match content_pass client conv mid items (PJson JNull) JNull w with
    | (Ok (res, query_text), w') =>
        if negb (is_None res) then (Ok (res, query_text, sq), w')
        else (Ok (fallback_result f sq), w')
    | (Raise e, w') => (Raise e, w')
    end.
Proof.
  intros Hatts Hiter Hcollect. unfold process_genie_response.
  rewrite bind_lift, Hatts.
  destruct (py_iter_len atts items Hiter) as [n Hn].
  rewrite bind_lift, Hn, bind_lift, Hiter, bind_lift, Hcollect.
  unfold bind at 1.
  destruct (content_pass client conv mid items (PJson JNull) JNull w)
    as [[[res qt] | e] w']; [| reflexivity].
  assert (Hsized : returns (py_len sq))
    by (apply (collect_pass_sized items (JArr []) sq); [exact I | exact Hcollect]).
  destruct (py_len sq) as [k |] eqn:Hk; [| contradiction].
  destruct (negb (is_None res)).
  - rewrite bind_lift. reflexivity.
  - rewrite bind_lift. cbn [py_in]. unfold fallback_result, top_content.
    destruct (dict_has f "content"); [| reflexivity].
    rewrite !bind_lift. reflexivity.
Qed.

Lemma process_attachment_list f items sq w :
  dict_get f "attachments" = Some (JArr items) ->
  collect_pass items (JArr []) = Ok sq ->
  process_genie_response client conv mid (JObj f) w =
    match content_pass client conv mid items (PJson JNull) JNull w with
    | (Ok (res, query_text), w') =>
        if negb (is_None res) then (Ok (res, query_text, sq), w')
        else (Ok (fallback_result f sq), w')
    | (Raise e, w') => (Raise e, w')
    end.
Proof.
  intros Hatts Hcollect.
  apply (process_genie_response_run f (JArr items) items sq w);
    [cbn [py_get]; now rewrite Hatts | reflexivity | exact Hcollect].
Qed.

(** An attachment with neither text nor query is passed over. *)
Lemma content_pass_skip a rest res qt w :
  no_content a = true ->
  content_pass client conv mid (a :: rest) res qt w
    = content_pass client conv mid rest res qt w.
Proof.
  destruct a as [| | | | | af]; try discriminate. intros H.
  unfold no_content in H. apply andb_prop in H. destruct H as [Ht Hq].
  apply negb_true_iff in Ht. apply negb_true_iff in Hq.
  cbn [content_pass].
  rewrite bind_lift. cbn [py_get].
  rewrite bind_lift. cbn [py_in]. rewrite Ht.
  unfold bind at 1, ret.
  rewrite bind_lift. cbn [py_in]. rewrite Hq. reflexivity.
Qed.

Lemma content_pass_skip_all pre rest res qt w :
  forallb no_content pre = true ->
  content_pass client conv mid (pre ++ rest) res qt w
    = content_pass client conv mid rest res qt w.
Proof.
  induction pre as [| a pre IH]; intros H; [reflexivity |].
  simpl in H. apply andb_prop in H. destruct H as [Ha Hpre].
  cbn [app]. rewrite content_pass_skip by exact Ha. now apply IH.
Qed.

(** An attachment with inline text ends the second pass at once. *)
Lemma content_pass_text af xf c rest res qt w :
  dict_get af "text" = Some (JObj xf) ->
  dict_get xf "content" = Some c ->
  content_pass client conv mid (JObj af :: rest) res qt w = (Ok (PJson c, JNull), w).
Proof.
  intros Htext Hcontent. cbn [content_pass].
  rewrite bind_lift. cbn [py_get].
  rewrite bind_lift. cbn [py_in]. unfold dict_has. rewrite Htext.
  rewrite bind_lift. cbn [py_getitem rbind py_in]. rewrite Htext. cbn [rbind py_in].
  unfold dict_has. rewrite Hcontent.
  rewrite bind_lift. cbn [py_getitem rbind]. rewrite Hcontent. reflexivity.
Qed.

(** An attachment without text and with a query specification: the
    result is fetched, and the rows decide. *)
Lemma content_pass_query af qf rest res qt w :
  dict_has af "text" = false ->
  dict_get af "query" = Some (JObj qf) ->
  content_pass client conv mid (JObj af :: rest) res qt w =
    match get_query_result client conv mid (attachment_id_of af) w with
    | (Ok query_result, w1) =>
        match (let? data_array := py_get query_result "data_array" (JArr []) in
               let? schema := py_get query_result "schema" (JObj []) in
               let? columns := schema_columns schema in
               Ok (data_array, columns)) with
        | Ok (data_array, columns) =>
            if py_truthy data_array then
              match (match columns with
                     | [] =>
                         let? n := py_len data_array in
                         if 0 <? n then
                           let? first := py_index data_array 0 in
                           let? width := py_len first in
                           Ok (generic_columns width)
                         else Ok columns
                     | _ :: _ => Ok columns
                     end) with
              | Ok columns' =>
                  match pd_DataFrame data_array columns' w1 with
                  | (Ok frame, w2) => (Ok (frame, query_text_of qf), w2)
                  | (Raise e, w2) => (Raise e, w2)
                  end
              | Raise e => (Raise e, w1)
              end
            else content_pass client conv mid rest res (query_text_of qf) w1
        | Raise e => (Raise e, w1)
        end
    | (Raise e, w1) => (Raise e, w1)
    end.
Proof.
  intros Htext Hquery. cbn [content_pass].
  rewrite bind_lift. cbn [py_get].
  rewrite bind_lift. cbn [py_in]. rewrite Htext.
  unfold bind at 1, ret.
  rewrite bind_lift. cbn [py_in]. unfold dict_has. rewrite Hquery.
  rewrite bind_lift. cbn [py_get rbind].
  unfold bind at 1. fold (attachment_id_of af). fold (query_text_of qf).
  destruct (get_query_result client conv mid (attachment_id_of af) w)
    as [[query_result | e] w1]; [| reflexivity].
  rewrite bind_lift.
  destruct (py_get query_result "data_array" (JArr [])) as [data_array | e];
    [| reflexivity]. cbn [rbind].
  rewrite bind_lift.
  destruct (py_get query_result "schema" (JObj [])) as [schema | e];
    [| reflexivity]. cbn [rbind].
  rewrite bind_lift.
  destruct (schema_columns schema) as [columns | e]; [| reflexivity]. cbn [rbind].
  destruct (py_truthy data_array); [| reflexivity].
  rewrite bind_lift.
  match goal with |- match ?x with _ => _ end = _ => destruct x as [columns' | e] end;
    [| reflexivity].
  unfold bind at 1.
  destruct (pd_DataFrame data_array columns' w1) as [[frame | e] w2]; reflexivity.
Qed.

(** A fetch that is answered at once with a result without rows. *)
Lemma no_rows_fetch a w :
  no_rows (replies w (List.length (sent w))) = true ->
  exists data_array schema columns,
    get_query_result client conv mid a w
      = (Ok (JObj [("data_array", data_array); ("schema", schema)]),
         after_exchange w (mk_request GET (base_url client) (QueryResult conv mid a)
                             ("Bearer " ++ tokens w (minted w)) None []))
    /\ schema_columns schema = Ok columns
    /\ py_truthy data_array = false.
Proof.
  unfold no_rows. intros H.
  destruct (exchange_json (replies w (List.length (sent w)))) as [body |] eqn:Hex;
    [| discriminate]. cbn [rbind] in H.
  destruct (extract_query_result body) as [qr |] eqn:Hq; [| discriminate].
  cbn [rbind] in H.
  destruct (extract_query_result_shape _ _ Hq) as (data_array & schema & ->).
  simpl py_get in H. cbn [rbind] in H.
  destruct (schema_columns schema) as [columns |] eqn:Hs; [| discriminate].
  cbn [rbind] in H. apply negb_true_iff in H.
  exists data_array, schema, columns. split; [| split; [exact Hs | exact H]].
  unfold get_query_result, on_exception. cbn [Nat.sub retry].
  unfold bind at 1. rewrite json_call_run, Hex. unfold lift. now rewrite Hq.
Qed.

(** Attachments without text whose fetched results all have no rows: the
    second pass ends without a result, after one request for each query
    attachment. *)
Lemma content_pass_quiet (items : list json) :
  forall res qt w,
    forallb textless items = true ->
    (forall j, (j < queries items)%nat ->
       no_rows (replies w (List.length (sent w) + j)%nat) = true) ->
    exists qt' w',
      content_pass client conv mid items res qt w = (Ok (res, qt'), w')
      /\ replies w' = replies w
      /\ List.length (sent w') = (List.length (sent w) + queries items)%nat.
Proof.
  induction items as [| a items IH]; intros res qt w Hitems Hreplies.
  - exists qt, w. cbn [content_pass]. unfold ret, queries. cbn [filter List.length].
    repeat split. lia.
  - cbn [forallb] in Hitems. apply andb_prop in Hitems. destruct Hitems as [Ha Hitems].
    destruct a as [| | | | | af]; try discriminate.
    cbn [textless] in Ha. apply andb_prop in Ha. destruct Ha as [Htext Hq].
    apply negb_true_iff in Htext.
    destruct (dict_get af "query") as [spec |] eqn:Hquery.
    + destruct spec as [| | | | | qf]; try discriminate.
      assert (Hcount : queries (JObj af :: items) = S (queries items)).
      { unfold queries. cbn [filter has_query]. unfold dict_has. now rewrite Hquery. }
      rewrite Hcount in *.
      pose proof (Hreplies 0%nat ltac:(lia)) as H0. rewrite Nat.add_0_r in H0.
      destruct (no_rows_fetch (attachment_id_of af) w H0)
        as (data_array & schema & columns & Hfetch & Hschema & Hempty).
      rewrite (content_pass_query af qf items res qt w Htext Hquery), Hfetch.
      simpl py_get. cbn [rbind]. rewrite Hschema. cbn [rbind]. rewrite Hempty.
      match goal with |- context [content_pass _ _ _ items res _ ?x] => set (w1 := x) end.
      assert (Hlen1 : List.length (sent w1) = S (List.length (sent w))).
      { subst w1. cbn [sent after_exchange]. rewrite length_app. simpl. lia. }
      destruct (IH res (query_text_of qf) w1 Hitems) as (qt' & w' & Hrun & Hrep & Hlen).
      { intros j Hj. rewrite Hlen1. change (replies w1) with (replies w).
        replace (S (List.length (sent w)) + j)%nat
          with (List.length (sent w) + S j)%nat by lia.
        apply Hreplies. lia. }
      exists qt', w'. split; [exact Hrun |]. split; [exact Hrep | lia].
    + assert (Hcount : queries (JObj af :: items) = queries items).
      { unfold queries. cbn [filter has_query]. unfold dict_has. now rewrite Hquery. }
      rewrite Hcount in *.
      rewrite content_pass_skip
        by (cbn [no_content]; unfold dict_has at 2; now rewrite Htext, Hquery).
      now apply IH.
Qed.

(** A fetch whose five tries all fail: the second pass raises the fifth
    error. *)
Lemma content_pass_fetch_fails af qf rest res qt w :
  dict_has af "text" = false ->
  dict_get af "query" = Some (JObj qf) ->
  (forall j, (j < 5)%nat ->
     raises (attempt_outcome (OpGetQueryResult conv mid (attachment_id_of af))
               (replies w (List.length (sent w) + j)%nat))) ->
  exists e w',
    attempt_outcome (OpGetQueryResult conv mid (attachment_id_of af))
      (replies w (List.length (sent w) + 4)%nat) = Raise e
    /\ content_pass client conv mid (JObj af :: rest) res qt w = (Raise e, w')
    /\ List.length (sent w') = (List.length (sent w) + 5)%nat.
Proof.
  intros Htext Hquery Hfail.
  destruct (retry_run _ _ 2
              (query_result_call_single (base_url client)
                 (QueryResult conv mid (attachment_id_of af)))
              ltac:(lia) 4 0 w 4 (le_n 4)) as (w' & Hr & _ & _ & Hlen & _).
  { intros j Hj. apply (Hfail j). lia. }
  { now left. }
  pose proof (Hfail 4%nat ltac:(lia)) as H4. cbn [attempt_outcome] in *.
  destruct (let? j := exchange_json (replies w (List.length (sent w) + 4)%nat) in
            extract_query_result j) as [v | e] eqn:Hlast; [contradiction |].
  exists e, w'. split; [reflexivity |]. split; [| lia].
  rewrite (content_pass_query af qf rest res qt w Htext Hquery).
  unfold get_query_result, on_exception. change (5 - 1)%nat with 4%nat.
  now rewrite Hr.
Qed.

(** C4, as the code has it.  Take an answer message whose attachments
    are [dict]s with suggested questions the first pass can read.  If none
    of them has inline text and every query attachment is answered at
    once with a result without rows, the normaliser returns the top-level
    ["content"] of the message when the message has that field and the
    placeholder "No response available" otherwise, as a value, having
    sent one request for each query attachment.  The normaliser catches
    nothing itself: if the five tries of the fetch of a query attachment
    all fail, the fifth error leaves the normaliser. *)
Theorem normalizer_falls_back (f : list (string * json)) (items : list json)
    (w : world) :
  py_get (JObj f) "attachments" (JArr []) = Ok (JArr items) ->
  forallb readable_questions items = true ->
  (forallb textless items = true ->
   (forall j, (j < queries items)%nat ->
      no_rows (replies w (List.length (sent w) + j)%nat) = true) ->
   exists sq w',
     collect_pass items (JArr []) = Ok sq
     /\ process_genie_response client conv mid (JObj f) w
        = (Ok (if dict_has f "content"
               then (PJson (top_content f), JNull, sq)
               else (PJson (JStr "No response available"), JNull, JArr [])),
           w')
     /\ List.length (sent w') = (List.length (sent w) + queries items)%nat)
  /\ (forall pre af qf rest,
        items = (pre ++ JObj af :: rest)%list ->
        forallb no_content pre = true ->
        dict_has af "text" = false ->
        dict_get af "query" = Some (JObj qf) ->
        (forall j, (j < 5)%nat ->
           raises (attempt_outcome (OpGetQueryResult conv mid (attachment_id_of af))
                     (replies w (List.length (sent w) + j)%nat))) ->
        exists e,
          attempt_outcome (OpGetQueryResult conv mid (attachment_id_of af))
            (replies w (List.length (sent w) + 4)%nat) = Raise e
          /\ fst (process_genie_response client conv mid (JObj f) w) = Raise e
          /\ List.length (sent (snd (process_genie_response client conv mid (JObj f) w)))
             = (List.length (sent w) + 5)%nat).
Proof.
  intros Hatts Hread.
  pose proof (collect_pass_readable items Hread (JArr [])) as Hcollect.
  destruct (collect_pass items (JArr [])) as [sq |] eqn:Hsq; [| contradiction].
  pose proof (process_genie_response_run f (JArr items) items sq w Hatts eq_refl Hsq)
    as Hrun.
  split.
  - intros Htextless Hreplies.
    destruct (content_pass_quiet items (PJson JNull) JNull w Htextless Hreplies)
      as (qt' & w' & Hpass & _ & Hlen).
    exists sq, w'. split; [reflexivity |]. split; [| exact Hlen].
    rewrite Hrun, Hpass. reflexivity.
  - intros pre af qf rest -> Hpre Htext Hquery Hfail.
    destruct (content_pass_fetch_fails af qf rest (PJson JNull) JNull w Htext Hquery Hfail)
      as (e & w' & Hlast & Hpass & Hlen).
    exists e. split; [exact Hlast |].
    rewrite Hrun, (content_pass_skip_all pre _ _ _ w Hpre), Hpass.
    split; [reflexivity | exact Hlen].
Qed.

(** C3.  When the first attachment that has text or a query carries
    inline text, the normaliser returns that text with query text [None],
    whatever follows it in the list, a query attachment in particular; the
    world is left as it was, so no query result is fetched. *)
Theorem text_attachment_wins (f tf xf : list (string * json)) (c : json)
    (pre rest : list json) (sq : json) (w : world) :
  dict_get f "attachments" = Some (JArr (pre ++ JObj tf :: rest)) ->
  forallb no_content pre = true ->
  dict_get tf "text" = Some (JObj xf) ->
  dict_get xf "content" = Some c ->
  c <> JNull ->
  collect_pass (pre ++ JObj tf :: rest) (JArr []) = Ok sq ->
  process_genie_response client conv mid (JObj f) w = (Ok (PJson c, JNull, sq), w)
  /\ sent (snd (process_genie_response client conv mid (JObj f) w)) = sent w.
Proof.
  intros Hatts Hpre Htext Hcontent Hc Hcollect.
  assert (Hrun : process_genie_response client conv mid (JObj f) w
                 = (Ok (PJson c, JNull, sq), w)).
  { rewrite (process_attachment_list f _ sq w Hatts Hcollect).
    rewrite (content_pass_skip_all pre _ _ _ w Hpre).
    rewrite (content_pass_text tf xf c rest _ _ w Htext Hcontent).
    destruct c; try reflexivity. congruence. }
  split; [exact Hrun | now rewrite Hrun].
Qed.

(** C5.  When the fetched result of a query attachment has rows, each a
    list of values and none longer than the first, and its schema names no
    column, the normaliser makes up the names [column_0], [column_1], ...,
    one for each value of the first row, and returns the table built from
    exactly the fetched rows under those names, with the text of the
    query. *)
Theorem generic_columns_for_bare_rows (f af qf : list (string * json))
    (pre rest : list json) (sq : json) (w w1 : world) (vals rows : list json)
    (schema : json) :
  dict_get f "attachments" = Some (JArr (pre ++ JObj af :: rest)) ->
  forallb no_content pre = true ->
  dict_has af "text" = false ->
  dict_get af "query" = Some (JObj qf) ->
  collect_pass (pre ++ JObj af :: rest) (JArr []) = Ok sq ->
  get_query_result client conv mid (attachment_id_of af) w
    = (Ok (JObj [("data_array", JArr (JArr vals :: rows)); ("schema", schema)]), w1) ->
  schema_columns schema = Ok [] ->
  (0 < List.length vals)%nat ->
  forallb (row_within (List.length vals)) rows = true ->
  process_genie_response client conv mid (JObj f) w
    = (Ok (PDataFrame (JArr (JArr vals :: rows))
             (generic_columns (Z.of_nat (List.length vals))),
           query_text_of qf, sq), w1)
  /\ List.length (generic_columns (Z.of_nat (List.length vals))) = List.length vals
  /\ (forall i, (i < List.length vals)%nat ->
        nth i (generic_columns (Z.of_nat (List.length vals))) JNull
          = JStr ("column_" ++ dec_of_nat i)).
Proof.
  intros Hatts Hpre Htext Hquery Hcollect Hfetch Hschema Hvals Hrows.
  split; [| split; [apply generic_columns_length | apply generic_columns_nth]].
  rewrite (process_attachment_list f _ sq w Hatts Hcollect).
  rewrite (content_pass_skip_all pre _ _ _ w Hpre).
  rewrite (content_pass_query af qf rest _ _ w Htext Hquery), Hfetch.
  simpl py_get. cbn [rbind]. rewrite Hschema. cbn [rbind py_truthy py_len].
  assert (Hpos : (0 <? Z.of_nat (List.length (JArr vals :: rows))) = true)
    by (apply Z.ltb_lt; simpl; lia).
  rewrite Hpos.
  change (py_index (JArr (JArr vals :: rows)) 0) with (Ok (JArr vals)).
  cbn [rbind py_len].
  rewrite (pd_DataFrame_generic vals rows w1 Hvals Hrows). reflexivity.
Qed.

(** C10.  When the fetched result of a query attachment has no rows, the
    second pass builds no table from it and goes on with the attachments
    that follow, keeping the text of the query; and if these yield nothing
    either, the query text the normaliser returns is [None], with the
    top-level content as with the placeholder, although a query attachment
    was looked at. *)
Theorem empty_rows_do_not_stop (f af qf : list (string * json))
    (pre rest : list json) (sq : json) (w w1 : world) (data_array schema : json)
    (columns : list json) :
  dict_has af "text" = false ->
  dict_get af "query" = Some (JObj qf) ->
  get_query_result client conv mid (attachment_id_of af) w
    = (Ok (JObj [("data_array", data_array); ("schema", schema)]), w1) ->
  schema_columns schema = Ok columns ->
  py_truthy data_array = false ->
  (forall res qt,
     content_pass client conv mid (JObj af :: rest) res qt w
       = content_pass client conv mid rest res (query_text_of qf) w1)
  /\ (forall res qt w2,
        dict_get f "attachments" = Some (JArr (pre ++ JObj af :: rest)) ->
        forallb no_content pre = true ->
        collect_pass (pre ++ JObj af :: rest) (JArr []) = Ok sq ->
        content_pass client conv mid rest (PJson JNull) (query_text_of qf) w1
          = (Ok (res, qt), w2) ->
        is_None res = true ->
        process_genie_response client conv mid (JObj f) w
          = (Ok (if dict_has f "content"
                 then (PJson (top_content f), JNull, sq)
                 else (PJson (JStr "No response available"), JNull, JArr [])),
             w2)).
Proof.
  intros Htext Hquery Hfetch Hschema Hempty.
  assert (Hstep : forall res qt,
     content_pass client conv mid (JObj af :: rest) res qt w
       = content_pass client conv mid rest res (query_text_of qf) w1).
  { intros res qt.
    rewrite (content_pass_query af qf rest res qt w Htext Hquery), Hfetch.
    simpl py_get. cbn [rbind]. rewrite Hschema. cbn [rbind]. now rewrite Hempty. }
  split; [exact Hstep |].
  intros res qt w2 Hatts Hpre Hcollect Hrest Hnone.
  rewrite (process_attachment_list f _ sq w Hatts Hcollect).
  rewrite (content_pass_skip_all pre _ _ _ w Hpre).
  rewrite Hstep, Hrest, Hnone. reflexivity.
Qed.

(** C6, as the code has it.  Let an attachment carry the payload
    [{"questions": qs}], with [qs] a list, let no later attachment carry
    questions, and let the second pass end without raising.  The
    suggestions the normaliser returns are [qs] itself when an attachment
    supplies the result, whichever it is, and when the top-level content
    does; they are the empty list when the placeholder is returned.  Later
    attachments whose payload is not a [dict] or has no "questions" are
    passed over. *)
Theorem suggestions_of_last_payload (f af sf : list (string * json))
    (pre post : list json) (qs : json) (w w' : world) (res : pyval) (qt : json) :
  dict_get f "attachments" = Some (JArr (pre ++ JObj af :: post)) ->
  returns (collect_pass pre (JArr [])) ->
  dict_get af "suggested_questions" = Some (JObj sf) ->
  dict_get sf "questions" = Some qs ->
  returns (py_len qs) ->
  forallb no_questions post = true ->
  content_pass client conv mid (pre ++ JObj af :: post) (PJson JNull) JNull w
    = (Ok (res, qt), w') ->
  process_genie_response client conv mid (JObj f) w
    = (Ok (if negb (is_None res) then (res, qt, qs)
           else if dict_has f "content" then (PJson (top_content f), JNull, qs)
           else (PJson (JStr "No response available"), JNull, JArr [])),
       w').
Proof.
  intros Hatts Hpre Hsq Hqs Hlen Hpost Hcontent.
  rewrite (process_attachment_list f _ qs w Hatts
             (collect_pass_last pre post af sf qs Hpre Hsq Hqs Hlen Hpost)).
  rewrite Hcontent. unfold fallback_result.
  destruct (negb (is_None res)); reflexivity.
Qed.

End Normaliser.

(** *** The normaliser on examples *)

(** Suggested questions and a query, under a top-level content.  When
    the query has no rows the content is returned, after one request; when
    the service cannot be reached the error of the fetch comes out. *)
Lemma normalizer_falls_back_witness :
  fst (process_genie_response a_client (JStr "c") (JStr "u1")
         (JObj [("content", JStr "Hello");
                ("attachments", JArr [suggestions_att; query_att])])
         (world_of [ok_reply 30 (statement_response (JArr []))]))
  = Ok (PJson (JStr "Hello"), JNull, JArr [JStr "A"; JStr "B"])
  /\ fst (process_genie_response a_client (JStr "c") (JStr "u1")
            (JObj [("content", JStr "Hello");
                   ("attachments", JArr [suggestions_att; query_att])])
            (world_of []))
     = Raise (mk_exn ConnectionError "Connection refused").
Proof.
  split.
  - destruct (proj1 (normalizer_falls_back a_client (JStr "c") (JStr "u1")
                       [("content", JStr "Hello");
                        ("attachments", JArr [suggestions_att; query_att])]
                       [suggestions_att; query_att]
                       (world_of [ok_reply 30 (statement_response (JArr []))])
                       eq_refl eq_refl) eq_refl)
      as (sq & w' & Hsq & Hrun & _).
    + intros [| j] Hj; [reflexivity | vm_compute in Hj; lia].
    + rewrite Hrun. vm_compute in Hsq. injection Hsq as <-. reflexivity.
  - destruct (proj2 (normalizer_falls_back a_client (JStr "c") (JStr "u1")
                       [("content", JStr "Hello");
                        ("attachments", JArr [suggestions_att; query_att])]
                       [suggestions_att; query_att] (world_of [])
                       eq_refl eq_refl)
                [suggestions_att]
                [("attachment_id", JStr "q1");
                 ("query", JObj [("query", JStr "SELECT * FROM sales")])]
                [("query", JStr "SELECT * FROM sales")] []
                eq_refl eq_refl eq_refl eq_refl)
      as (e & Hlast & Hrun & _).
    + intros [| j] _; exact I.
    + rewrite Hrun. vm_compute in Hlast. injection Hlast as <-. reflexivity.
Defined.

(** C4 as it was stated fails: an answer with a top-level content whose
    only attachment is a query, asked while the service cannot be reached.
    No attachment yields a result, and the normaliser does not return the
    content: after the five tries of the fetch it raises the connection
    error. *)
Lemma fetch_error_leaves_normaliser :
  fst (process_genie_response a_client (JStr "c") (JStr "u1")
         (JObj [("content", JStr "Hello"); ("attachments", JArr [query_att])])
         (world_of []))
    = Raise (mk_exn ConnectionError "Connection refused")
  /\ List.length
       (sent (snd (process_genie_response a_client (JStr "c") (JStr "u1")
                     (JObj [("content", JStr "Hello"); ("attachments", JArr [query_att])])
                     (world_of []))))
     = 5%nat.
Proof. split; vm_compute; reflexivity. Qed.

(** Suggested questions, a text attachment, then a query attachment: the
    text is returned and nothing is sent. *)
Lemma text_attachment_wins_witness :
  process_genie_response a_client (JStr "c") (JStr "u1")
    (JObj [("attachments", JArr [suggestions_att; text_att; query_att])])
    (world_of [ok_reply 30 (statement_response rows_3x4)])
  = (Ok (PJson (JStr "Revenue grew."), JNull, JArr [JStr "A"; JStr "B"]),
     world_of [ok_reply 30 (statement_response rows_3x4)]).
Proof.
  apply (text_attachment_wins a_client (JStr "c") (JStr "u1")
           [("attachments", JArr [suggestions_att; text_att; query_att])]
           [("attachment_id", JStr "t1"); ("text", JObj [("content", JStr "Revenue grew.")])]
           [("content", JStr "Revenue grew.")] (JStr "Revenue grew.")
           [suggestions_att] [query_att] (JArr [JStr "A"; JStr "B"])
           (world_of [ok_reply 30 (statement_response rows_3x4)]));
    try reflexivity. discriminate.
Defined.

(** Three rows of four values and no manifest in the reply: four made-up
    names, three rows. *)
Lemma generic_columns_for_bare_rows_witness :
  fst (process_genie_response a_client (JStr "c") (JStr "u1")
         (JObj [("attachments", JArr [query_att])])
         (world_of [ok_reply 30 (statement_response rows_3x4)]))
  = Ok (PDataFrame rows_3x4
          [JStr "column_0"; JStr "column_1"; JStr "column_2"; JStr "column_3"],
        JStr "SELECT * FROM sales", JArr []).
Proof.
  exact (f_equal fst
           (proj1 (generic_columns_for_bare_rows a_client (JStr "c") (JStr "u1")
              [("attachments", JArr [query_att])]
              [("attachment_id", JStr "q1");
               ("query", JObj [("query", JStr "SELECT * FROM sales")])]
              [("query", JStr "SELECT * FROM sales")] [] [] (JArr [])
              (world_of [ok_reply 30 (statement_response rows_3x4)])
              (snd (get_query_result a_client (JStr "c") (JStr "u1") (JStr "q1")
                      (world_of [ok_reply 30 (statement_response rows_3x4)])))
              [JNum 1; JNum 2; JNum 3; JNum 4]
              [JArr [JNum 5; JNum 6; JNum 7; JNum 8];
               JArr [JNum 9; JNum 10; JNum 11; JNum 12]]
              (JObj []) eq_refl eq_refl eq_refl eq_refl eq_refl eq_refl eq_refl
              ltac:(simpl; lia) eq_refl))).
Defined.

(** A second row longer than the first: pandas refuses the two made-up
    names, and the error leaves the normaliser. *)
Example longer_row_is_refused :
  fst (process_genie_response a_client (JStr "c") (JStr "u1")
         (JObj [("attachments", JArr [query_att])])
         (world_of [ok_reply 30
                      (statement_response
                         (JArr [JArr [JNum 1; JNum 2];
                                JArr [JNum 3; JNum 4; JNum 5]]))]))
  = Raise (mk_exn ValueError "2 columns passed, passed data had 3 columns").
Proof. vm_compute. reflexivity. Qed.

(** A query whose result has no rows, in a message without top-level
    content: the placeholder, and no query text. *)
Lemma empty_rows_do_not_stop_witness :
  fst (process_genie_response a_client (JStr "c") (JStr "u1")
         (JObj [("attachments", JArr [query_att])])
         (world_of [ok_reply 30 (statement_response (JArr []))]))
  = Ok (PJson (JStr "No response available"), JNull, JArr []).
Proof.
  exact (f_equal fst
           (proj2 (empty_rows_do_not_stop a_client (JStr "c") (JStr "u1")
              [("attachments", JArr [query_att])]
              [("attachment_id", JStr "q1");
               ("query", JObj [("query", JStr "SELECT * FROM sales")])]
              [("query", JStr "SELECT * FROM sales")] [] [] (JArr [])
              (world_of [ok_reply 30 (statement_response (JArr []))])
              (snd (get_query_result a_client (JStr "c") (JStr "u1") (JStr "q1")
                      (world_of [ok_reply 30 (statement_response (JArr []))])))
              (JArr []) (JObj []) [] eq_refl eq_refl eq_refl eq_refl eq_refl)
              (PJson JNull) (JStr "SELECT * FROM sales")
              (snd (get_query_result a_client (JStr "c") (JStr "u1") (JStr "q1")
                      (world_of [ok_reply 30 (statement_response (JArr []))])))
              eq_refl eq_refl eq_refl eq_refl eq_refl)).
Defined.

(** The questions sit on the second of three attachments, before a
    malformed payload; the text attachment supplies the content. *)
Lemma suggestions_of_last_payload_witness :
  process_genie_response a_client (JStr "c") (JStr "u1")
    (JObj [("attachments",
            JArr [text_att; suggestions_att;
                  JObj [("suggested_questions", JStr "none")]])])
    (world_of [])
  = (Ok (PJson (JStr "Revenue grew."), JNull, JArr [JStr "A"; JStr "B"]), world_of []).
Proof.
  apply (suggestions_of_last_payload a_client (JStr "c") (JStr "u1")
           [("attachments",
             JArr [text_att; suggestions_att;
                   JObj [("suggested_questions", JStr "none")]])]
           [("attachment_id", JStr "s1");
            ("suggested_questions", JObj [("questions", JArr [JStr "A"; JStr "B"])])]
           [("questions", JArr [JStr "A"; JStr "B"])]
           [text_att] [JObj [("suggested_questions", JStr "none")]]
           (JArr [JStr "A"; JStr "B"])
           (world_of []) (world_of []) (PJson (JStr "Revenue grew.")) JNull);
    try reflexivity; exact I.
Defined.

(** C6 as it was stated fails: an answer whose only attachment carries
    [{"questions": ["A", "B"]}] and which has no content of its own gets
    the placeholder with an empty list of suggestions. *)
Lemma suggestions_lost_with_placeholder :
  fst (process_genie_response a_client (JStr "c") (JStr "u1")
         (JObj [("attachments", JArr [suggestions_att])]) (world_of []))
    = Ok (PJson (JStr "No response available"), JNull, JArr [])
  /\ JArr [] <> JArr [JStr "A"; JStr "B"].
Proof. split; [reflexivity | discriminate]. Qed.

(** ** The feedback submitter *)

Lemma new_GenieClient_run w :
  new_GenieClient (DATABRICKS_HOST w) (SPACE_ID w) w = (Ok (env_client w), after_token w).
Proof. reflexivity. Qed.

Lemma raise_for_status_ok resp :
  ((400 <=? status_code resp) && (status_code resp <? 600)) = false ->
  raise_for_status resp = Ok tt.
Proof.
  intros H. unfold raise_for_status.
  destruct (400 <=? status_code resp) eqn:H4;
    destruct (status_code resp <? 500) eqn:H5;
    destruct (500 <=? status_code resp) eqn:H6;
    destruct (status_code resp <? 600) eqn:H7; simpl in *; try reflexivity;
    try discriminate; lia.
Qed.

Lemma raise_for_status_error resp :
  ((400 <=? status_code resp) && (status_code resp <? 600)) = true ->
  exists msg, raise_for_status resp
              = Raise {| exn_cls := HTTPError; exn_str := msg; exn_response := Some resp |}.
Proof.
  intros H. unfold raise_for_status.
  destruct (400 <=? status_code resp) eqn:H4;
    destruct (status_code resp <? 500) eqn:H5;
    destruct (500 <=? status_code resp) eqn:H6;
    destruct (status_code resp <? 600) eqn:H7; simpl in *;
    try discriminate; try (eexists; reflexivity); lia.
Qed.

Lemma send_message_feedback_run self conv mid sentiment w :
  send_message_feedback self conv mid sentiment w =
    let w1 := after_exchange w
                (mk_request POST (base_url self) (Feedback conv mid)
                   ("Bearer " ++ tokens w (minted w))
                   (Some (JObj [("rating",
                                 JStr (if String.eqb sentiment "positive"
                                       then "POSITIVE" else "NEGATIVE"))]))
                   []) in
    match outcome (replies w (List.length (sent w))) with
    | inl msg => (Raise (mk_exn ConnectionError msg), w1)
    | inr resp =>
        match raise_for_status resp with
        | Raise e => (Raise e, w1)
        | Ok _ =>
            if String.eqb (text resp) "" then (Ok (JObj []), w1)
            else (response_json resp, w1)
        end
    end.
Proof.
  unfold send_message_feedback, update_headers, get_token, requests_send,
    after_exchange, try_except, bind, ret, lift, raise; simpl.
  destruct (outcome (replies w (List.length (sent w)))) as [msg | resp]; [reflexivity |].
  destruct (raise_for_status resp) as [[] | err]; [| reflexivity].
  destruct (String.eqb (text resp) ""); [reflexivity |].
  destruct (response_json resp); reflexivity.
Qed.

(** C7.  The feedback operation posts the rating "POSITIVE" when the
    sentiment is "positive" and "NEGATIVE" for every other sentiment; it
    makes exactly that one post; and it always returns a boolean, never an
    exception: [True] exactly when the post went through (a response
    without error status whose body can be read), [False] when the
    connection failed, when the status is an error status, or when the
    body cannot be read. *)
Theorem feedback_is_best_effort (conv mid : json) (sentiment : string) (w : world) :
  fst (send_feedback conv mid sentiment w)
    = Ok (feedback_accepted (replies w (List.length (sent w))))
  /\ sent (snd (send_feedback conv mid sentiment w))
     = (sent w ++
        [mk_request POST (base_url (env_client w)) (Feedback conv mid)
           ("Bearer " ++ tokens w (S (minted w)))
           (Some (JObj [("rating",
                         JStr (if String.eqb sentiment "positive"
                               then "POSITIVE" else "NEGATIVE"))]))
           []])%list.
Proof.
  unfold send_feedback, try_except, bind.
  rewrite new_GenieClient_run, send_message_feedback_run.
  cbn [sent after_token replies minted tokens].
  unfold feedback_accepted.
  destruct (outcome (replies w (List.length (sent w)))) as [msg | resp];
    [split; reflexivity |].
  destruct ((400 <=? status_code resp) && (status_code resp <? 600)) eqn:Hst.
  - destruct (raise_for_status_error resp Hst) as [msg ->]. split; reflexivity.
  - rewrite (raise_for_status_ok resp Hst). cbn [negb andb].
    destruct (String.eqb (text resp) ""); [split; reflexivity |].
    unfold response_json. destruct (decoded resp); split; reflexivity.
Qed.

(** A 200 whose body is not JSON counts as a failed post. *)
Lemma feedback_unreadable_body :
  fst (send_feedback (JStr "c") (JStr "a1") "positive"
         (world_of [{| latency := 3;
                       outcome := inr {| status_code := 200; reason := "OK"; url := "";
                                         text := "OK"; decoded := None |} |}]))
    = Ok false.
Proof. reflexivity. Qed.

(** ** The errors of a follow-up question *)

Lemma generic_text_differs (s : string) :
  "Sorry, an error occurred: " ++ s <> rate_limited_text
  /\ "Sorry, an error occurred: " ++ s <> expired_text.
Proof. split; intros H; simpl in H; discriminate H. Qed.

(** The handler of a follow-up question, as it is written.  A follow-up
    question never raises.  When its [try] block fails with an error [e],
    the answer is decided by the text of [e], in this order: a text that contains "429" or "Too Many
    Requests" gives the try-again-later text (so does every HTTP error of
    status 429, whose text begins with the status); otherwise a text that
    contains "Conversation not found" gives the conversation-expired text;
    any other text gives "Sorry, an error occurred: " followed by the
    text.  The three answers differ from one another. *)
Theorem follow_up_error_texts (conv : json) (question : string) (w : world) :
  returns (fst (continue_conversation conv question w))
  /\ (forall e w1,
        continue_attempt (env_client w) conv question (after_token w) = (Raise e, w1) ->
        continue_conversation conv question w = (Ok (continue_handler e), w1))
  /\ (forall e,
        (is_substring "429" (exn_str e) = true
         \/ is_substring "Too Many Requests" (exn_str e) = true ->
         continue_handler e = (PJson (JStr rate_limited_text), JNull, JArr []))
        /\ (is_substring "429" (exn_str e) = false ->
            is_substring "Too Many Requests" (exn_str e) = false ->
            is_substring "Conversation not found" (exn_str e) = true ->
            continue_handler e = (PJson (JStr expired_text), JNull, JArr []))
        /\ (is_substring "429" (exn_str e) = false ->
            is_substring "Too Many Requests" (exn_str e) = false ->
            is_substring "Conversation not found" (exn_str e) = false ->
            continue_handler e
              = (PJson (JStr ("Sorry, an error occurred: " ++ exn_str e)), JNull, JArr [])))
  /\ (forall resp e,
        status_code resp = 429 -> raise_for_status resp = Raise e ->
        continue_handler e = (PJson (JStr rate_limited_text), JNull, JArr []))
  /\ rate_limited_text <> expired_text
  /\ (forall s, "Sorry, an error occurred: " ++ s <> rate_limited_text
                /\ "Sorry, an error occurred: " ++ s <> expired_text).
Proof.
  assert (Hrun : continue_conversation conv question w =
                 match continue_attempt (env_client w) conv question (after_token w) with
                 | (Ok v, w1) => (Ok v, w1)
                 | (Raise e, w1) => (Ok (continue_handler e), w1)
                 end).
  { unfold continue_conversation. unfold bind at 1. rewrite new_GenieClient_run.
    unfold try_except, ret. reflexivity. }
  split; [| split; [| split; [| split; [| split]]]].
  - rewrite Hrun.
    destruct (continue_attempt (env_client w) conv question (after_token w))
      as [[v | e] w1]; exact I.
  - intros e w1 H. now rewrite Hrun, H.
  - intros e. unfold continue_handler. split; [| split].
    + intros [H | H]; rewrite H; [reflexivity | now rewrite orb_true_r].
    + intros H1 H2 H3. now rewrite H1, H2, H3.
    + intros H1 H2 H3. now rewrite H1, H2, H3.
  - intros resp e Hcode Hraise. unfold raise_for_status in Hraise.
    rewrite Hcode in Hraise. simpl in Hraise. injection Hraise as <-.
    reflexivity.
  - discriminate.
  - apply generic_text_differs.
Qed.

(** Five times 404 "Conversation not found" on conversation [c1]: the
    conversation-expired text. *)
Lemma follow_up_error_texts_witness :
  fst (continue_conversation (JStr "c1") "And by region?" (conversation_gone "c1"))
    = Ok (PJson (JStr expired_text), JNull, JArr []).
Proof.
  refine (f_equal fst
           (proj1 (proj2 (follow_up_error_texts (JStr "c1") "And by region?"
                            (conversation_gone "c1")))
              {| exn_cls := HTTPError;
                 exn_str := "404 Client Error: Conversation not found for url: https://example.cloud.databricks.com/api/2.0/genie/spaces/space/conversations/c1/messages";
                 exn_response :=
                   Some {| status_code := 404; reason := "Conversation not found";
                           url := "https://example.cloud.databricks.com/api/2.0/genie/spaces/space/conversations/c1/messages";
                           text := ""; decoded := None |} |}
              (snd (continue_attempt (env_client (conversation_gone "c1")) (JStr "c1")
                      "And by region?" (after_token (conversation_gone "c1"))))
              _)).
  vm_compute. reflexivity.
Defined.

(** C8.  The code at a failing input: the same service, which answers
    404 "Conversation not found" to each of the five tries, and a
    conversation whose identifier is [c429].  The text of the error
    contains "Conversation not found", so the claim asks for the
    conversation-expired text; the handler looks for "429" first and finds
    it in the address of the request, and the answer is the
    try-again-later text. *)
Lemma expired_conversation_taken_for_rate_limit :
  match fst (continue_attempt (env_client (conversation_gone "c429")) (JStr "c429")
               "And by region?" (after_token (conversation_gone "c429"))) with
  | Raise e => is_substring "Conversation not found" (exn_str e) = true
  | Ok _ => False
  end
  /\ fst (continue_conversation (JStr "c429") "And by region?" (conversation_gone "c429"))
     = Ok (PJson (JStr rate_limited_text), JNull, JArr [])
  /\ rate_limited_text <> expired_text.
Proof. split; [vm_compute; reflexivity | split; [vm_compute; reflexivity | discriminate]]. Qed.

(** ** A whole question, from submission to result *)

(** The question is accepted, the first poll finds the message still in
    progress, the second finds it completed, and the list of messages
    holds the answer after the question: its text is the result, and the
    questions of its second attachment are the suggestions.  Four
    requests, one sleep of two seconds. *)
Example start_new_conversation_example :
  let w := world_of
             [ok_reply 120 (JObj [("conversation_id", JStr "c1");
                                  ("message_id", JStr "u1")]);
              ok_reply 40 pending_msg;
              ok_reply 40 (JObj [("message_id", JStr "u1");
                                 ("status", JStr "COMPLETED")]);
              ok_reply 60 (JObj [("messages",
                                  JArr [user_msg;
                                        JObj [("message_id", JStr "a1");
                                              ("attachments",
                                               JArr [text_att; suggestions_att])]])])] in
  fst (start_new_conversation "How did revenue develop?" w)
    = Ok (JStr "c1", PJson (JStr "Revenue grew."), JNull, JArr [JStr "A"; JStr "B"])
  /\ List.length (sent (snd (start_new_conversation "How did revenue develop?" w))) = 4%nat
  /\ slept (snd (start_new_conversation "How did revenue develop?" w)) = [2000].
Proof. repeat split; vm_compute; reflexivity. Qed.

(* ================================================================= *)
(** * Further properties *)

(** ** What a decorated call sends and how long it sleeps *)

Lemma json_call_exchanges m base e body ps :
  exchanges (json_call m base e body ps) exchange_json
    (fun authorization => mk_request m base e authorization body ps).
Proof. intros w. apply json_call_run. Qed.

Lemma query_result_call_exchanges base e :
  exchanges
    (res <- json_call GET base e None [] ;; lift (extract_query_result res))
    (fun rp => let? j := exchange_json rp in extract_query_result j)
    (fun authorization => mk_request GET base e authorization None []).
Proof.
  intros w. unfold bind. rewrite json_call_run.
  destruct (exchange_json _); reflexivity.
Qed.

Lemma run_op_exchanges self op :
  exists target,
    run_op self op = on_exception 5 2 target
    /\ exchanges target (attempt_outcome op) (op_request self op).
Proof.
  destruct op; simpl; eexists; (split; [reflexivity |]);
    first [apply json_call_exchanges | apply query_result_call_exchanges].
Qed.

Lemma backoff_budget_mono factor n0 m m' :
  0 <= factor -> (m <= m')%nat ->
  backoff_budget factor n0 m <= backoff_budget factor n0 m'.
Proof.
  intros Hf. revert n0 m. induction m' as [| m' IH]; intros n0 m Hle.
  - assert (m = 0%nat) by lia. subst. lia.
  - destruct m as [| m]; cbn [backoff_budget].
    + pose proof (expo_nonneg factor n0 Hf).
      specialize (IH (S n0) 0%nat ltac:(lia)). cbn [backoff_budget] in IH. lia.
    + specialize (IH (S n0) m ltac:(lia)). lia.
Qed.

(** A failed call that may be retried: one draw, one sleep, and the
    next call. *)
Lemma retry_fail_step {A : Type} (target : M A) (factor : Z)
    (remaining n0 : nat) (w w1 : world) (e : exn) :
  0 <= factor ->
  target w = (Raise e, w1) ->
  0 <= draws w1 (drawn w1) mod (expo factor n0 * 1000 + 1) <= expo factor n0 * 1000
  /\ retry factor (S remaining) n0 target w
     = retry factor remaining (S n0) target
         (after_backoff w1 (draws w1 (drawn w1) mod (expo factor n0 * 1000 + 1))).
Proof.
  intros Hfac Ht.
  assert (Hd : 0 <= draws w1 (drawn w1) mod (expo factor n0 * 1000 + 1)
               <= expo factor n0 * 1000).
  { pose proof (expo_nonneg factor n0 Hfac).
    pose proof (Z.mod_pos_bound (draws w1 (drawn w1)) (expo factor n0 * 1000 + 1)).
    lia. }
  split; [exact Hd |].
  cbn [retry]. rewrite Ht.
  unfold bind at 1, full_jitter, random_uniform.
  unfold bind at 1, time_sleep. cbn [now sent slept drawn minted tokens replies draws
                                     DATABRICKS_HOST SPACE_ID].
  destruct (draws w1 (drawn w1) mod (expo factor n0 * 1000 + 1) <? 0) eqn:Hneg;
    [apply Z.ltb_lt in Hneg; lia | reflexivity].
Qed.

(** The whole trace of [retry]: [k] calls, each under a fresh token,
    [k - 1] sleeps within the budget. *)
Lemma retry_trace {A : Type} (target : M A) (f : reply -> result A)
    (req : string -> request) (factor : Z) :
  exchanges target f req -> 0 <= factor ->
  forall (remaining n0 : nat) (w : world),
    exists (k : nat) (ds : list Z),
      (1 <= k <= remaining + 1)%nat
      /\ sent (snd (retry factor remaining n0 target w))
         = (sent w ++ map (fun j => req ("Bearer " ++ tokens w (minted w + j)%nat)%string)
                          (seq 0 k))%list
      /\ minted (snd (retry factor remaining n0 target w)) = (minted w + k)%nat
      /\ tokens (snd (retry factor remaining n0 target w)) = tokens w
      /\ slept (snd (retry factor remaining n0 target w)) = (slept w ++ ds)%list
      /\ List.length ds = (k - 1)%nat
      /\ Forall (fun d => 0 <= d) ds
      /\ total ds <= backoff_budget factor n0 (k - 1).
Proof.
  intros Hex Hfac.
  assert (Hone : forall remaining n0 w,
            returns (f (replies w (List.length (sent w)))) \/ remaining = 0%nat ->
            exists (k : nat) (ds : list Z),
              (1 <= k <= remaining + 1)%nat
              /\ sent (snd (retry factor remaining n0 target w))
                 = (sent w ++ map (fun j => req ("Bearer " ++ tokens w (minted w + j)%nat)%string)
                                  (seq 0 k))%list
              /\ minted (snd (retry factor remaining n0 target w)) = (minted w + k)%nat
              /\ tokens (snd (retry factor remaining n0 target w)) = tokens w
              /\ slept (snd (retry factor remaining n0 target w)) = (slept w ++ ds)%list
              /\ List.length ds = (k - 1)%nat
              /\ Forall (fun d => 0 <= d) ds
              /\ total ds <= backoff_budget factor n0 (k - 1)).
  { intros remaining n0 w Hcase. exists 1%nat, [].
    assert (Hrun : snd (retry factor remaining n0 target w)
                   = after_exchange w (req ("Bearer " ++ tokens w (minted w)))).
    { destruct remaining; cbn [retry]; rewrite (Hex w);
        destruct (f (replies w (List.length (sent w)))); try reflexivity.
      destruct Hcase as [Hc | Hc]; [contradiction | discriminate]. }
    rewrite Hrun. cbn [after_exchange sent minted tokens slept map seq].
    rewrite Nat.add_0_r, app_nil_r.
    repeat split; try lia; try reflexivity; constructor. }
  induction remaining as [| remaining IH]; intros n0 w.
  - apply (Hone 0%nat n0 w). now right.
  - destruct (f (replies w (List.length (sent w)))) as [a | e] eqn:Hf.
    + apply (Hone (S remaining) n0 w). left. now rewrite Hf.
    + pose proof (Hex w) as Ht. rewrite Hf in Ht.
      destruct (retry_fail_step target factor remaining n0 w _ e Hfac Ht) as [Hd ->].
      set (d := draws _ _ mod _) in *.
      destruct (IH (S n0) (after_backoff
                             (after_exchange w (req ("Bearer " ++ tokens w (minted w)))) d))
        as (k & ds & Hk & Hsent & Hmint & Htok & Hsl & Hlen & Hnn & Htot).
      cbn [after_backoff after_exchange sent minted tokens slept] in Hsent, Hmint, Htok, Hsl.
      exists (S k), (d :: ds).
      split; [lia |].
      split.
      { rewrite Hsent. rewrite <- app_assoc. f_equal. cbn [seq map app].
        rewrite Nat.add_0_r. f_equal.
        rewrite <- seq_shift, map_map. apply map_ext. intros j.
        now rewrite Nat.add_succ_r. }
      split; [rewrite Hmint; lia |].
      split; [exact Htok |].
      split; [rewrite Hsl; now rewrite <- app_assoc |].
      split; [cbn [List.length]; lia |].
      split; [constructor; [lia | exact Hnn] |].
      replace (S k - 1)%nat with (S (k - 1)) by lia.
      cbn [total fold_right backoff_budget]. fold (total ds). lia.
Qed.

(** X1.  Whatever the service does, a decorated method of the client
    makes between one and five requests; they are all the request of that
    operation, and the [j]-th of them carries the [j]-th token minted
    during the call: a fresh token for every attempt. *)
Theorem executor_requests (self : GenieClient) (op : executor_op) (w : world) :
  exists k : nat,
    (1 <= k <= 5)%nat
    /\ sent (snd (run_op self op w))
       = (sent w ++ map (fun j => op_request self op
                                    ("Bearer " ++ tokens w (minted w + j)%nat)%string)
                        (seq 0 k))%list
    /\ minted (snd (run_op self op w)) = (minted w + k)%nat.
Proof.
  destruct (run_op_exchanges self op) as (target & -> & Hex).
  unfold on_exception. change (5 - 1)%nat with 4%nat.
  destruct (retry_trace target _ _ 2 Hex ltac:(lia) 4 0 w)
    as (k & ds & Hk & Hsent & Hmint & _).
  exists k. split; [lia |]. split; assumption.
Qed.

(** X2.  A decorated method sleeps at most four times, once less than it
    makes requests, and for at most thirty seconds in all. *)
Theorem executor_sleep_budget (self : GenieClient) (op : executor_op) (w : world) :
  exists ds : list Z,
    slept (snd (run_op self op w)) = (slept w ++ ds)%list
    /\ S (List.length ds)
       = (List.length (sent (snd (run_op self op w))) - List.length (sent w))%nat
    /\ (List.length ds <= 4)%nat
    /\ Forall (fun d => 0 <= d) ds
    /\ total ds <= 30000.
Proof.
  destruct (run_op_exchanges self op) as (target & -> & Hex).
  unfold on_exception. change (5 - 1)%nat with 4%nat.
  destruct (retry_trace target _ _ 2 Hex ltac:(lia) 4 0 w)
    as (k & ds & Hk & Hsent & _ & _ & Hsl & Hlen & Hnn & Htot).
  exists ds. split; [exact Hsl |].
  split; [rewrite Hsent, length_app, length_map, length_seq; lia |].
  split; [lia |]. split; [exact Hnn |].
  pose proof (backoff_budget_mono 2 0 (k - 1) 4 ltac:(lia) ltac:(lia)) as Hm.
  change (backoff_budget 2 0 4) with 30000 in Hm. lia.
Qed.

(** ** More on the completion poller *)

Lemma get_message_requests self c m w :
  (List.length (sent (snd (get_message self c m w))) <= List.length (sent w) + 5)%nat.
Proof.
  unfold get_message, on_exception. change (5 - 1)%nat with 4%nat.
  destruct (retry_trace _ _ _ 2 (json_call_exchanges GET (base_url self) (MessageOf c m) None [])
              ltac:(lia) 4 0 w) as (k & ds & Hk & Hsent & _).
  rewrite Hsent, length_app, length_map, length_seq. lia.
Qed.

Lemma wait_loop_requests self c m timeout poll start :
  0 < poll ->
  forall (fuel K : nat) (w : world),
    timeout * 1000 - (now w - start) <= Z.of_nat K * (poll * 1000) ->
    (List.length (sent (snd (wait_loop fuel self c m timeout poll start w)))
     <= List.length (sent w) + 5 * K)%nat.
Proof.
  intros Hp. induction fuel as [| fuel IH]; intros K w Hleft.
  - cbn [wait_loop]. unfold raise. cbn [snd]. lia.
  - rewrite wait_loop_S by lia.
    destruct (now w - start <? timeout * 1000) eqn:Hg; [| cbn [snd]; lia].
    apply Z.ltb_lt in Hg.
    destruct K as [| K]; [lia |].
    pose proof (get_message_requests self c m w) as Hreq.
    pose proof (get_message_clock self c m w) as Hclock.
    destruct (get_message self c m w) as [[message | e] w1]; cbn [snd] in *; [| lia].
    destruct (py_get message "status" JNull) as [status | e]; cbn [snd]; [| lia].
    destruct (is_terminal status); cbn [snd]; [lia |].
    specialize (IH K (snd (time_sleep (poll * 1000) w1))).
    unfold time_sleep in IH |- *.
    destruct (poll * 1000 <? 0) eqn:Hneg; [apply Z.ltb_lt in Hneg; lia |].
    cbn [snd now sent] in IH |- *.
    assert (Hk : timeout * 1000 - (now w1 + poll * 1000 - start)
                 <= Z.of_nat K * (poll * 1000)) by lia.
    specialize (IH Hk). lia.
Qed.

(** X3.  With a positive poll interval the poller makes at most five
    requests for each interval that fits in the timeout, whatever the
    service answers: at most [5 * K] when [timeout <= K * poll_interval]. *)
Theorem poller_request_bound (self : GenieClient) (c m : json) (timeout poll : Z)
    (w : world) (K : nat) :
  0 < poll ->
  timeout <= Z.of_nat K * poll ->
  (List.length (sent (snd (wait_for_message_completion self c m timeout poll w)))
   <= List.length (sent w) + 5 * K)%nat.
Proof.
  intros Hp HK. rewrite wait_for_message_completion_run.
  apply wait_loop_requests; [exact Hp | lia].
Qed.

(** Under the defaults, 300 seconds and 2 seconds, at most 750 requests. *)
Lemma poller_request_bound_witness :
  (List.length
     (sent (snd (wait_for_message_completion a_client (JStr "c") (JStr "u1") 300 2
                   (world_of [ok_reply 40 pending_msg]))))
   <= 0 + 5 * 150)%nat.
Proof.
  apply (poller_request_bound a_client (JStr "c") (JStr "u1") 300 2
           (world_of [ok_reply 40 pending_msg]) 150); [reflexivity | discriminate].
Defined.

(** X4.  An error of the fetch is not swallowed by the poller: when the
    five tries of the first fetch all fail, the poller raises the error of
    the fifth, having made five requests and no further poll. *)
Theorem poller_propagates_fetch_error (self : GenieClient) (c m : json)
    (timeout poll : Z) (w : world) :
  0 < timeout ->
  (forall j, (j < 5)%nat ->
     raises (exchange_json (replies w (List.length (sent w) + j)%nat))) ->
  fst (wait_for_message_completion self c m timeout poll w)
    = exchange_json (replies w (List.length (sent w) + 4)%nat)
  /\ List.length (sent (snd (wait_for_message_completion self c m timeout poll w)))
     = (List.length (sent w) + 5)%nat.
Proof.
  intros Ht Hfail.
  destruct (retry_run _ exchange_json 2
              (json_call_single GET (base_url self) (MessageOf c m) None [])
              ltac:(lia) 4 0 w 4 (le_n 4)) as (w' & Hr & _ & _ & Hlen & _).
  { intros j Hj. apply Hfail. lia. }
  { now left. }
  pose proof (Hfail 4%nat ltac:(lia)) as H4.
  assert (Hrun : wait_for_message_completion self c m timeout poll w
                 = (exchange_json (replies w (List.length (sent w) + 4)%nat), w')).
  { rewrite wait_for_message_completion_run. cbn [wait_loop].
    unfold bind at 1, time_time.
    assert (Hg : (now w - now w <? timeout * 1000) = true) by (apply Z.ltb_lt; lia).
    rewrite Hg. unfold bind at 1. unfold get_message, on_exception.
    change (5 - 1)%nat with 4%nat. rewrite Hr.
    destruct (exchange_json (replies w (List.length (sent w) + 4)%nat));
      [contradiction | reflexivity]. }
  rewrite Hrun. cbn [fst snd]. split; [reflexivity | lia].
Qed.

(** A service that cannot be reached. *)
Lemma poller_propagates_fetch_error_witness :
  fst (wait_for_message_completion a_client (JStr "c") (JStr "u1") 300 2 (world_of []))
    = Raise (mk_exn ConnectionError "Connection refused").
Proof.
  refine (proj1 (poller_propagates_fetch_error a_client (JStr "c") (JStr "u1") 300 2
                   (world_of []) eq_refl _)).
  intros j Hj. destruct j as [| [| [| [| [| j]]]]]; exact I.
Defined.

(** X5.  With a timeout that is not positive the poller gives up before
    its first fetch: [TimeoutError], and nothing is sent. *)
Theorem poller_without_budget (self : GenieClient) (c m : json) (timeout poll : Z)
    (w : world) :
  timeout <= 0 ->
  wait_for_message_completion self c m timeout poll w = (Raise (timed_out timeout), w).
Proof.
  intros Ht. rewrite wait_for_message_completion_run. cbn [wait_loop].
  unfold bind at 1, time_time.
  assert (Hg : (now w - now w <? timeout * 1000) = false) by (apply Z.ltb_ge; lia).
  now rewrite Hg.
Qed.

Lemma poller_without_budget_witness :
  wait_for_message_completion a_client (JStr "c") (JStr "u1") 0 2
    (world_of [ok_reply 40 failed_msg])
  = (Raise (timed_out 0), world_of [ok_reply 40 failed_msg]).
Proof.
  apply (poller_without_budget a_client (JStr "c") (JStr "u1") 0 2
           (world_of [ok_reply 40 failed_msg])). discriminate.
Defined.

(** The three statuses that end the polling, compared as they are
    written. *)
Lemma is_terminal_three (status : json) :
  is_terminal status = true
  <-> status = JStr "COMPLETED" \/ status = JStr "ERROR" \/ status = JStr "FAILED".
Proof.
  split.
  - unfold is_terminal. cbn [existsb]. rewrite !orb_true_iff.
    destruct status as [| | | s | |]; cbn [py_eq]; intros H;
      try (destruct H as [H | [H | [H | H]]]; discriminate).
    destruct H as [H | [H | [H | H]]]; try discriminate;
      apply String.eqb_eq in H; subst; auto.
  - intros [-> | [-> | ->]]; reflexivity.
Qed.

(** The loop only adds to what has been sent and slept, and a message it
    returns comes from a fetch it has made. *)
Lemma wait_loop_extends self c m timeout poll start :
  0 <= poll ->
  forall (fuel : nat) (w : world),
    exists (rs : list request) (ds : list Z),
      sent (snd (wait_loop fuel self c m timeout poll start w)) = (sent w ++ rs)%list
      /\ slept (snd (wait_loop fuel self c m timeout poll start w)) = (slept w ++ ds)%list
      /\ (returns (fst (wait_loop fuel self c m timeout poll start w)) -> rs <> []).
Proof.
  intros Hp. induction fuel as [| fuel IH]; intros w.
  - exists [], []. cbn [wait_loop]. unfold raise. cbn [fst snd].
    rewrite !app_nil_r. repeat split. intros [].
  - rewrite wait_loop_S by lia.
    destruct (now w - start <? timeout * 1000).
    2:{ exists [], []. cbn [fst snd]. rewrite !app_nil_r. repeat split. intros []. }
    destruct (retry_trace _ _ _ 2
                (json_call_exchanges GET (base_url self) (MessageOf c m) None [])
                ltac:(lia) 4 0 w) as (k & ds1 & Hk & Hsent & _ & _ & Hslept & _).
    unfold get_message, on_exception. change (5 - 1)%nat with 4%nat.
    destruct k as [| k]; [lia |]. cbn [seq map] in Hsent.
    match type of Hsent with _ = (_ ++ ?r :: ?l)%list => set (r1 := r) in *; set (rs1 := l) in * end.
    destruct (retry 2 4 0 _ w) as [[message | e] w1]; cbn [snd] in Hsent, Hslept.
    2:{ exists (r1 :: rs1), ds1. cbn [fst snd]. repeat split; [assumption .. | discriminate]. }
    destruct (py_get message "status" JNull) as [status | e].
    2:{ exists (r1 :: rs1), ds1. cbn [fst snd]. repeat split; [assumption .. | discriminate]. }
    destruct (is_terminal status).
    { exists (r1 :: rs1), ds1. cbn [fst snd]. repeat split; [assumption .. | discriminate]. }
    destruct (IH (snd (time_sleep (poll * 1000) w1))) as (rs2 & ds2 & Hs2 & Hd2 & _).
    unfold time_sleep in Hs2, Hd2 |- *.
    destruct (poll * 1000 <? 0) eqn:Hneg; [apply Z.ltb_lt in Hneg; lia |].
    cbn [snd sent slept] in Hs2, Hd2 |- *.
    exists ((r1 :: rs1) ++ rs2)%list, (ds1 ++ poll * 1000 :: ds2)%list.
    rewrite Hs2, Hd2, Hsent, Hslept, <- !app_assoc. repeat split. discriminate.
Qed.

(** X6.  What ends the polling is one of exactly three statuses, compared
    as they are written.  When the first fetch brings a message whose
    status is COMPLETED, ERROR or FAILED, the poller returns that message
    after this one request and without sleeping.  With any other status
    (another string, the same word in another case, no status at all, a
    status that is not a string) the poller sleeps the poll interval after
    that request, and a message it returns in the end comes from a later
    request. *)
Theorem poller_stops_on_three_statuses (self : GenieClient) (c m : json)
    (timeout poll : Z) (w : world) (msg status : json) :
  0 < timeout -> 0 <= poll ->
  exchange_json (replies w (List.length (sent w))) = Ok msg ->
  py_get msg "status" JNull = Ok status ->
  (status = JStr "COMPLETED" \/ status = JStr "ERROR" \/ status = JStr "FAILED" ->
   wait_for_message_completion self c m timeout poll w
     = (Ok msg,
        after_exchange w
          (op_request self (OpGetMessage c m) ("Bearer " ++ tokens w (minted w)))))
  /\ (status <> JStr "COMPLETED" -> status <> JStr "ERROR" -> status <> JStr "FAILED" ->
      exists (rs : list request) (ds : list Z),
        sent (snd (wait_for_message_completion self c m timeout poll w))
          = (sent w
             ++ op_request self (OpGetMessage c m) ("Bearer " ++ tokens w (minted w))
             :: rs)%list
        /\ slept (snd (wait_for_message_completion self c m timeout poll w))
           = (slept w ++ poll * 1000 :: ds)%list
        /\ (returns (fst (wait_for_message_completion self c m timeout poll w)) ->
            rs <> [])).
Proof.
  intros Ht Hp Hex Hst.
  rewrite wait_for_message_completion_run, wait_loop_S by lia.
  assert (Hg : (now w - now w <? timeout * 1000) = true) by (apply Z.ltb_lt; lia).
  rewrite Hg, (get_message_first_ok self c m w msg Hex), Hst.
  split.
  - intros Hthree. apply is_terminal_three in Hthree. now rewrite Hthree.
  - intros H1 H2 H3.
    destruct (is_terminal status) eqn:Hterm.
    { apply is_terminal_three in Hterm. destruct Hterm as [? | [? | ?]]; contradiction. }
    unfold time_sleep.
    destruct (poll * 1000 <? 0) eqn:Hneg; [apply Z.ltb_lt in Hneg; lia |].
    cbn [snd].
    match goal with |- context [wait_loop ?fuel _ _ _ _ _ _ ?x] =>
      destruct (wait_loop_extends self c m timeout poll (now w) Hp fuel x)
        as (rs & ds & Hs & Hd & Hr) end.
    exists rs, ds. rewrite Hs, Hd. cbn [sent slept after_exchange op_request].
    rewrite <- !app_assoc. repeat split. exact Hr.
Qed.

(** A status in lower case does not end the polling: the poller sleeps
    two seconds and asks again. *)
Lemma poller_stops_on_three_statuses_witness :
  exists (rs : list request) (ds : list Z),
    sent (snd (wait_for_message_completion a_client (JStr "c") (JStr "u1") 300 2
                 (world_of [ok_reply 40 (JObj [("status", JStr "completed")]);
                            ok_reply 40 (JObj [("status", JStr "COMPLETED")])])))
      = ([] ++ op_request a_client (OpGetMessage (JStr "c") (JStr "u1")) "Bearer token"
         :: rs)%list
    /\ slept (snd (wait_for_message_completion a_client (JStr "c") (JStr "u1") 300 2
                     (world_of [ok_reply 40 (JObj [("status", JStr "completed")]);
                                ok_reply 40 (JObj [("status", JStr "COMPLETED")])])))
       = ([] ++ 2 * 1000 :: ds)%list
    /\ (returns (fst (wait_for_message_completion a_client (JStr "c") (JStr "u1") 300 2
                        (world_of [ok_reply 40 (JObj [("status", JStr "completed")]);
                                   ok_reply 40 (JObj [("status", JStr "COMPLETED")])]))) ->
        rs <> []).
Proof.
  apply (proj2 (poller_stops_on_three_statuses a_client (JStr "c") (JStr "u1") 300 2
                  (world_of [ok_reply 40 (JObj [("status", JStr "completed")]);
                             ok_reply 40 (JObj [("status", JStr "COMPLETED")])])
                  (JObj [("status", JStr "completed")]) (JStr "completed")
                  ltac:(lia) ltac:(lia) eq_refl eq_refl));
    discriminate.
Defined.

(** ** More on the result normaliser *)

Lemma sends_nothing P n w : sends P n w w.
Proof. exists []. rewrite app_nil_r. repeat split; [constructor | simpl; lia]. Qed.

Lemma sends_then P n1 n2 w w1 w2 :
  sends P n1 w w1 -> sends P n2 w1 w2 -> sends P (n1 + n2) w w2.
Proof.
  intros (rs1 & H1 & F1 & L1) (rs2 & H2 & F2 & L2). exists (rs1 ++ rs2)%list.
  rewrite H2, H1, <- app_assoc. repeat split.
  - apply Forall_app. now split.
  - rewrite length_app. lia.
Qed.

Lemma sends_more P n n' w w' : (n <= n')%nat -> sends P n w w' -> sends P n' w w'.
Proof. intros Hle (rs & H & F & L). exists rs. repeat split; try assumption. lia. Qed.

Lemma get_query_result_sends self c m a w :
  sends (is_query_fetch c m) 5 w (snd (get_query_result self c m a w)).
Proof.
  unfold get_query_result, on_exception. change (5 - 1)%nat with 4%nat.
  destruct (retry_trace _ _ _ 2
              (query_result_call_exchanges (base_url self) (QueryResult c m a))
              ltac:(lia) 4 0 w) as (k & ds & Hk & Hsent & _).
  eexists. split; [exact Hsent |]. split.
  - apply Forall_forall. intros r Hr. apply in_map_iff in Hr.
    destruct Hr as (j & <- & _). split; [reflexivity | now exists a].
  - rewrite length_map, length_seq. lia.
Qed.

Section NormaliserTrace.

Variables (client : GenieClient) (conv mid : json).

Lemma content_pass_sends (atts : list json) :
  forall res qt w,
    sends (is_query_fetch conv mid) (5 * List.length atts) w
      (snd (content_pass client conv mid atts res qt w)).
Proof.
  induction atts as [| attachment rest IH]; intros res qt w; [apply sends_nothing |].
  cbn [content_pass].
  rewrite bind_lift.
  destruct (py_get attachment "attachment_id" JNull) as [attachment_id | e];
    [| apply sends_nothing].
  rewrite bind_lift.
  destruct (py_in "text" attachment) as [has_text | e]; [| apply sends_nothing].
  assert (Hmore : (5 * List.length rest <= 5 * List.length (attachment :: rest))%nat)
    by (simpl; lia).
  assert (Hafter : forall has_content : bool,
    sends (is_query_fetch conv mid) (5 * List.length (attachment :: rest)) w
      (snd ((if has_content then
               content <- lift (let? t := py_getitem attachment "text" in
                                py_getitem t "content") ;;
               ret (PJson content, JNull)
             else
               has_query <- lift (py_in "query" attachment) ;;
               if has_query : bool then
                 query_text' <- lift (let? q := py_get attachment "query" (JObj []) in
                                      py_get q "query" (JStr "")) ;;
                 query_result <- get_query_result client conv mid attachment_id ;;
                 data_array <- lift (py_get query_result "data_array" (JArr [])) ;;
                 schema <- lift (py_get query_result "schema" (JObj [])) ;;
                 columns <- lift (schema_columns schema) ;;
                 if py_truthy data_array then
                   columns' <-
                     lift (match columns with
                           | [] =>
                               let? n := py_len data_array in
                               if 0 <? n then
                                 let? first := py_index data_array 0 in
                                 let? width := py_len first in
                                 Ok (generic_columns width)
                               else Ok columns
                           | _ :: _ => Ok columns
                           end) ;;
                   frame <- pd_DataFrame data_array columns' ;;
                   ret (frame, query_text')
                 else content_pass client conv mid rest res query_text'
               else content_pass client conv mid rest res qt) w))).
  { intros [|].
    - rewrite bind_lift.
      destruct (let? t := py_getitem attachment "text" in py_getitem t "content");
        apply sends_nothing.
    - rewrite bind_lift.
      destruct (py_in "query" attachment) as [[|] | e];
        [| apply (sends_more _ _ _ _ _ Hmore), IH | apply sends_nothing].
      rewrite bind_lift.
      destruct (let? q := py_get attachment "query" (JObj []) in py_get q "query" (JStr ""))
        as [query_text' | e]; [| apply sends_nothing].
      unfold bind at 1.
      pose proof (get_query_result_sends client conv mid attachment_id w) as Hfetch.
      destruct (get_query_result client conv mid attachment_id w)
        as [[query_result | e] w1]; cbn [snd] in Hfetch;
        [| cbn [snd]; apply (sends_more _ 5); [simpl; lia | exact Hfetch]].
      assert (Hfive : sends (is_query_fetch conv mid)
                        (5 * List.length (attachment :: rest)) w w1)
        by (apply (sends_more _ 5); [simpl; lia | exact Hfetch]).
      rewrite bind_lift.
      destruct (py_get query_result "data_array" (JArr [])) as [data_array | e];
        [| exact Hfive].
      rewrite bind_lift.
      destruct (py_get query_result "schema" (JObj [])) as [schema | e]; [| exact Hfive].
      rewrite bind_lift.
      destruct (schema_columns schema) as [columns | e]; [| exact Hfive].
      destruct (py_truthy data_array).
      + rewrite bind_lift.
        match goal with |- context [match ?x with Ok _ => _ | Raise _ => _ end] =>
          destruct x as [columns' | e] end; [| exact Hfive].
        unfold bind at 1. pose proof (pd_DataFrame_world data_array columns' w1) as Hw.
        destruct (pd_DataFrame data_array columns' w1) as [[frame | e] w2];
          cbn [snd] in Hw; subst w2; exact Hfive.
      + replace (5 * List.length (attachment :: rest))%nat
          with (5 + 5 * List.length rest)%nat by (simpl; lia).
        apply (sends_then _ _ _ w w1); [exact Hfetch | apply IH]. }
  destruct has_text.
  - rewrite bind_lift.
    destruct (let? t := py_getitem attachment "text" in py_in "content" t)
      as [has_content | e]; [apply Hafter | apply sends_nothing].
  - unfold bind at 1, ret. apply (Hafter false).
Qed.

(** X9.  The normaliser only ever asks for query results: every request
    it sends is a GET of a query result under the conversation and the
    message identifier it was called with, and it sends at most five of
    them (one fetch and its retries) for each attachment of the message. *)
Theorem normaliser_only_fetches (msg : json) (w : world) :
  exists rs : list request,
    sent (snd (process_genie_response client conv mid msg w)) = (sent w ++ rs)%list
    /\ Forall (is_query_fetch conv mid) rs
    /\ (forall atts items,
          py_get msg "attachments" (JArr []) = Ok atts ->
          py_iter atts = Ok items ->
          (List.length rs <= 5 * List.length items)%nat).
Proof.
  unfold process_genie_response.
  assert (Hnone : exists rs : list request,
            sent w = (sent w ++ rs)%list
            /\ Forall (is_query_fetch conv mid) rs
            /\ (forall atts items,
                  py_get msg "attachments" (JArr []) = Ok atts ->
                  py_iter atts = Ok items ->
                  (List.length rs <= 5 * List.length items)%nat)).
  { exists []. rewrite app_nil_r. repeat split; [constructor | intros; simpl; lia]. }
  rewrite bind_lift.
  destruct (py_get msg "attachments" (JArr [])) as [atts | e]; [| exact Hnone].
  rewrite bind_lift. destruct (py_len atts) as [n | e]; [| exact Hnone].
  rewrite bind_lift. destruct (py_iter atts) as [items | e] eqn:Hiter; [| exact Hnone].
  rewrite bind_lift.
  destruct (collect_pass items (JArr [])) as [sq | e]; [| exact Hnone].
  unfold bind at 1.
  destruct (content_pass_sends items (PJson JNull) JNull w) as (rs & Hs & Hf & Hl).
  destruct (content_pass client conv mid items (PJson JNull) JNull w)
    as [[[res qt] | e] w1]; cbn [snd] in Hs.
  - assert (Hend : forall x : result (pyval * json * json),
              exists rs0 : list request,
                sent (snd (x, w1)) = (sent w ++ rs0)%list
                /\ Forall (is_query_fetch conv mid) rs0
                /\ (forall atts0 items0,
                      Ok atts = Ok atts0 -> py_iter atts0 = Ok items0 ->
                      (List.length rs0 <= 5 * List.length items0)%nat)).
    { intros x. exists rs. cbn [snd]. repeat split; try assumption.
      intros atts0 items0 [= <-] Hi. rewrite Hiter in Hi. now injection Hi as <-. }
    destruct (negb (is_None res)).
    + rewrite bind_lift. destruct (py_len sq); apply Hend.
    + rewrite bind_lift. destruct (py_in "content" msg) as [[|] | e]; try apply Hend.
      rewrite bind_lift. destruct (py_len sq); [| apply Hend].
      rewrite bind_lift. destruct (py_get msg "content" (JStr "")); apply Hend.
  - exists rs. cbn [snd]. repeat split; try assumption.
    intros atts0 items0 [= <-] Hi. rewrite Hiter in Hi. now injection Hi as <-.
Qed.

End NormaliserTrace.

(** X7.  Whenever [get_query_result] returns, after however many tries,
    its value is a [dict] with exactly the keys "data_array" and "schema":
    the defaults the normaliser gives when it reads them are never used. *)
Theorem fetched_result_has_both_keys (self : GenieClient) (c m a : json)
    (w w1 : world) (qr : json) :
  get_query_result self c m a w = (Ok qr, w1) ->
  exists data_array schema,
    qr = JObj [("data_array", data_array); ("schema", schema)]
    /\ py_get qr "data_array" (JArr []) = Ok data_array
    /\ py_get qr "schema" (JObj []) = Ok schema.
Proof.
  intros H. destruct (get_query_result_shape self c m a w w1 qr H) as (d & s & ->).
  exists d, s. repeat split.
Qed.

Lemma fetched_result_has_both_keys_witness :
  exists data_array schema,
    JObj [("data_array", rows_3x4); ("schema", JObj [])]
      = JObj [("data_array", data_array); ("schema", schema)]
    /\ py_get (JObj [("data_array", rows_3x4); ("schema", JObj [])]) "data_array" (JArr [])
       = Ok data_array
    /\ py_get (JObj [("data_array", rows_3x4); ("schema", JObj [])]) "schema" (JObj [])
       = Ok schema.
Proof.
  apply (fetched_result_has_both_keys a_client (JStr "c") (JStr "u1") (JStr "q1")
           (world_of [ok_reply 30 (statement_response rows_3x4)])
           (snd (get_query_result a_client (JStr "c") (JStr "u1") (JStr "q1")
                   (world_of [ok_reply 30 (statement_response rows_3x4)])))).
  reflexivity.
Defined.

Lemma get_query_result_first_ok self c m a w j :
  exchange_json (replies w (List.length (sent w))) = Ok j ->
  get_query_result self c m a w =
    (extract_query_result j,
     after_exchange w (mk_request GET (base_url self) (QueryResult c m a)
                         ("Bearer " ++ tokens w (minted w)) None []))
  \/ raises (extract_query_result j).
Proof.
  intros Hex. destruct (extract_query_result j) as [qr | e] eqn:Hq; [left | now right].
  unfold get_query_result, on_exception. cbn [Nat.sub retry].
  unfold bind at 1. rewrite json_call_run, Hex. unfold lift. now rewrite Hq.
Qed.

(** X8.  Keys missing from the body of a query-result reply raise
    nothing: without "statement_response" the fetched result has no rows
    and an empty schema; with a statement that has no "result" and no
    "manifest" likewise; and with a "result" but no "manifest" the rows
    are those of the result (none if it has no "data_array") under an
    empty schema.  One request is made. *)
Theorem query_result_missing_keys (self : GenieClient) (c m a : json) (w : world)
    (f : list (string * json)) :
  exchange_json (replies w (List.length (sent w))) = Ok (JObj f) ->
  (dict_get f "statement_response" = None ->
     get_query_result self c m a w
       = (Ok (JObj [("data_array", JArr []); ("schema", JObj [])]),
          after_exchange w (mk_request GET (base_url self) (QueryResult c m a)
                              ("Bearer " ++ tokens w (minted w)) None [])))
  /\ (forall sr,
        dict_get f "statement_response" = Some (JObj sr) ->
        dict_get sr "manifest" = None ->
        (dict_get sr "result" = None ->
           fst (get_query_result self c m a w)
             = Ok (JObj [("data_array", JArr []); ("schema", JObj [])]))
        /\ (forall rf,
              dict_get sr "result" = Some (JObj rf) ->
              fst (get_query_result self c m a w)
                = Ok (JObj [("data_array",
                             match dict_get rf "data_array" with
                             | Some rows => rows
                             | None => JArr []
                             end);
                            ("schema", JObj [])]))).
Proof.
  intros Hex. split.
  - intros Hnone.
    destruct (get_query_result_first_ok self c m a w (JObj f) Hex) as [-> | Hr].
    + unfold extract_query_result. cbn [py_in py_get rbind]. unfold dict_has.
      rewrite Hnone. reflexivity.
    + unfold extract_query_result in Hr. cbn [py_in py_get rbind] in Hr.
      unfold dict_has in Hr. rewrite Hnone in Hr. contradiction.
  - intros sr Hsr Hman. split.
    + intros Hres.
      destruct (get_query_result_first_ok self c m a w (JObj f) Hex) as [-> | Hr].
      * unfold extract_query_result. cbn [py_in py_get py_getitem rbind fst].
        unfold dict_has. rewrite Hsr. cbn [rbind py_in]. unfold dict_has.
        rewrite Hres. cbn [rbind py_get]. rewrite Hman. reflexivity.
      * unfold extract_query_result in Hr. cbn [py_in py_get py_getitem rbind] in Hr.
        unfold dict_has in Hr. rewrite Hsr in Hr. cbn [rbind py_in] in Hr.
        unfold dict_has in Hr. rewrite Hres in Hr. cbn [rbind py_get] in Hr.
        rewrite Hman in Hr. contradiction.
    + intros rf Hres.
      destruct (get_query_result_first_ok self c m a w (JObj f) Hex) as [-> | Hr].
      * unfold extract_query_result. cbn [py_in py_get py_getitem rbind fst].
        unfold dict_has. rewrite Hsr. cbn [rbind py_in py_getitem]. unfold dict_has.
        rewrite Hres. cbn [rbind py_get]. rewrite Hman. reflexivity.
      * unfold extract_query_result in Hr. cbn [py_in py_get py_getitem rbind] in Hr.
        unfold dict_has in Hr. rewrite Hsr in Hr. cbn [rbind py_in py_getitem] in Hr.
        unfold dict_has in Hr. rewrite Hres in Hr. cbn [rbind py_get] in Hr.
        rewrite Hman in Hr. contradiction.
Qed.

(** An empty object as body. *)
Lemma query_result_missing_keys_witness :
  fst (get_query_result a_client (JStr "c") (JStr "u1") (JStr "q1")
         (world_of [ok_reply 30 (JObj [])]))
    = Ok (JObj [("data_array", JArr []); ("schema", JObj [])]).
Proof.
  exact (f_equal fst
           (proj1 (query_result_missing_keys a_client (JStr "c") (JStr "u1") (JStr "q1")
                     (world_of [ok_reply 30 (JObj [])]) [] eq_refl) eq_refl)).
Defined.

Section NormaliserEdges.

Variables (client : GenieClient) (conv mid : json).

(** X10.  The test for inline text is on the shape Python sees, not on a
    type: when "text" holds a plain string, the word "content" is looked
    for inside that string.  If it occurs, indexing the string raises
    [TypeError] and the second pass ends there; if it does not, the
    attachment counts as having no text. *)
Theorem text_given_as_string (af : list (string * json)) (s : string)
    (rest : list json) (res : pyval) (qt : json) (w : world) :
  dict_get af "text" = Some (JStr s) ->
  (is_substring "content" s = true ->
     exists e, content_pass client conv mid (JObj af :: rest) res qt w = (Raise e, w)
               /\ exn_cls e = TypeError)
  /\ (is_substring "content" s = false ->
      dict_has af "query" = false ->
      content_pass client conv mid (JObj af :: rest) res qt w
        = content_pass client conv mid rest res qt w).
Proof.
  intros Htext.
  split.
  - intros Hin. eexists. cbn [content_pass].
    rewrite bind_lift. cbn [py_get]. rewrite bind_lift. cbn [py_in].
    unfold dict_has. rewrite Htext. rewrite bind_lift. cbn [py_getitem rbind py_in].
    rewrite Htext. cbn [rbind py_in]. rewrite Hin.
    rewrite bind_lift. cbn [py_getitem rbind]. split; reflexivity.
  - intros Hin Hq. cbn [content_pass].
    rewrite bind_lift. cbn [py_get]. rewrite bind_lift. cbn [py_in].
    unfold dict_has. rewrite Htext. rewrite bind_lift. cbn [py_getitem rbind py_in].
    rewrite Htext. cbn [rbind py_in]. rewrite Hin.
    rewrite bind_lift. cbn [py_in]. unfold dict_has in Hq. rewrite Hq. reflexivity.
Qed.

(** X11.  A payload [{"questions": x}] is read before its shape is
    known: when [x] has no length ([None], a number, a boolean) the line
    that logs how many questions were found raises [TypeError], and the
    normaliser ends with that error before any content is looked at or
    anything is sent. *)
Theorem questions_without_length (f af sf : list (string * json))
    (pre post : list json) (x : json) (w : world) :
  dict_get f "attachments" = Some (JArr (pre ++ JObj af :: post)) ->
  returns (collect_pass pre (JArr [])) ->
  dict_get af "suggested_questions" = Some (JObj sf) ->
  dict_get sf "questions" = Some x ->
  raises (py_len x) ->
  exists e, process_genie_response client conv mid (JObj f) w = (Raise e, w)
            /\ exn_cls e = TypeError.
Proof.
  intros Hatts Hpre Hsq Hqs Hlen.
  assert (Hcollect : exists e, collect_pass (pre ++ JObj af :: post) (JArr []) = Raise e
                               /\ exn_cls e = TypeError).
  { rewrite collect_pass_app.
    destruct (collect_pass pre (JArr [])) as [sq1 |]; [| contradiction]. cbn [rbind].
    cbn [collect_pass py_keys rbind py_in py_get]. unfold dict_has. rewrite Hsq.
    cbn [rbind is_dict py_in py_get]. unfold dict_has. rewrite Hqs. cbn [rbind].
    destruct x; try contradiction; cbn [py_len rbind]; eexists; split; reflexivity. }
  destruct Hcollect as (e & Hc & He). exists e. split; [| exact He].
  unfold process_genie_response. rewrite bind_lift. cbn [py_get]. rewrite Hatts.
  rewrite bind_lift. cbn [py_len]. rewrite bind_lift. cbn [py_iter].
  rewrite bind_lift, Hc. reflexivity.
Qed.

End NormaliserEdges.

Lemma text_given_as_string_witness :
  exists e,
    content_pass a_client (JStr "c") (JStr "u1")
      [JObj [("text", JStr "The content of the table is empty.")]]
      (PJson JNull) JNull (world_of [])
    = (Raise e, world_of [])
    /\ exn_cls e = TypeError.
Proof.
  apply (proj1 (text_given_as_string a_client (JStr "c") (JStr "u1")
                  [("text", JStr "The content of the table is empty.")]
                  "The content of the table is empty." [] (PJson JNull) JNull
                  (world_of []) eq_refl)).
  reflexivity.
Defined.

Lemma questions_without_length_witness :
  exists e,
    process_genie_response a_client (JStr "c") (JStr "u1")
      (JObj [("attachments",
              JArr [text_att; JObj [("suggested_questions", JObj [("questions", JNull)])]])])
      (world_of [])
    = (Raise e, world_of [])
    /\ exn_cls e = TypeError.
Proof.
  apply (questions_without_length a_client (JStr "c") (JStr "u1")
           [("attachments",
             JArr [text_att; JObj [("suggested_questions", JObj [("questions", JNull)])]])]
           [("suggested_questions", JObj [("questions", JNull)])]
           [("questions", JNull)] [text_att] [] JNull (world_of []));
    try reflexivity; exact I.
Defined.

(** ** More on the response resolver *)

Lemma py_index_in (l : list json) (i : Z) (x : json) :
  py_index (JArr l) i = Ok x -> In x l.
Proof.
  unfold py_index.
  set (j := if i <? 0 then i + Z.of_nat (List.length l) else i).
  destruct ((0 <=? j) && (j <? Z.of_nat (List.length l))) eqn:Hb; [| discriminate].
  intros [= <-]. apply andb_prop in Hb. destruct Hb as [H0 H1].
  apply Z.leb_le in H0. apply Z.ltb_lt in H1. apply nth_In. lia.
Qed.

Lemma py_index_object (messages : json) (i : Z) (x v : json) :
  py_index messages i = Ok x -> py_get x "message_id" JNull = Ok v ->
  exists l, messages = JArr l /\ In x l.
Proof.
  destruct messages as [| | | s | l | f]; cbn [py_index]; try discriminate.
  - match goal with |- match ?c with _ => _ end = _ -> _ => destruct c end;
      [| discriminate].
    intros [= <-]. discriminate.
  - intros Hi _. exists l. split; [reflexivity |]. now apply (py_index_in l i).
Qed.

Lemma find_bot_response_in (messages : json) (items : list json) :
  forall i mid b,
    find_bot_response messages items i mid = Ok b ->
    b = JNull \/ exists l, messages = JArr l /\ In b l.
Proof.
  induction items as [| msg rest IH]; intros i mid b H; cbn [find_bot_response] in H.
  - left. now injection H as <-.
  - destruct (py_get msg "message_id" JNull) as [id |]; [| discriminate]. cbn [rbind] in H.
    destruct (py_get msg "role" (JStr "unknown")); [| discriminate]. cbn [rbind] in H.
    destruct (py_eq id mid); [| now apply (IH (i + 1) mid)].
    destruct (py_len messages) as [n |]; [| discriminate]. cbn [rbind] in H.
    destruct (i + 1 <? n); [| left; now injection H as <-].
    destruct (py_index messages (i + 1)) as [bot |] eqn:Hi; [| discriminate].
    cbn [rbind] in H.
    destruct (py_get bot "message_id" JNull) as [v |] eqn:Hv; [| discriminate].
    cbn [rbind] in H. injection H as <-. right.
    now apply (py_index_object messages (i + 1) bot v).
Qed.

(** X12.  The resolver never makes up a message: whatever the listing
    looks like, what it returns is either the polled message or one of the
    entries of the list under "messages". *)
Theorem resolver_returns_known_message (mid polled resp r : json) :
  resolve_answer mid polled resp = Ok r ->
  r = polled
  \/ exists l, py_get resp "messages" (JArr []) = Ok (JArr l) /\ In r l.
Proof.
  unfold resolve_answer. intros H.
  destruct (py_get resp "messages" (JArr [])) as [messages |]; [| discriminate].
  cbn [rbind] in H.
  destruct (py_len messages); [| discriminate]. cbn [rbind] in H.
  destruct (py_iter messages) as [items |]; [| discriminate]. cbn [rbind] in H.
  destruct (find_bot_response messages items 0 mid) as [bot |] eqn:Hfind; [| discriminate].
  cbn [rbind] in H.
  destruct (py_truthy bot) eqn:Htruthy.
  - injection H as <-.
    destruct (find_bot_response_in messages items 0 mid bot Hfind) as [-> | (l & -> & Hin)];
      [discriminate |].
    right. now exists l.
  - destruct (py_truthy messages); [| left; now injection H as <-].
    destruct (py_index messages (-1)) as [full |] eqn:Hi; [| discriminate].
    cbn [rbind] in H.
    destruct (py_get full "message_id" JNull) as [v |] eqn:Hv; [| discriminate].
    cbn [rbind] in H. injection H as <-.
    destruct (py_index_object messages (-1) full v Hi Hv) as (l & -> & Hin).
    right. now exists l.
Qed.

Lemma resolver_returns_known_message_witness :
  answer_msg = pending_msg
  \/ exists l,
       py_get (JObj [("messages", JArr [user_msg; answer_msg; later_msg])])
         "messages" (JArr []) = Ok (JArr l)
       /\ In answer_msg l.
Proof.
  apply (resolver_returns_known_message (JStr "u1") pending_msg
           (JObj [("messages", JArr [user_msg; answer_msg; later_msg])]) answer_msg).
  reflexivity.
Defined.

(** ** The ask operations and the entry point *)

Lemma start_new_conversation_run question w :
  start_new_conversation question w =
    match start_attempt (env_client w) question (after_token w) with
    | (Ok v, w1) => (Ok v, w1)
    | (Raise e, w1) =>
        (Ok (JNull, PJson (JStr (try_again_text e)), JNull, JArr []), w1)
    end.
Proof.
  unfold start_new_conversation. unfold bind at 1. rewrite new_GenieClient_run.
  reflexivity.
Qed.

Lemma start_new_conversation_returns question w :
  returns (fst (start_new_conversation question w)).
Proof.
  rewrite start_new_conversation_run.
  destruct (start_attempt (env_client w) question (after_token w)) as [[v | e] w1];
    exact I.
Qed.

(** X13.  A new conversation never raises; and when the service fails the
    five tries of the submission, the answer is [None] for the
    conversation, the text "Sorry, an error occurred: ... Please try
    again." around the text of the fifth error, no query text and no
    suggestions, after five requests: neither the poller nor the listing
    is started. *)
Theorem new_conversation_with_service_down (question : string) (w : world) :
  returns (fst (start_new_conversation question w))
  /\ ((forall j, (j < 5)%nat ->
         raises (exchange_json (replies w (List.length (sent w) + j)%nat))) ->
      exists e,
        exchange_json (replies w (List.length (sent w) + 4)%nat) = Raise e
        /\ fst (start_new_conversation question w)
           = Ok (JNull, PJson (JStr (try_again_text e)), JNull, JArr [])
        /\ List.length (sent (snd (start_new_conversation question w)))
           = (List.length (sent w) + 5)%nat).
Proof.
  split; [apply start_new_conversation_returns |].
  intros Hfail.
  destruct (retry_run _ exchange_json 2
              (json_call_single POST (base_url (env_client w)) StartConversation
                 (Some (JObj [("content", JStr question)])) [])
              ltac:(lia) 4 0 (after_token w) 4 (le_n 4))
    as (w' & Hr & _ & _ & Hlen & _).
  { intros j Hj. apply Hfail. lia. }
  { now left. }
  cbn [after_token sent replies] in Hr, Hlen.
  pose proof (Hfail 4%nat ltac:(lia)) as H4.
  destruct (exchange_json (replies w (List.length (sent w) + 4)%nat)) as [v | e];
    [contradiction |].
  exists e. split; [reflexivity |].
  assert (Hrun : start_new_conversation question w
                 = (Ok (JNull, PJson (JStr (try_again_text e)), JNull, JArr []), w')).
  { rewrite start_new_conversation_run. unfold start_attempt.
    unfold bind at 1. unfold start_conversation, on_exception.
    change (5 - 1)%nat with 4%nat. rewrite Hr. reflexivity. }
  rewrite Hrun. cbn [fst snd]. split; [reflexivity | lia].
Qed.

Lemma new_conversation_with_service_down_witness :
  fst (start_new_conversation "How did revenue develop?" (world_of []))
    = Ok (JNull,
          PJson (JStr "Sorry, an error occurred: Connection refused. Please try again."),
          JNull, JArr []).
Proof.
  destruct (proj2 (new_conversation_with_service_down "How did revenue develop?"
                     (world_of [])))
    as (e & He & Hres & _).
  - intros j Hj. destruct j as [| [| [| [| [| j]]]]]; exact I.
  - injection He as <-. exact Hres.
Defined.

Lemma genie_query_run question w :
  genie_query question w =
    match start_new_conversation question w with
    | (Ok (conversation_id, res, query_text, suggested_questions), w1) =>
        match list_conversation_messages (env_client w) conversation_id (after_token w1) with
        | (Ok messages_response, w2) =>
            match (let? messages := py_get messages_response "messages" (JArr []) in
                   if py_truthy messages then
                     let? items := py_reversed messages in find_bot_message_id items
                   else Ok JNull) with
            | Ok bot_message_id =>
                (Ok (res, query_text, suggested_questions, conversation_id, bot_message_id),
                 w2)
            | Raise e => (Ok (PJson (JStr (try_again_text e)), JNull, JArr [], JNull, JNull), w2)
            end
        | (Raise e, w2) =>
            (Ok (PJson (JStr (try_again_text e)), JNull, JArr [], JNull, JNull), w2)
        end
    | (Raise e, w1) =>
        (Ok (PJson (JStr (try_again_text e)), JNull, JArr [], JNull, JNull), w1)
    end.
Proof.
  unfold genie_query, try_except, genie_query_attempt. unfold bind at 1.
  destruct (start_new_conversation question w) as [[[[[cid res] qt] sq] | e] w1];
    [| reflexivity].
  unfold bind at 1.
  change (new_GenieClient (DATABRICKS_HOST w) (SPACE_ID w) w1)
    with (Ok (env_client w), after_token w1).
  cbv iota beta. unfold bind at 1.
  destruct (list_conversation_messages (env_client w) cid (after_token w1))
    as [[mr | e] w2]; [| reflexivity].
  rewrite bind_lift.
  destruct (py_get mr "messages" (JArr [])) as [messages | e]; [| reflexivity].
  cbn [rbind]. rewrite bind_lift.
  destruct (if py_truthy messages
            then let? items := py_reversed messages in find_bot_message_id items
            else Ok JNull); reflexivity.
Qed.

Lemma find_bot_message_id_skips (users rest : list json) :
  forallb is_user_message users = true ->
  find_bot_message_id (users ++ rest) = find_bot_message_id rest.
Proof.
  induction users as [| u users IH]; intros H; [reflexivity |].
  simpl in H. apply andb_prop in H. destruct H as [Hu Hrest].
  destruct u as [| | | | | f]; try discriminate.
  cbn [app find_bot_message_id py_get rbind]. unfold is_user_message in Hu.
  rewrite Hu. cbn [negb]. now apply IH.
Qed.

Lemma forallb_rev {A : Type} (p : A -> bool) (l : list A) :
  forallb p (rev l) = forallb p l.
Proof.
  induction l as [| a l IH]; [reflexivity |].
  cbn [rev forallb]. rewrite forallb_app, IH. cbn [forallb].
  rewrite andb_true_r. apply andb_comm.
Qed.

(** X14.  [genie_query] never raises.  When the conversation has been
    started and its messages are listed, the message identifier it
    returns, for later feedback, is that of the last message of the list
    whose role is not "USER", found from the end; the result, the query
    text, the suggestions and the conversation are those of
    [start_new_conversation]. *)
Theorem genie_query_bot_message (question : string) (w w1 w2 : world)
    (cid qt sq mr m : json) (res : pyval) (before after : list json) :
  start_new_conversation question w = (Ok (cid, res, qt, sq), w1) ->
  list_conversation_messages (env_client w) cid (after_token w1) = (Ok mr, w2) ->
  py_get mr "messages" (JArr []) = Ok (JArr (before ++ m :: after)) ->
  is_bot_message m = true ->
  forallb is_user_message after = true ->
  genie_query question w = (Ok (res, qt, sq, cid, message_id_of m), w2)
  /\ (forall question' w', returns (fst (genie_query question' w'))).
Proof.
  intros Hstart Hlist Hmsgs Hbot Hafter. split.
  - rewrite genie_query_run, Hstart, Hlist, Hmsgs. cbn [rbind].
    assert (Htruthy : py_truthy (JArr (before ++ m :: after)) = true)
      by (destruct before; reflexivity).
    rewrite Htruthy. cbn [py_reversed rbind].
    rewrite rev_app_distr. cbn [rev]. rewrite <- app_assoc. cbn [app].
    rewrite find_bot_message_id_skips by now rewrite forallb_rev.
    destruct m as [| | | | | f]; try discriminate.
    cbn [find_bot_message_id py_get rbind]. unfold is_bot_message in Hbot.
    rewrite Hbot. reflexivity.
  - intros question' w'. rewrite genie_query_run.
    destruct (start_new_conversation question' w') as [[[[[cid' res'] qt'] sq'] | e] w1'];
      [| exact I].
    destruct (list_conversation_messages (env_client w') cid' (after_token w1'))
      as [[mr' | e] w2']; [| exact I].
    match goal with |- context [match ?x with Ok _ => _ | Raise _ => _ end] =>
      destruct x end; exact I.
Qed.

(** The answer [a1] is followed by a later question of the user. *)
Lemma genie_query_bot_message_witness :
  fst (genie_query "How did revenue develop?" one_question)
    = Ok (PJson (JStr "42"), JNull, JArr [], JStr "c1", JStr "a1").
Proof.
  refine (f_equal fst
            (proj1 (genie_query_bot_message "How did revenue develop?" one_question
                      (snd (start_new_conversation "How did revenue develop?" one_question))
                      (snd (genie_query "How did revenue develop?" one_question))
                      (JStr "c1") JNull (JArr [])
                      (JObj [("messages", JArr [user_msg; answer_msg; later_msg])])
                      answer_msg (PJson (JStr "42")) [user_msg] [later_msg]
                      _ _ eq_refl eq_refl eq_refl)));
    vm_compute; reflexivity.
Defined.

(** X15.  [genie_query] lists the messages even when the conversation
    could not be started: with a service that fails ten times it makes ten
    requests, the last five of them for the messages of conversation
    [None], and the error it reports is the tenth, that of the listing. *)
Theorem genie_query_with_service_down (question : string) (w : world) :
  (forall j, (j < 10)%nat ->
     raises (exchange_json (replies w (List.length (sent w) + j)%nat))) ->
  exists e,
    exchange_json (replies w (List.length (sent w) + 9)%nat) = Raise e
    /\ fst (genie_query question w)
       = Ok (PJson (JStr (try_again_text e)), JNull, JArr [], JNull, JNull)
    /\ List.length (sent (snd (genie_query question w))) = (List.length (sent w) + 10)%nat
    /\ Forall (fun r => req_method r = GET /\ req_endpoint r = Messages JNull)
         (skipn (List.length (sent w) + 5) (sent (snd (genie_query question w)))).
Proof.
  intros Hfail.
  assert (Hstart : exists e1 w1,
            start_new_conversation question w
              = (Ok (JNull, PJson (JStr (try_again_text e1)), JNull, JArr []), w1)
            /\ List.length (sent w1) = (List.length (sent w) + 5)%nat
            /\ replies w1 = replies w).
  { destruct (retry_run _ exchange_json 2
                (json_call_single POST (base_url (env_client w)) StartConversation
                   (Some (JObj [("content", JStr question)])) [])
                ltac:(lia) 4 0 (after_token w) 4 (le_n 4))
      as (w' & Hr & Hrep & _ & Hlen & _).
    { intros j Hj. apply Hfail. lia. }
    { now left. }
    cbn [after_token sent replies] in Hr, Hlen, Hrep.
    pose proof (Hfail 4%nat ltac:(lia)) as H4.
    destruct (exchange_json (replies w (List.length (sent w) + 4)%nat)) as [v | e1];
      [contradiction |].
    exists e1, w'. split; [| split; [lia | exact Hrep]].
    rewrite start_new_conversation_run. unfold start_attempt.
    unfold bind at 1. unfold start_conversation, on_exception.
    change (5 - 1)%nat with 4%nat. rewrite Hr. reflexivity. }
  destruct Hstart as (e1 & w1 & Hstart & Hlen1 & Hrep1).
  destruct (retry_run _ exchange_json 2
              (json_call_single GET (base_url (env_client w)) (Messages JNull) None [])
              ltac:(lia) 4 0 (after_token w1) 4 (le_n 4))
    as (w2 & Hr & _ & _ & Hlen2 & _).
  { intros j Hj. cbn [after_token sent replies]. rewrite Hrep1, Hlen1.
    replace (List.length (sent w) + 5 + j)%nat
      with (List.length (sent w) + (5 + j))%nat by lia.
    apply Hfail. lia. }
  { now left. }
  destruct (retry_trace _ _ _ 2
              (json_call_exchanges GET (base_url (env_client w)) (Messages JNull) None [])
              ltac:(lia) 4 0 (after_token w1)) as (k & ds & Hk & Hsent & _).
  rewrite Hr in Hsent. cbn [snd] in Hsent.
  cbn [after_token sent replies] in Hr, Hlen2, Hsent.
  rewrite Hrep1, Hlen1 in Hr.
  replace (List.length (sent w) + 5 + 4)%nat with (List.length (sent w) + 9)%nat in Hr by lia.
  pose proof (Hfail 9%nat ltac:(lia)) as H9.
  destruct (exchange_json (replies w (List.length (sent w) + 9)%nat)) as [v | e];
    [contradiction |].
  exists e. split; [reflexivity |].
  assert (Hrun : genie_query question w
                 = (Ok (PJson (JStr (try_again_text e)), JNull, JArr [], JNull, JNull), w2)).
  { rewrite genie_query_run, Hstart.
    unfold list_conversation_messages, on_exception. change (5 - 1)%nat with 4%nat.
    rewrite Hr. reflexivity. }
  rewrite Hrun. cbn [fst snd]. split; [reflexivity |]. split; [lia |].
  rewrite Hsent, <- Hlen1, skipn_app, skipn_all, Nat.sub_diag. cbn [app skipn].
  apply Forall_forall. intros r Hin. apply in_map_iff in Hin.
  destruct Hin as (j & <- & _). split; reflexivity.
Qed.

Lemma genie_query_with_service_down_witness :
  fst (genie_query "How did revenue develop?" (world_of []))
    = Ok (PJson (JStr "Sorry, an error occurred: Connection refused. Please try again."),
          JNull, JArr [], JNull, JNull).
Proof.
  destruct (genie_query_with_service_down "How did revenue develop?" (world_of []))
    as (e & He & Hres & _).
  - intros j Hj. do 10 (destruct j as [| j]; [exact I |]). exact I.
  - injection He as <-. exact Hres.
Defined.

(** ** Space details *)

Lemma get_space_details_first_ok self w j :
  exchange_json (replies w (List.length (sent w))) = Ok j ->
  get_space_details self w =
    (Ok j, after_exchange w (op_request self OpGetSpaceDetails
                               ("Bearer " ++ tokens w (minted w)))).
Proof.
  intros H. unfold get_space_details, on_exception. cbn [Nat.sub retry].
  rewrite json_call_run, H. reflexivity.
Qed.

Lemma get_space_details_all_fail self w :
  (forall j, (j < 5)%nat ->
     raises (exchange_json (replies w (List.length (sent w) + j)%nat))) ->
  exists e w',
    get_space_details self w = (Raise e, w')
    /\ List.length (sent w') = (List.length (sent w) + 5)%nat.
Proof.
  intros Hfail.
  destruct (retry_run _ exchange_json 2
              (json_call_single GET
                 ("https://" ++ host self ++ "/api/2.0/genie/spaces/" ++ space_id self)
                 SpaceDetails None [("include_serialized_space", "true")])
              ltac:(lia) 4 0 w 4 (le_n 4)) as (w' & Hr & _ & _ & Hlen & _).
  { intros j Hj. apply Hfail. lia. }
  { now left. }
  pose proof (Hfail 4%nat ltac:(lia)) as H4.
  destruct (exchange_json (replies w (List.length (sent w) + 4)%nat)) as [v | e];
    [contradiction |].
  exists e, w'. split; [| lia].
  unfold get_space_details, on_exception. change (5 - 1)%nat with 4%nat. exact Hr.
Qed.

Lemma sample_questions_of_asks (items qs : list json) :
  Forall2 asks items qs -> sample_questions_of items = qs.
Proof.
  induction 1 as [| item q items qs (f & more & -> & Hq) _ IH]; [reflexivity |].
  cbn [sample_questions_of sample_question]. rewrite Hq, IH. reflexivity.
Qed.

Lemma string_truthy (s : string) : s <> "" -> py_truthy (JStr s) = true.
Proof.
  intros Hs. cbn [py_truthy]. destruct (String.eqb s "") eqn:He; [| reflexivity].
  apply String.eqb_eq in He. contradiction.
Qed.

Section DecoderProperties.

Variable json_loads : string -> option json.

Lemma get_sample_questions_run w :
  get_sample_questions json_loads w =
    match get_space_details (env_client w) (after_token w) with
    | (Ok space_details, w1) =>
        match (let? serialized_space := py_get space_details "serialized_space" JNull in
               if negb (py_truthy serialized_space) then Ok []
               else
                 let? space_config := py_json_loads json_loads serialized_space in
                 let? config := py_get space_config "config" (JObj []) in
                 let? data := py_get config "sample_questions" (JArr []) in
                 let? items := py_iter data in
                 Ok (sample_questions_of items)) with
        | Ok qs => (Ok qs, w1)
        | Raise _ => (Ok [], w1)
        end
    | (Raise _, w1) => (Ok [], w1)
    end.
Proof.
  unfold get_sample_questions, try_except, sample_questions_attempt.
  unfold bind at 1. rewrite new_GenieClient_run. unfold bind at 1.
  destruct (get_space_details (env_client w) (after_token w)) as [[sd | e] w1];
    [| reflexivity].
  rewrite bind_lift.
  destruct (py_get sd "serialized_space" JNull) as [ss | e]; [| reflexivity].
  cbn [rbind]. destruct (negb (py_truthy ss)); [reflexivity |].
  rewrite bind_lift.
  destruct (py_json_loads json_loads ss) as [cfg | e]; [| reflexivity]. cbn [rbind].
  rewrite bind_lift.
  destruct (py_get cfg "config" (JObj [])) as [c | e]; [| reflexivity]. cbn [rbind].
  destruct (py_get c "sample_questions" (JArr [])) as [data | e]; [| reflexivity].
  cbn [rbind]. rewrite bind_lift.
  destruct (py_iter data); reflexivity.
Qed.

(** X16.  The sample questions of a space come back as they were put in:
    when the space details carry a serialized configuration whose
    "config" lists, under "sample_questions", entries that each hold a
    list starting with a question, [get_sample_questions] returns those
    first questions in the order of the entries. *)
Theorem sample_questions_read_back (w : world) (f cf c : list (string * json))
    (s : string) (items qs : list json) :
  exchange_json (replies w (List.length (sent w))) = Ok (JObj f) ->
  dict_get f "serialized_space" = Some (JStr s) ->
  s <> "" ->
  json_loads s = Some (JObj cf) ->
  dict_get cf "config" = Some (JObj c) ->
  dict_get c "sample_questions" = Some (JArr items) ->
  Forall2 asks items qs ->
  fst (get_sample_questions json_loads w) = Ok qs.
Proof.
  intros Hex Hss Hs Hloads Hconfig Hsq Hasks.
  rewrite get_sample_questions_run.
  rewrite (get_space_details_first_ok (env_client w) (after_token w) (JObj f) Hex).
  cbn [py_get rbind]. rewrite Hss, (string_truthy s Hs). cbn [negb py_json_loads].
  rewrite Hloads. cbn [rbind py_get]. rewrite Hconfig. cbn [rbind py_get].
  rewrite Hsq. cbn [rbind py_iter]. now rewrite (sample_questions_of_asks items qs Hasks).
Qed.

(** X17.  [get_sample_questions] never raises and falls back to the empty
    list: when the five tries of the request fail (five requests are
    made), when the space details have no "serialized_space", and when
    the serialized configuration is not JSON. *)
Theorem sample_questions_default_to_empty (w : world) :
  returns (fst (get_sample_questions json_loads w))
  /\ ((forall j, (j < 5)%nat ->
         raises (exchange_json (replies w (List.length (sent w) + j)%nat))) ->
      fst (get_sample_questions json_loads w) = Ok []
      /\ List.length (sent (snd (get_sample_questions json_loads w)))
         = (List.length (sent w) + 5)%nat)
  /\ (forall f,
        exchange_json (replies w (List.length (sent w))) = Ok (JObj f) ->
        (dict_get f "serialized_space" = None ->
           fst (get_sample_questions json_loads w) = Ok [])
        /\ (forall s,
              dict_get f "serialized_space" = Some (JStr s) ->
              json_loads s = None ->
              fst (get_sample_questions json_loads w) = Ok [])).
Proof.
  rewrite get_sample_questions_run. split; [| split].
  - destruct (get_space_details (env_client w) (after_token w)) as [[sd | e] w1];
      [| exact I].
    match goal with |- context [match ?x with Ok _ => _ | Raise _ => _ end] =>
      destruct x end; exact I.
  - intros Hfail.
    destruct (get_space_details_all_fail (env_client w) (after_token w) Hfail)
      as (e & w' & -> & Hlen).
    cbn [fst snd after_token sent] in *. split; [reflexivity | exact Hlen].
  - intros f Hex.
    rewrite (get_space_details_first_ok (env_client w) (after_token w) (JObj f) Hex).
    split.
    + intros Hnone. cbn [py_get rbind]. rewrite Hnone. reflexivity.
    + intros s Hss Hloads. cbn [py_get rbind]. rewrite Hss.
      destruct (negb (py_truthy (JStr s))); [reflexivity |].
      cbn [py_json_loads]. rewrite Hloads. reflexivity.
Qed.

Lemma get_space_info_run w :
  get_space_info json_loads w =
    match get_space_details (env_client w) (after_token w) with
    | (Ok space_details, w1) =>
        match (let? _ := py_keys space_details in
               let? space_title := py_get space_details "title" JNull in
               let? space_description := py_get space_details "description" JNull in
               let? space_title' :=
                 (if negb (py_truthy space_title) then
                    let? display_name := py_get space_details "display_name" JNull in
                    if py_truthy display_name then Ok display_name
                    else py_get space_details "name" JNull
                  else Ok space_title) in
               let? space_description' :=
                 (if negb (py_truthy space_description) then
                    let? serialized_space :=
                      py_get space_details "serialized_space" JNull in
                    if py_truthy serialized_space
                    then description_from_serialized json_loads serialized_space
                           space_description
                    else Ok space_description
                  else Ok space_description) in
               Ok (space_title', space_description')) with
        | Ok info => (Ok info, w1)
        | Raise _ => (Ok (JNull, JNull), w1)
        end
    | (Raise _, w1) => (Ok (JNull, JNull), w1)
    end.
Proof.
  unfold get_space_info, try_except, space_info_attempt.
  unfold bind at 1. rewrite new_GenieClient_run. unfold bind at 1.
  destruct (get_space_details (env_client w) (after_token w)) as [[sd | e] w1];
    [| reflexivity].
  rewrite bind_lift. destruct (py_keys sd); [| reflexivity]. cbn [rbind].
  rewrite bind_lift. destruct (py_get sd "title" JNull) as [t | e]; [| reflexivity].
  cbn [rbind]. rewrite bind_lift.
  destruct (py_get sd "description" JNull) as [d | e]; [| reflexivity].
  cbn [rbind]. rewrite bind_lift.
  match goal with |- match match ?x with Ok _ => _ | Raise _ => _ end with _ => _ end = _ =>
    destruct x end; [| reflexivity].
  cbn [rbind]. rewrite bind_lift.
  match goal with |- match match ?x with Ok _ => _ | Raise _ => _ end with _ => _ end = _ =>
    destruct x end; reflexivity.
Qed.

Lemma space_title_run (f : list (string * json)) :
  (let? space_title := py_get (JObj f) "title" JNull in
   if negb (py_truthy space_title) then
     let? display_name := py_get (JObj f) "display_name" JNull in
     if py_truthy display_name then Ok display_name
     else py_get (JObj f) "name" JNull
   else Ok space_title) = Ok (space_title_of f).
Proof.
  unfold space_title_of. cbn [py_get rbind].
  destruct (py_truthy match dict_get f "title" with Some v => v | None => JNull end);
    cbn [negb]; [reflexivity |].
  destruct (py_truthy match dict_get f "display_name" with Some v => v | None => JNull end);
    reflexivity.
Qed.

(** X18.  The title of a space is its "title" if that is true, else its
    "display_name" if that is true, else its "name"; and when the space
    details carry a description that is true, [get_space_info] returns it
    with that title whatever the serialized configuration holds, readable
    or not. *)
Theorem space_info_with_description (w : world) (f : list (string * json)) (d : json) :
  exchange_json (replies w (List.length (sent w))) = Ok (JObj f) ->
  dict_get f "description" = Some d ->
  py_truthy d = true ->
  fst (get_space_info json_loads w) = Ok (space_title_of f, d).
Proof.
  intros Hex Hd Htruthy. rewrite get_space_info_run.
  rewrite (get_space_details_first_ok (env_client w) (after_token w) (JObj f) Hex).
  pose proof (space_title_run f) as Ht. cbn [py_get rbind] in Ht.
  cbn [py_keys py_get rbind]. rewrite Hd, Htruthy. cbn [negb rbind].
  destruct (negb (py_truthy match dict_get f "title" with Some v => v | None => JNull end)).
  - cbn [rbind] in Ht |- *.
    destruct (py_truthy match dict_get f "display_name" with Some v => v | None => JNull end);
      injection Ht as <-; reflexivity.
  - injection Ht as <-. reflexivity.
Qed.

(** X19.  Without a description at the top level, [get_space_info] looks
    into the serialized configuration.  If that is JSON for an object,
    the description is the "description" of its "config" ([None] without
    one).  If it is not JSON, the title is kept and the description stays
    [None].  If it is JSON for anything but an object, the title is lost
    with the description: both are [None]. *)
Theorem space_info_from_serialized (w : world) (f : list (string * json)) (s : string) :
  exchange_json (replies w (List.length (sent w))) = Ok (JObj f) ->
  dict_get f "description" = None ->
  dict_get f "serialized_space" = Some (JStr s) ->
  s <> "" ->
  (forall cf c,
     json_loads s = Some (JObj cf) ->
     dict_get cf "config" = Some (JObj c) ->
     fst (get_space_info json_loads w)
       = Ok (space_title_of f,
             match dict_get c "description" with Some v => v | None => JNull end))
  /\ (json_loads s = None ->
      fst (get_space_info json_loads w) = Ok (space_title_of f, JNull))
  /\ (forall j,
        json_loads s = Some j -> is_dict j = false ->
        fst (get_space_info json_loads w) = Ok (JNull, JNull)).
Proof.
  intros Hex Hd Hss Hs. rewrite get_space_info_run.
  rewrite (get_space_details_first_ok (env_client w) (after_token w) (JObj f) Hex).
  pose proof (space_title_run f) as Ht. cbn [py_get rbind] in Ht.
  cbn [py_keys py_get rbind]. rewrite Hd, Hss. cbn [py_truthy negb rbind].
  pose proof (string_truthy s Hs) as Htr. cbn [py_truthy] in Htr. rewrite Htr.
  assert (Htitle : forall k : json -> result (json * json),
            (let? space_title' :=
               (if negb (py_truthy match dict_get f "title" with
                                   | Some v => v | None => JNull end)
                then
                  if py_truthy match dict_get f "display_name" with
                               | Some v => v | None => JNull end
                  then Ok match dict_get f "display_name" with
                          | Some v => v | None => JNull end
                  else Ok match dict_get f "name" with Some v => v | None => JNull end
                else Ok match dict_get f "title" with Some v => v | None => JNull end) in
             k space_title') = k (space_title_of f)).
  { intros k.
    destruct (negb (py_truthy match dict_get f "title" with
                               | Some v => v | None => JNull end)).
    - cbn [rbind] in Ht.
      destruct (py_truthy match dict_get f "display_name" with
                           | Some v => v | None => JNull end);
        injection Ht as <-; reflexivity.
    - injection Ht as <-. reflexivity. }
  rewrite Htitle. unfold description_from_serialized. cbn [py_json_loads].
  split; [| split].
  - intros cf c Hloads Hconfig. rewrite Hloads. cbn [rbind py_get].
    rewrite Hconfig. reflexivity.
  - intros Hloads. rewrite Hloads. reflexivity.
  - intros j Hloads Hj. rewrite Hloads. cbn [rbind].
    destruct j; try discriminate; reflexivity.
Qed.

End DecoderProperties.

Lemma sample_questions_read_back_witness :
  fst (get_sample_questions loads_example (world_of [space_reply]))
    = Ok [JStr "Which region grew most?"; JStr "What was the revenue?"].
Proof.
  apply (sample_questions_read_back loads_example (world_of [space_reply])
           [("title", JStr ""); ("display_name", JStr "Sales");
            ("serialized_space", JStr "{config}")]
           [("config",
             JObj [("description", JStr "Sales of the last quarter");
                   ("sample_questions",
                    JArr [JObj [("id", JStr "1");
                                ("question", JArr [JStr "Which region grew most?"])];
                          JObj [("id", JStr "2");
                                ("question", JArr [JStr "What was the revenue?"])]])])]
           [("description", JStr "Sales of the last quarter");
            ("sample_questions",
             JArr [JObj [("id", JStr "1");
                         ("question", JArr [JStr "Which region grew most?"])];
                   JObj [("id", JStr "2");
                         ("question", JArr [JStr "What was the revenue?"])]])]
           "{config}"
           [JObj [("id", JStr "1"); ("question", JArr [JStr "Which region grew most?"])];
            JObj [("id", JStr "2"); ("question", JArr [JStr "What was the revenue?"])]]);
    try reflexivity.
  - discriminate.
  - repeat constructor; eexists; eexists; (split; [reflexivity | reflexivity]).
Defined.

Lemma sample_questions_default_to_empty_witness :
  fst (get_sample_questions loads_example (world_of [])) = Ok [].
Proof.
  apply (proj1 (proj2 (sample_questions_default_to_empty loads_example (world_of [])))).
  intros j Hj. do 5 (destruct j as [| j]; [exact I |]). exact I.
Defined.

Lemma space_info_with_description_witness :
  fst (get_space_info loads_example
         (world_of [ok_reply 50 (JObj [("name", JStr "sales_space");
                                       ("description", JStr "All about sales")])]))
    = Ok (JStr "sales_space", JStr "All about sales").
Proof.
  apply (space_info_with_description loads_example
           (world_of [ok_reply 50 (JObj [("name", JStr "sales_space");
                                         ("description", JStr "All about sales")])])
           [("name", JStr "sales_space"); ("description", JStr "All about sales")]
           (JStr "All about sales")); reflexivity.
Defined.

Lemma space_info_from_serialized_witness :
  fst (get_space_info loads_example (world_of [space_reply]))
    = Ok (JStr "Sales", JStr "Sales of the last quarter").
Proof.
  refine (proj1 (space_info_from_serialized loads_example (world_of [space_reply])
                   [("title", JStr ""); ("display_name", JStr "Sales");
                    ("serialized_space", JStr "{config}")]
                   "{config}" eq_refl eq_refl eq_refl _)
            _ [("description", JStr "Sales of the last quarter");
               ("sample_questions",
                JArr [JObj [("id", JStr "1");
                            ("question", JArr [JStr "Which region grew most?"])];
                      JObj [("id", JStr "2");
                            ("question", JArr [JStr "What was the revenue?"])]])]
            eq_refl eq_refl).
  discriminate.
Defined.

(** ** More on the feedback submitter *)

(** X20.  [send_message_feedback] is not decorated: it makes one request
    and passes on what goes wrong.  An error status is raised as an
    [HTTPError] that carries the response it came from, which is what the
    caller reads the status from; no other [HTTPError] is raised. *)
Theorem feedback_http_error_has_response (self : GenieClient) (c m : json)
    (sentiment : string) (w w' : world) (e : exn) :
  send_message_feedback self c m sentiment w = (Raise e, w') ->
  List.length (sent w') = S (List.length (sent w))
  /\ (exn_cls e = HTTPError ->
      exists resp,
        exn_response e = Some resp
        /\ outcome (replies w (List.length (sent w))) = inr resp
        /\ 400 <= status_code resp < 600).
Proof.
  rewrite send_message_feedback_run. cbv zeta.
  destruct (outcome (replies w (List.length (sent w)))) as [msg | resp] eqn:Hout.
  - intros [= <- <-]. split; [| discriminate].
    cbn [after_exchange sent]. rewrite length_app. simpl. lia.
  - destruct ((400 <=? status_code resp) && (status_code resp <? 600)) eqn:Hst.
    + destruct (raise_for_status_error resp Hst) as [msg ->].
      intros [= <- <-]. split.
      * cbn [after_exchange sent]. rewrite length_app. simpl. lia.
      * intros _. exists resp. split; [reflexivity |]. split; [reflexivity |].
        apply andb_prop in Hst. destruct Hst as [H4 H6].
        apply Z.leb_le in H4. apply Z.ltb_lt in H6. lia.
    + rewrite (raise_for_status_ok resp Hst).
      destruct (String.eqb (text resp) ""); [discriminate |].
      unfold response_json. destruct (decoded resp); [discriminate |].
      intros [= <- <-]. split; [| discriminate].
      cbn [after_exchange sent]. rewrite length_app. simpl. lia.
Qed.

Lemma feedback_http_error_has_response_witness :
  exists resp,
    Some {| status_code := 403; reason := "Forbidden"; url := "u"; text := "";
            decoded := None |} = Some resp
    /\ outcome (replies (world_of [error_reply 403 "Forbidden" "u"]) 0) = inr resp
    /\ 400 <= status_code resp < 600.
Proof.
  refine (proj2 (feedback_http_error_has_response a_client (JStr "c") (JStr "a1") "negative"
                   (world_of [error_reply 403 "Forbidden" "u"])
                   (snd (send_message_feedback a_client (JStr "c") (JStr "a1") "negative"
                           (world_of [error_reply 403 "Forbidden" "u"])))
                   {| exn_cls := HTTPError;
                      exn_str := "403 Client Error: Forbidden for url: u";
                      exn_response :=
                        Some {| status_code := 403; reason := "Forbidden"; url := "u";
                                text := ""; decoded := None |} |}
                   eq_refl) eq_refl).
Defined.
